(** * MusicDownloads: the concurrent acquisition-and-compression pipeline

    A shallow embedding of the Python modules [ConcurrentTasks],
    [FileCompression], [NetworkOperations], [DataProcessing] and
    [AudioTrackProcessing], followed by the properties of the pipeline
    that the specification states about them.

    Conventions of the embedding:
    - Python [int] is [Z]; a byte count is [N]; [str] is [string].
    - A Python function that can raise returns a [Py.result]; a function
      with effects is a state transformer [Py.M S A] that keeps the state
      reached when the exception was raised, the way Python does.
    - An insertion-ordered [dict] whose order is observable (the ID3 tag
      table, the timeout table) is an association list; a [set] of
      strings is a [gset string]; the file system is a [gmap] from paths
      to nodes.
    - External collaborators (the [you-get] and [ffmpeg] processes, the
      remote compression site, mutagen's serialiser) are parameters. *)

From Stdlib Require Import ZArith Lia List Ascii String.
From stdpp Require Import base decidable option list strings gmap pretty.

Local Open Scope Z_scope.
Local Open Scope string_scope.

(* ===================================================================== *)
(** ** Python runtime: exceptions, results, stateful computations        *)
(* ===================================================================== *)

Module Py.

(** The exception classes the modelled code names or can meet.  All of
    them derive from [Exception], so an [except Exception] clause
    catches every constructor. *)
Inductive exn : Type :=
| FileNotFoundError
| OSError
| MutagenError
| ID3NoHeaderError
| IndexError
| TimeoutExpired
| TimeoutException
| NoSuchElementException
| WebDriverException
| AttributeError
| Exception (msg : string).

Inductive result (A : Type) : Type :=
| Ok (a : A)
| Raise (e : exn).
Arguments Ok {A} a.
Arguments Raise {A} e.

Definition is_ok {A} (r : result A) : bool :=
  match r with Ok _ => true | Raise _ => false end.

(** Stateful computation that may raise. *)
Definition M (S A : Type) : Type := S -> result A * S.

Definition ret {S A} (a : A) : M S A := fun s => (Ok a, s).
Definition raise {S A} (e : exn) : M S A := fun s => (Raise e, s).
Definition bind {S A B} (m : M S A) (k : A -> M S B) : M S B :=
  fun s => match m s with
           | (Ok a, s') => k a s'
           | (Raise e, s') => (Raise e, s')
           end.
Definition lift {S A} (r : result A) : M S A := fun s => (r, s).
Definition gets {S A} (f : S -> A) : M S A := fun s => (Ok (f s), s).
Definition modify {S} (f : S -> S) : M S unit := fun s => (Ok tt, f s).

(** [try: m  except Exception as e: h e] *)
Definition try_except {S A} (m : M S A) (h : exn -> M S A) : M S A :=
  fun s => match m s with
           | (Ok a, s') => (Ok a, s')
           | (Raise e, s') => h e s'
           end.

(** [try: m  finally: fin].  The clean-up always runs; when it raises,
    its exception replaces the outcome of [m]. *)
Definition try_finally {S A} (m : M S A) (fin : M S unit) : M S A :=
  fun s => match m s with
           | (r, s') => match fin s' with
                        | (Ok _, s'') => (r, s'')
                        | (Raise e, s'') => (Raise e, s'')
                        end
           end.

(** [d.get(key)] on a dict kept as an association list. *)
Definition dict_get {V} (key : string) (d : list (string * V)) : option V :=
  snd <$> List.find (fun kv => String.eqb (fst kv) key) d.

(** Log records: level and message. *)
Inductive level : Type := DEBUG | INFO | WARNING | ERROR.

Class Logging (S : Type) := emit : level -> string -> S -> S.

Definition logger {S} `{Logging S} (l : level) (msg : string) : M S unit :=
  modify (emit l msg).

End Py.

Import Py.

Declare Scope py_scope.
Delimit Scope py_scope with py.
Notation "'let*' x ':=' m 'in' k" := (Py.bind m (fun x => k))
  (at level 10, x name, m at level 100, k at level 200) : py_scope.
Notation "m ';;' k" := (Py.bind m (fun _ => k))
  (at level 100, k at level 200, right associativity) : py_scope.
Local Open Scope py_scope.

(* ===================================================================== *)
(** ** [os.path] and the string methods the program uses                 *)
(* ===================================================================== *)

(** Paths follow [posixpath]: the separator is ["/"].  (The program also
    runs on Windows, where [ntpath] accepts a backslash as well and
    knows drives; none of the properties below depends on the
    separator.) *)
Module OsPath.

Definition sep : ascii := "/"%char.
Definition extsep : ascii := "."%char.

Definition startswith (p s : string) : bool := String.prefix p s.

(** [s.endswith(c)] for a single character. *)
Fixpoint endswith_char (c : ascii) (s : string) : bool :=
  match s with
  | EmptyString => false
  | String d EmptyString => Ascii.eqb c d
  | String _ s' => endswith_char c s'
  end.

(** [s.endswith(suffix)] *)
Definition endswith (suffix s : string) : bool :=
  let n := String.length s in
  let k := String.length suffix in
  andb (Nat.leb k n) (String.eqb (String.substring (n - k) k s) suffix).

(** [needle in s] *)
Fixpoint contains (needle s : string) : bool :=
  orb (startswith needle s)
      match s with
      | EmptyString => false
      | String _ s' => contains needle s'
      end.

(** [os.path.join(a, b)] *)
Definition join (a b : string) : string :=
  if startswith (String sep "") b then b
  else if orb (String.eqb a "") (endswith_char sep a) then a +:+ b
  else a +:+ String sep "" +:+ b.

(** [os.path.basename(p)]: what follows the last separator. *)
Fixpoint basename_from (acc p : string) : string :=
  match p with
  | EmptyString => acc
  | String c p' =>
      if Ascii.eqb c sep then basename_from "" p'
      else basename_from (acc +:+ String c "") p'
  end.
Definition basename (p : string) : string := basename_from "" p.

(** The part of [s] before its last dot, when it has one. *)
Fixpoint before_last_dot (s : string) : option string :=
  match s with
  | EmptyString => None
  | String c s' =>
      match before_last_dot s' with
      | Some r => Some (String c r)
      | None => if Ascii.eqb c extsep then Some "" else None
      end
  end.

(** [os.path.splitext(name)[0]] for a name without separators: leading
    dots never start an extension. *)
Fixpoint splitext_root (name : string) : string :=
  match name with
  | String c rest =>
      if Ascii.eqb c extsep then String c (splitext_root rest)
      else match before_last_dot name with
           | Some r => r
           | None => name
           end
  | EmptyString => EmptyString
  end.

End OsPath.

(* ===================================================================== *)
(** ** The ID3 tag table of [mutagen.id3]                                *)
(* ===================================================================== *)

(** The part of the library the program relies on: a tag table is a dict
    from hash keys to frames; [getall] and [delall] address a frame
    identifier together with the keys it prefixes; [add] stores a frame
    under its own hash key. *)
Module Mutagen.

(** ID3 frames, as far as the program builds or reads them: text frames
    (TIT3, TDRC, TPE1, ...), URL frames (WOAR), attached pictures (APIC),
    and any other frame by its hash key and its rendering. *)
Inductive frame : Type :=
| Text (id : string) (text : list string)
| Url (id : string) (url : string)
| Apic (type : Z) (desc : string) (mime : option string) (data : string)
| OtherFrame (hash_key : string) (repr : string).

(** [frame.HashKey] *)
Definition HashKey (f : frame) : string :=
  match f with
  | Text id _ => id
  | Url id url => id +:+ ":" +:+ url
  | Apic _ desc _ _ => "APIC:" +:+ desc
  | OtherFrame k _ => k
  end.

(** [str(frame)]: a text frame renders as its values joined by NUL. *)
Definition str (f : frame) : string :=
  match f with
  | Text _ text => String.concat (String Ascii.zero "") text
  | Url _ url => url
  | Apic _ desc _ _ => desc
  | OtherFrame _ repr => repr
  end.

(** The tag table of an [ID3] object: an insertion-ordered dict from
    hash keys to frames. *)
Definition tags : Type := list (string * frame).

Fixpoint lookup (key : string) (t : tags) : option frame :=
  match t with
  | [] => None
  | (k, f) :: t' => if String.eqb k key then Some f else lookup key t'
  end.

Definition has_key (key : string) (t : tags) : bool :=
  match lookup key t with Some _ => true | None => false end.

(** [self[key] = f]: replace in place, or append. *)
Fixpoint setitem (key : string) (f : frame) (t : tags) : tags :=
  match t with
  | [] => [(key, f)]
  | (k, g) :: t' =>
      if String.eqb k key then (k, f) :: t' else (k, g) :: setitem key f t'
  end.

Definition keep (p : string -> bool) (t : tags) : tags :=
  List.filter (fun kf => p (fst kf)) t.

(** [getall(key)]: the frame stored under [key], else every frame whose
    hash key starts with [key + ":"]. *)
Definition getall (key : string) (t : tags) : list frame :=
  match lookup key t with
  | Some f => [f]
  | None => List.map snd (keep (OsPath.startswith (key +:+ ":")) t)
  end.

(** [delall(key)] *)
Definition delall (key : string) (t : tags) : tags :=
  if has_key key t then keep (fun k => negb (String.eqb k key)) t
  else keep (fun k => negb (OsPath.startswith (key +:+ ":") k)) t.

(** [add(frame)]: stored under the frame's hash key, replacing a frame
    that has the same key. *)
Definition add (f : frame) (t : tags) : tags := setitem (HashKey f) f t.

End Mutagen.

(* ===================================================================== *)
(** ** The file system and the world                                     *)
(* ===================================================================== *)

(** The files are a finite map from paths to nodes.  A directory lists
    its entries in the order [os.listdir] returns them; nothing forces a
    listed entry to exist, so a file that disappears between the listing
    and its use is a state of the model. *)
Module Fs.

(** What [ID3(path)] finds in a readable regular file. *)
Inductive id3_state : Type :=
| NoHeader
| Damaged
| Frames (t : Mutagen.tags).

(** A regular file: its byte length, whether it can be opened for
    reading, its bytes, what [filetype] makes of them (the guessed MIME
    type, whether it is an image), and what [ID3] finds in it. *)
Record file : Type := mkFile {
  size : N;
  readable : bool;
  raw : string;
  mime : option string;
  image : bool;
  id3 : id3_state
}.

Inductive node : Type :=
| Reg (f : file)
| Dir (dsize : N) (entries : list string).

Abbreviation fs := (gmap string node).

Definition isdir (files : fs) (p : string) : bool :=
  match files !! p with Some (Dir _ _) => true | _ => false end.

Definition isfile (files : fs) (p : string) : bool :=
  match files !! p with Some (Reg _) => true | _ => false end.

(** [os.listdir(p)] *)
Definition listdir (files : fs) (p : string) : result (list string) :=
  match files !! p with
  | Some (Dir _ entries) => Ok entries
  | Some (Reg _) => Raise OSError
  | None => Raise FileNotFoundError
  end.

(** [os.path.getsize(p)] *)
Definition getsize (files : fs) (p : string) : result N :=
  match files !! p with
  | Some (Reg f) => Ok (size f)
  | Some (Dir s _) => Ok s
  | None => Raise FileNotFoundError
  end.

(** [ID3(p)]: load the tag table of a file. *)
Definition ID3 (files : fs) (p : string) : result Mutagen.tags :=
  match files !! p with
  | Some (Reg f) =>
      if readable f then
        match id3 f with
        | NoHeader => Raise ID3NoHeaderError
        | Damaged => Raise MutagenError
        | Frames t => Ok t
        end
      else Raise MutagenError
  | Some (Dir _ _) => Raise MutagenError
  | None => Raise MutagenError
  end.

(** Opening a path for reading, as [open] and [filetype] do. *)
Definition open_rb (files : fs) (p : string) : result file :=
  match files !! p with
  | Some (Reg f) => if readable f then Ok f else Raise OSError
  | Some (Dir _ _) => Raise OSError
  | None => Raise FileNotFoundError
  end.

(** [shutil.rmtree(d)]: the directory and everything below it. *)
Definition below (d p : string) : bool :=
  orb (String.eqb p d) (OsPath.startswith (d +:+ "/") p).

Definition rmtree (d : string) (files : fs) : fs :=
  filter (fun kv => below d (fst kv) = false) files.

(** A file is written at [join(d, name)]: it is stored and the
    directory lists it. *)
Definition add_entry (name : string) (n : node) : node :=
  match n with
  | Dir s entries =>
      if bool_decide (name ∈ entries) then n else Dir s (entries ++ [name])
  | Reg _ => n
  end.

Definition write_file (d name : string) (f : file) (files : fs) : fs :=
  <[OsPath.join d name := Reg f]> (alter (add_entry name) d files).

Definition del_entry (name : string) (n : node) : node :=
  match n with
  | Dir s entries =>
      Dir s (List.filter (fun e => negb (String.eqb e name)) entries)
  | Reg _ => n
  end.

(** The world the program runs in: the files, the log, the sleeps taken
    ([time.sleep] arguments, oldest first), and, as a ghost trace, the
    loop counter of every retry-loop iteration that was entered. *)
Record world : Type := mkWorld {
  files : fs;
  log : list (level * string);
  slept : list Z;
  attempts : list Z
}.

Definition set_files (g : fs -> fs) (w : world) : world :=
  mkWorld (g (files w)) (log w) (slept w) (attempts w).

#[global] Instance world_logging : Logging world :=
  fun l msg w => mkWorld (files w) (log w ++ [(l, msg)]) (slept w) (attempts w).

Definition sleep (seconds : Z) : M world unit :=
  modify (fun w => mkWorld (files w) (log w) (slept w ++ [seconds]) (attempts w)).

Definition enter_attempt (count : Z) : M world unit :=
  modify (fun w => mkWorld (files w) (log w) (slept w) (attempts w ++ [count])).

(** Read-only access to the files. *)
Definition reads {A} (f : fs -> result A) : M world A :=
  fun w => (f (files w), w).

(** [os.remove(join(d, name))] *)
Definition remove (d name : string) : M world unit :=
  fun w =>
    match files w !! OsPath.join d name with
    | Some (Reg _) =>
        (Ok tt, set_files (fun g => delete (OsPath.join d name)
                                      (alter (del_entry name) d g)) w)
    | Some (Dir _ _) => (Raise OSError, w)
    | None => (Raise FileNotFoundError, w)
    end.

End Fs.

(* ===================================================================== *)
(** ** FileCompression.py                                                *)
(* ===================================================================== *)

Module FileCompression.
Import Fs.

(** The [config] dict of [AudioCompressor]: the entry [retry], the
    entry [Timeout_Period], and in [cfg_top] the other top-level
    entries that hold a number. *)
Record config : Type := mkConfig {
  cfg_retry : option Z;
  cfg_Timeout_Period : option (list (string * Z));
  cfg_top : list (string * Z)
}.

(** [config.get(key)] where a number is expected. *)
Definition config_get (key : string) (cfg : config) : option Z :=
  if String.eqb key "retry" then cfg_retry cfg else dict_get key (cfg_top cfg).

(** The mutable fields of an [AudioCompressor] that its methods use.
    [browser] tells whether [self.browser] holds a driver. *)
Record AudioCompressor : Type := mkCompressor {
  browser : bool;
  file_name : option string;
  retry : Z;
  timeouts : list (string * Z)
}.

Definition default_timeout : list (string * Z) :=
  [("load_time", 5); ("compress_time", 20); ("completion_time", 100)].

(** [__init__]: the retry bound and the merged timeout table.  The
    scratch directory that [__init__] also creates for the downloads of
    the browser lies outside the files modelled here: what it lists is
    part of [session], and its creation is taken to succeed. *)
Definition init (cfg : config) : AudioCompressor :=
  let timeout := default default_timeout (cfg_Timeout_Period cfg) in
  {| browser := false;
     file_name := None;
     retry := default 3 (cfg_retry cfg);
     timeouts :=
       List.map (fun kv => (fst kv, default (snd kv) (config_get (fst kv) cfg)))
                timeout |}.

(** [get_file_identifier]: the TIT3 frame, else the file size.  The
    fallback runs inside the handlers, so what [os.path.getsize] raises
    leaves the method. *)
Definition get_file_identifier (file_path : string) : M world string :=
  try_except
    (let* audio := reads (fun g => ID3 g file_path) in
     match Mutagen.getall "TIT3" audio with
     | f :: _ => ret (Mutagen.str f)
     | [] => raise IndexError
     end)
    (fun e =>
       match e with
       | ID3NoHeaderError =>
           logger WARNING "file has no ID3 header" ;;
           let* n := reads (fun g => getsize g file_path) in
           ret (pretty n)
       | _ =>
           logger ERROR "reading the file identifier failed" ;;
           let* n := reads (fun g => getsize g file_path) in
           ret (pretty n)
       end).

(** The loop of [get_existing_identifiers] over the directory listing. *)
Fixpoint collect_identifiers (output_dir : string) (entries : list string)
    (identifiers : gset string) : M world (gset string) :=
  match entries with
  | [] => ret identifiers
  | file :: rest =>
      let* identifiers' :=
        try_except
          (let* i := get_file_identifier (OsPath.join output_dir file) in
           ret ({[ i ]} ∪ identifiers))
          (fun _ => logger ERROR "identifier of an output file unavailable" ;;
                    ret identifiers) in
      collect_identifiers output_dir rest identifiers'
  end.

Definition get_existing_identifiers (output_dir : string) : M world (gset string) :=
  let* entries := reads (fun g => listdir g output_dir) in
  collect_identifiers output_dir entries ∅.

(** The backoff of the retry loop of [compress]. *)
Definition wait_time (count : Z) : Z := Z.min (5 ^ count) 30.
Definition escalate (timeout : Z) : Z := Z.min (timeout * 2) 300.

Definition escalate_all (t : list (string * Z)) : list (string * Z) :=
  List.map (fun kv => (fst kv, escalate (snd kv))) t.

(** *** One automation session

    What the remote site and the browser answer during one attempt:
    the outcome of each driver call and of each bounded wait, the
    listing of the browser's download directory (name, creation time,
    content) and the outcome of the final copy. *)
Record session : Type := mkSession {
  edge_start : result unit;
  page_get : result unit;
  upfile_wait : result unit;
  upfile_send : result unit;
  submit_wait : result unit;
  submit_click : result unit;
  result_wait : result unit;
  link_wait : result unit;
  link_click : result unit;
  start_wait : result unit;
  complete_wait : result unit;
  temp_listing : result (list (string * Z * file));
  copy2 : result unit;
  browser_quit : result unit
}.

(** The state of a method call: [self] and the world. *)
Definition cstate : Type := AudioCompressor * world.

#[global] Instance cstate_logging : Logging cstate :=
  fun l msg st => (fst st, emit l msg (snd st)).

Definition in_world {A} (m : M world A) : M cstate A :=
  fun st => match m (snd st) with (r, w') => (r, (fst st, w')) end.

Definition set_browser (b : bool) : M cstate unit :=
  modify (fun st : cstate =>
    (mkCompressor b (file_name (fst st)) (retry (fst st)) (timeouts (fst st)), snd st)).

Definition set_file_name (n : string) : M cstate unit :=
  modify (fun st : cstate =>
    (mkCompressor (browser (fst st)) (Some n) (retry (fst st)) (timeouts (fst st)), snd st)).

Definition set_timeouts (g : list (string * Z) -> list (string * Z)) : M cstate unit :=
  modify (fun st : cstate =>
    (mkCompressor (browser (fst st)) (file_name (fst st)) (retry (fst st))
                  (g (timeouts (fst st))), snd st)).

Definition init_browser (s : session) : M cstate unit :=
  lift (edge_start s) ;; set_browser true.

(** The three handlers every stage method ends with. *)
Definition stage_failed (e : exn) : M cstate bool :=
  match e with
  | NoSuchElementException => logger ERROR "stage failed: element not found"
  | TimeoutException => logger ERROR "stage failed: timed out"
  | _ => logger ERROR "stage failed"
  end ;;
  ret false.

Definition upload_file (s : session) : M cstate bool :=
  try_except
    (lift (upfile_wait s) ;;
     lift (upfile_send s) ;;
     logger DEBUG "file uploaded" ;;
     ret true)
    stage_failed.

Definition start_compression (s : session) : M cstate bool :=
  try_except
    (lift (submit_wait s) ;;
     lift (submit_click s) ;;
     lift (result_wait s) ;;
     logger DEBUG "file compressed" ;;
     ret true)
    stage_failed.

(** [max(downloaded_files, key=getctime)]: the first of the newest. *)
Fixpoint latest_file (best : string * Z * file) (l : list (string * Z * file))
    : string * Z * file :=
  match l with
  | [] => best
  | x :: l' =>
      if Z.ltb (snd (fst best)) (snd (fst x)) then latest_file x l' else latest_file best l'
  end.

(** The element a wait returns is truthy, so [if download_link:] always
    takes its branch; the copy goes to [join(output_path, self.file_name)]. *)
Definition download_compressed_file (s : session) (output_path : string)
    : M cstate bool :=
  try_except
    (lift (link_wait s) ;;
     lift (link_click s) ;;
     lift (start_wait s) ;;
     lift (complete_wait s) ;;
     let* listing := lift (temp_listing s) in
     match List.filter (fun x => negb (OsPath.endswith ".crdownload" (fst (fst x))))
                       listing with
     | [] => ret false
     | x :: l' =>
         let latest := latest_file x l' in
         let* name := gets (fun st : cstate => file_name (fst st)) in
         match name with
         | None => raise (Exception "TypeError")
         | Some n =>
             lift (copy2 s) ;;
             in_world (modify (set_files (write_file output_path n (snd latest)))) ;;
             ret true
         end
     end)
    stage_failed.

Section Compress.

(** The site's behaviour at attempt [count] on a file, under the
    timeout table that attempt runs with. *)
Variable site : string -> Z -> list (string * Z) -> session.

(** The [try] body of one iteration.  [true] is [return True]. *)
Definition run_session (s : session) (input_path output_path : string)
    : M cstate bool :=
  let* open := gets (fun st : cstate => browser (fst st)) in
  (if open then ret tt else init_browser s) ;;
  lift (page_get s) ;;
  let* uploaded := upload_file s in
  if negb uploaded then raise (Exception "upload failed") else
  let* compressed := start_compression s in
  if negb compressed then raise (Exception "compression failed") else
  let* downloaded := download_compressed_file s output_path in
  if negb downloaded then raise (Exception "download failed") else
  logger INFO "compressed file downloaded" ;;
  ret true.

(** The [except] clause: back off, then escalate every timeout. *)
Definition back_off (count : Z) : M cstate bool :=
  logger INFO "waiting before the next attempt" ;;
  in_world (sleep (wait_time count)) ;;
  set_timeouts escalate_all ;;
  ret false.

(** The [finally] clause: the session is torn down. *)
Definition tear_down (s : session) : M cstate unit :=
  try_except
    (let* open := gets (fun st : cstate => browser (fst st)) in
     if open then lift (browser_quit s) else raise AttributeError)
    (fun _ => logger DEBUG "closing the browser failed") ;;
  set_browser false.

(** [for count in range(1, retry + 1)], [n] iterations left. *)
Fixpoint retry_loop (n : nat) (count : Z) (input_path output_path : string)
    : M cstate bool :=
  match n with
  | O => logger ERROR "too many retries, compression skipped" ;; ret false
  | S n' =>
      let* table := gets (fun st : cstate => timeouts (fst st)) in
      let s := site input_path count table in
      let* returned :=
        try_finally
          (try_except
             (in_world (enter_attempt count) ;;
              run_session s input_path output_path)
             (fun _ => back_off count))
          (tear_down s) in
      if returned : bool then ret true
      else retry_loop n' (count + 1) input_path output_path
  end.

Definition compress (input_path output_path : string) (retry_arg : option Z)
    : M cstate bool :=
  let* is_file := gets (fun st : cstate => isfile (files (snd st)) input_path) in
  if negb is_file then logger ERROR "input file path invalid" ;; ret false else
  let* is_dir := gets (fun st : cstate => isdir (files (snd st)) output_path) in
  if negb is_dir then logger ERROR "output directory path invalid" ;; ret false else
  let* self_retry := gets (fun st : cstate => retry (fst st)) in
  let retry := default self_retry retry_arg in
  set_file_name (OsPath.basename input_path) ;;
  logger INFO "compression started" ;;
  retry_loop (Z.to_nat retry) 1 input_path output_path.

End Compress.

End FileCompression.

(* ===================================================================== *)
(** ** NetworkOperations.py                                              *)
(* ===================================================================== *)

Module NetworkOperations.
Import Fs.

Definition DEFAULT_RETRY : Z := 2.
Definition DEFAULT_DOWNLOAD_TIMEOUT : Z := 60.

(** The backoff of the retry loop of [download_video]. *)
Definition waiting_time (count : Z) : Z := Z.min (2 ^ count) 5.
Definition next_timeout (timeout count : Z) : Z := timeout + Z.min (3 ^ count) 10.

Section Download.

(** [subprocess.run] of [you-get] on (download_url, video_name,
    output_path) under a timeout: the return code, or an exception
    ([TimeoutExpired], or another when the tool cannot be started).
    The process may change the world. *)
Variable you_get : string -> string -> string -> Z -> M world Z.

(** [for count in range(1, retry + 1)], [n] iterations left. *)
Fixpoint download_loop (n : nat) (count timeout : Z)
    (download_url video_name output_path : string) : M world unit :=
  match n with
  | O => logger ERROR "too many retries, download skipped"
  | S n' =>
      let* returned :=
        try_except
          (enter_attempt count ;;
           logger INFO "download started" ;;
           let* returncode := you_get download_url video_name output_path timeout in
           if (returncode =? 0)%Z then logger DEBUG "download succeeded" ;; ret true
           else ret false)
          (fun e =>
             match e with
             | TimeoutExpired => logger ERROR "download timed out"
             | _ => logger ERROR "download failed"
             end ;;
             ret false) in
      if returned : bool then ret tt
      else
        let timeout' := next_timeout timeout count in
        logger ERROR "waiting before the next download attempt" ;;
        sleep (waiting_time count) ;;
        download_loop n' (count + 1) timeout' download_url video_name output_path
  end.

Definition download_video (video_name output_path download_url : string)
    (retry timeout : Z) : M world unit :=
  let* is_dir := gets (fun w => isdir (files w) output_path) in
  if negb is_dir then logger ERROR "video output path invalid" else
  let download_url :=
    if OsPath.contains "www.bilibili.com/video/" download_url then download_url
    else "www.bilibili.com/video/" +:+ download_url in
  let* timeout :=
    (if andb (30 <=? timeout)%Z (timeout <=? 120)%Z then ret timeout
     else logger ERROR "invalid timeout, default used" ;;
          ret DEFAULT_DOWNLOAD_TIMEOUT) in
  download_loop (Z.to_nat retry) 1 timeout download_url video_name output_path.

End Download.

End NetworkOperations.

(* ===================================================================== *)
(** ** DataProcessing.py                                                 *)
(* ===================================================================== *)

Module DataProcessing.
Import Fs.

Definition DEFAULT_RETRY : Z := 3.

(** [str.lower] on text written in ASCII, as the names of the audio
    formats are: the letters A to Z are lowered, every other byte is
    kept. *)
Definition lower_char (c : ascii) : ascii :=
  let n := nat_of_ascii c in
  if andb (Nat.leb 65 n) (Nat.leb n 90) then ascii_of_nat (n + 32) else c.

Fixpoint lower (s : string) : string :=
  match s with
  | EmptyString => EmptyString
  | String c s' => String (lower_char c) (lower s')
  end.

(** [s.lstrip(".")] *)
Fixpoint lstrip_dots (s : string) : string :=
  match s with
  | String c s' => if Ascii.eqb c "."%char then lstrip_dots s' else s
  | EmptyString => EmptyString
  end.

Section Convert.

(** [subprocess.run] of [ffmpeg] on (input file, output file,
    format): the return code, or an exception when the tool cannot be
    started.  The process may change the world. *)
Variable ffmpeg : string -> string -> string -> M world Z.

(** The retry loop on one file; [true] is the [return] after a
    successful conversion. *)
Fixpoint convert_loop (n : nat) (count : Z)
    (input_path file output_file audio_format : string) : M world bool :=
  match n with
  | O => ret false
  | S n' =>
      let* returncode := ffmpeg (OsPath.join input_path file) output_file audio_format in
      if (returncode =? 0)%Z then
        logger INFO "video converted to audio" ;;
        remove input_path file ;;
        ret true
      else
        logger ERROR "conversion failed, retrying in one second" ;;
        sleep 1 ;;
        convert_loop n' (count + 1) input_path file output_file audio_format
  end.

(** [for file in os.listdir(input_path)] *)
Fixpoint convert_files (retry : Z) (input_path output_path audio_format : string)
    (entries : list string) : M world unit :=
  match entries with
  | [] => ret tt
  | file :: rest =>
      let output_file :=
        OsPath.join output_path (OsPath.splitext_root file +:+ audio_format) in
      let* returned :=
        convert_loop (Z.to_nat retry) 1 input_path file output_file audio_format in
      if returned : bool then ret tt
      else
        logger ERROR "too many retries, conversion skipped" ;;
        remove input_path file ;;
        convert_files retry input_path output_path audio_format rest
  end.

Definition download_processing (input_path output_path : string)
    (retry : Z) (audio_format : string) : M world unit :=
  let audio_format := "." +:+ lstrip_dots (lower audio_format) in
  let* in_dir := gets (fun w => isdir (files w) input_path) in
  if negb in_dir then logger ERROR "input directory path invalid" else
  let* out_dir := gets (fun w => isdir (files w) output_path) in
  if negb out_dir then logger ERROR "output directory path invalid" else
  let* retry :=
    (if andb (1 <=? retry)%Z (retry <=? 5)%Z then ret retry
     else logger ERROR "invalid retry count, default used" ;;
          ret DEFAULT_RETRY) in
  let* entries := reads (fun g => listdir g input_path) in
  convert_files retry input_path output_path audio_format entries.

End Convert.

End DataProcessing.

(* ===================================================================== *)
(** ** AudioTrackProcessing.py                                           *)
(* ===================================================================== *)

Module AudioTrackProcessing.
Import Fs.

Definition DEFAULT_ENCODER : string := "YKDX".
Definition DEFAULT_PUBLISHER : string := "YKDX".
Definition DEFAULT_ARTIST : string := "EOZT-YKDX出品".
Definition DEFAULT_COPYRIGHT : string := "©EOZT 2021-2025".
Definition DEFAULT_AUTHOR_URL : string := "https://github.com/EOZT-YKDX".

(** [track_information.get(key, fallback)] *)
Definition info_get (key fallback : string) (track_information : list (string * string))
    : string :=
  default fallback (dict_get key track_information).

Definition old_tags : list string :=
  ["TDRC"; "TPE1"; "TENC"; "TPUB"; "TCOP"; "APIC"; "WOAR"].

(** The values of [track_information] are taken as strings, on which
    the [str] conversion of line 63 is the identity. *)
Section Tagging.

(** [datetime.now().year] *)
Variable year : N.

(** [audio_file.save(v2_version=3)]: mutagen's serialiser, from the
    tag table and the file on disk to the file written, or an error. *)
Variable save_v23 : Mutagen.tags -> file -> result file.

(** Lines 65-102: the changes made to the loaded tag table. *)
Definition retag (file_name : string) (track_information : list (string * string))
    (covers_type : option string) (cover_data : string)
    (audio_file : Mutagen.tags) : Mutagen.tags :=
  let t := List.fold_left (fun t tag => Mutagen.delall tag t) old_tags audio_file in
  let t :=
    match Mutagen.getall "TIT3" t with
    | [] => Mutagen.add (Mutagen.Text "TIT3" [OsPath.splitext_root file_name]) t
    | _ :: _ => t
    end in
  let t := Mutagen.add (Mutagen.Text "TDRC" [pretty year]) t in
  let t := Mutagen.add
    (Mutagen.Text "TPE1" [info_get "Artist" DEFAULT_ARTIST track_information]) t in
  let t := Mutagen.add
    (Mutagen.Text "TENC" [info_get "Encoder" DEFAULT_ENCODER track_information]) t in
  let t := Mutagen.add (Mutagen.Apic 3 "Cover" covers_type cover_data) t in
  let t := Mutagen.add
    (Mutagen.Text "TPUB" [info_get "Publisher" DEFAULT_PUBLISHER track_information]) t in
  let t := Mutagen.add
    (Mutagen.Url "WOAR" (info_get "Author_URL" DEFAULT_AUTHOR_URL track_information)) t in
  Mutagen.add
    (Mutagen.Text "TCOP" [info_get "Copyright" DEFAULT_COPYRIGHT track_information]) t.

(** [audio_file.save] on the file the table was loaded from. *)
Definition save (input_file : string) (t : Mutagen.tags) : M world unit :=
  fun w =>
    match files w !! input_file with
    | Some (Reg f) =>
        match save_v23 t f with
        | Ok f' => (Ok tt, set_files (insert input_file (Reg f')) w)
        | Raise e => (Raise e, w)
        end
    | _ => (Raise MutagenError, w)
    end.

(** The cover is probed and read: [None] is the early [return]. *)
Definition read_cover (audio_covers : string)
    : M world (option (option string * string)) :=
  try_except
    (let* probe := reads (fun g => open_rb g audio_covers) in
     let covers_type := mime probe in
     let* probe' := reads (fun g => open_rb g audio_covers) in
     if negb (image probe') then
       logger ERROR "cover file is not an image" ;; ret None
     else
       let* covers_file := reads (fun g => open_rb g audio_covers) in
       ret (Some (covers_type, raw covers_file)))
    (fun e =>
       match e with
       | FileNotFoundError => logger ERROR "cover file path invalid"
       | _ => logger ERROR "cover file cannot be read"
       end ;;
       ret None).

Definition audio_track_processing (input_file : string)
    (track_information : list (string * string)) : M world unit :=
  let file_name := OsPath.basename input_file in
  let audio_covers := info_get "Cover" "" track_information in
  let* loaded :=
    try_except
      (let* t := reads (fun g => ID3 g input_file) in ret (Some t))
      (fun _ => logger ERROR "audio file cannot be loaded" ;; ret None) in
  match loaded with
  | None => ret tt
  | Some audio_file =>
      let* cover := read_cover audio_covers in
      match cover with
      | None => ret tt
      | Some (covers_type, cover_data) =>
          let t := retag file_name track_information covers_type cover_data
                         audio_file in
          try_except (save input_file t)
                     (fun _ => logger ERROR "saving the tags failed") ;;
          logger INFO "track information processed"
      end
  end.

End Tagging.

End AudioTrackProcessing.

(* ===================================================================== *)
(** ** ConcurrentTasks.py                                                *)
(* ===================================================================== *)

Module ConcurrentTasks.
Import Fs.

(** *** The thread pool

    A submitted task runs to its end, whatever the other tasks do, and
    its future holds what it returned or the exception it raised.  The
    interleaving of the worker threads is not modelled: the tasks are
    run one after the other in submission order, each on the world the
    previous one left. *)
Fixpoint run_tasks {A} (tasks : list (M world A)) : world -> list (result A) * world :=
  fun w =>
    match tasks with
    | [] => ([], w)
    | task :: rest =>
        match task w with
        | (r, w') =>
            match run_tasks rest w' with
            | (rs, w'') => (r :: rs, w'')
            end
        end
    end.

(** [for future in as_completed(futures)]: [future.result()] re-raises
    the task's exception; each one is logged and counted.  What a task
    returned is dropped. *)
Fixpoint count_failed {A} (futures : list (result A)) (failed : Z) : M world Z :=
  match futures with
  | [] => ret failed
  | Ok _ :: rest => count_failed rest failed
  | Raise _ :: rest =>
      logger ERROR "a concurrent task raised" ;;
      count_failed rest (failed + 1)
  end.

(** The [config] dict of one download task. *)
Record task_config : Type := mkTaskConfig {
  video_name : option string;
  output_path : option string;
  download_url : option string;
  audio_format : option string;
  track_information : option (list (string * string))
}.

(** The [config] dict of [concurrent_process]. *)
Record pool_config : Type := mkPoolConfig {
  url_list : option (list string);
  name_list : option (list string);
  pool_output_path : option string;
  pool_audio_format : option string;
  pool_track_information : option (list (string * string))
}.

Section Pools.

Variable you_get : string -> string -> string -> Z -> M world Z.
Variable ffmpeg : string -> string -> string -> M world Z.
Variable year : N.
Variable save_v23 : Mutagen.tags -> file -> result file.
Variable site : string -> Z -> list (string * Z) -> FileCompression.session.

(** [tempfile.TemporaryDirectory()]: the name [mkdtemp] picks. *)
Variable mkdtemp : fs -> string.

(** [with tempfile.TemporaryDirectory() as temp_dir: body temp_dir] *)
Definition with_temporary_directory {A} (body : string -> M world A) : M world A :=
  let* temp_dir := gets (fun w => mkdtemp (files w)) in
  modify (set_files (insert temp_dir (Dir 0 []))) ;;
  try_finally (body temp_dir) (modify (set_files (rmtree temp_dir))).

Definition process_video_download (config : task_config) : M world unit :=
  match video_name config, output_path config, download_url config,
        audio_format config, track_information config with
  | Some video_name, Some output_path, Some download_url,
    Some audio_format, Some track_information =>
      let input_file :=
        OsPath.join output_path (video_name +:+ "." +:+ audio_format) in
      with_temporary_directory (fun temp_dir =>
        NetworkOperations.download_video you_get video_name temp_dir download_url
          NetworkOperations.DEFAULT_RETRY NetworkOperations.DEFAULT_DOWNLOAD_TIMEOUT ;;
        DataProcessing.download_processing ffmpeg temp_dir output_path
          DataProcessing.DEFAULT_RETRY audio_format ;;
        AudioTrackProcessing.audio_track_processing year save_v23 input_file
          track_information)
  | _, _, _, _, _ => logger ERROR "required data missing from the configuration"
  end.

Definition concurrent_process (config : pool_config) : M world bool :=
  match url_list config, name_list config, pool_output_path config,
        pool_audio_format config, pool_track_information config with
  | Some url_list, Some name_list, Some output_path,
    Some audio_format, Some track_information =>
      let* out_dir := gets (fun w => isdir (files w) output_path) in
      if negb out_dir then
        logger ERROR "audio output directory invalid" ;; ret false
      else if negb (Nat.eqb (List.length url_list) (List.length name_list)) then
        logger ERROR "URL list and name list differ in length" ;; ret false
      else if orb (Nat.eqb (List.length url_list) 0) (Nat.eqb (List.length name_list) 0) then
        logger ERROR "URL list or name list empty" ;; ret false
      else
        let tasks :=
          List.map (fun un =>
                      process_video_download
                        (mkTaskConfig (Some (snd un)) (Some output_path) (Some (fst un))
                                      (Some audio_format) (Some track_information)))
                   (List.combine url_list name_list) in
        let* futures := (fun w => match run_tasks tasks w with
                                  | (rs, w') => (Ok rs, w')
                                  end) in
        let* failed := count_failed futures 0 in
        ret (failed =? 0)%Z
  | _, _, _, _, _ =>
      logger ERROR "required data missing from the configuration" ;; ret false
  end.

(** [compress_task]: the compressor is built (line 128, before the
    [try]; its scratch directory is taken to be created, see [init]),
    then [compress] runs inside the [try]. *)
Definition compress_task (file input_path output_path : string)
    (config : FileCompression.config) : M world bool :=
  fun w =>
    let compressor := FileCompression.init config in
    match try_except
            (FileCompression.compress site (OsPath.join input_path file) output_path None)
            (fun _ => logger ERROR "compression task raised" ;; ret false)
            (compressor, w) with
    | (r, (_, w')) => (r, w')
    end.

(** The submission loop of [concurrent_compression]; the state carries
    the local list [futures], here the files handed to the pool. *)
Fixpoint submit_candidates (input_path : string) (existing_ids : gset string)
    (entries : list string) : M (list string * world) unit :=
  match entries with
  | [] => ret tt
  | file :: rest =>
      let input_file := OsPath.join input_path file in
      let* file_id :=
        (fun st : list string * world =>
           match FileCompression.get_file_identifier input_file (snd st) with
           | (r, w') => (r, (fst st, w'))
           end) in
      (if bool_decide (file_id ∈ existing_ids) then
         modify (fun st : list string * world =>
                   (fst st, emit DEBUG "audio already compressed, skipped" (snd st)))
       else
         modify (fun st : list string * world => ((fst st ++ [file])%list, snd st))) ;;
      submit_candidates input_path existing_ids rest
  end.

(** Lines 164-187: the identifiers already in the output directory
    are computed once, then the candidates are examined in listing
    order.  The result carries how the loop ended and the local list
    [futures]; what was submitted before an exception stays
    submitted. *)
Definition schedule (input_path output_path : string)
    : world -> (result unit * list string) * world :=
  fun w =>
    match FileCompression.get_existing_identifiers output_path w with
    | (Raise e, w0) => ((Raise e, []), w0)
    | (Ok existing_ids, w0) =>
        match (let* entries :=
                 (fun st : list string * world =>
                    (listdir (files (snd st)) input_path, st)) in
               submit_candidates input_path existing_ids entries) ([], w0) with
        | (ended, (futures, w1)) => ((ended, futures), w1)
        end
    end.

Definition concurrent_compression (input_path output_path : string)
    (config : FileCompression.config) : M world bool :=
  let* in_dir := gets (fun w => isdir (files w) input_path) in
  if negb in_dir then logger ERROR "audio input directory invalid" ;; ret false else
  let* out_dir := gets (fun w => isdir (files w) output_path) in
  if negb out_dir then logger ERROR "audio output directory invalid" ;; ret false else
  fun w =>
    let '((ended, futures), w1) := schedule input_path output_path w in
    (* leaving the [with ThreadPoolExecutor] block waits for every
       submitted task, also when the block is left by an exception *)
    let tasks :=
      List.map (fun file => compress_task file input_path output_path config) futures in
    let '(results, w2) := run_tasks tasks w1 in
    match ended with
    | Raise e => (Raise e, w2)
    | Ok _ =>
        (logger INFO "files examined, compression tasks submitted" ;;
         let* failed := count_failed results 0 in
         ret (failed =? 0)%Z) w2
    end.

End Pools.

End ConcurrentTasks.

(* ===================================================================== *)
(** ** Specification-level notions                                       *)
(* ===================================================================== *)

Module Spec.
Import Fs.

(** The byte length of a file as a decimal string. *)
Definition size_string (g : fs) (p : string) : result string :=
  match getsize g p with
  | Ok n => Ok (pretty n)
  | Raise e => Raise e
  end.

(** The ContentIdentifier of the specification: the embedded TIT3
    field when the tag table loads and has one, else the byte length as
    a string.  It is undefined (an error) for a path whose size cannot
    be read. *)
Definition ContentIdentifier (g : fs) (p : string) : result string :=
  match ID3 g p with
  | Ok t =>
      match Mutagen.getall "TIT3" t with
      | f :: _ => Ok (Mutagen.str f)
      | [] => size_string g p
      end
  | Raise _ => size_string g p
  end.

(** The identifiers of the files listed in a directory. *)
Definition identifiers_in (g : fs) (dir : string) (entries : list string)
    (i : string) : Prop :=
  exists file, In file entries /\ ContentIdentifier g (OsPath.join dir file) = Ok i.

(** A candidate is eligible when its identifier can be read and is not
    among the existing ones. *)
Definition eligible (g : fs) (input_path : string) (existing_ids : gset string)
    (file : string) : bool :=
  match ContentIdentifier g (OsPath.join input_path file) with
  | Ok i => negb (bool_decide (i ∈ existing_ids))
  | Raise _ => false
  end.

(** What the submission loop is meant to compute on a listing: how it
    ends, and the candidates handed to the pool. *)
Fixpoint plan (g : fs) (input_path : string) (existing_ids : gset string)
    (entries : list string) : result unit * list string :=
  match entries with
  | [] => (Ok tt, [])
  | file :: rest =>
      match ContentIdentifier g (OsPath.join input_path file) with
      | Raise e => (Raise e, [])
      | Ok i =>
          let '(ended, l) := plan g input_path existing_ids rest in
          (ended, if bool_decide (i ∈ existing_ids) then l else file :: l)
      end
  end.

(** The stages of a session, as the site answers them. *)
Definition uploaded (s : FileCompression.session) : bool :=
  is_ok (FileCompression.upfile_wait s) && is_ok (FileCompression.upfile_send s).

Definition compressed (s : FileCompression.session) : bool :=
  is_ok (FileCompression.submit_wait s)
  && is_ok (FileCompression.submit_click s)
  && is_ok (FileCompression.result_wait s).

Definition finished_downloads (listing : list (string * Z * file))
    : list (string * Z * file) :=
  List.filter (fun x => negb (OsPath.endswith ".crdownload" (fst (fst x)))) listing.

Definition downloaded (s : FileCompression.session) : bool :=
  is_ok (FileCompression.link_wait s)
  && is_ok (FileCompression.link_click s)
  && is_ok (FileCompression.start_wait s)
  && is_ok (FileCompression.complete_wait s)
  && match FileCompression.temp_listing s with
     | Ok listing => negb (Nat.eqb (List.length (finished_downloads listing)) 0)
     | Raise _ => false
     end
  && is_ok (FileCompression.copy2 s).

(** A session gets through every stage: the browser starts (unless one
    is open), the page loads, the file is uploaded, compressed and
    downloaded. *)
Definition session_succeeds (open : bool) (s : FileCompression.session) : bool :=
  (open || is_ok (FileCompression.edge_start s))
  && is_ok (FileCompression.page_get s)
  && uploaded s && compressed s && downloaded s.

(** The attempt numbers [count, count + 1, ...] of [n] iterations. *)
Fixpoint counts_from (count : Z) (n : nat) : list Z :=
  match n with
  | O => []
  | S n' => count :: counts_from (count + 1) n'
  end.

(** The timeout table after [n] failed attempts. *)
Fixpoint escalated (n : nat) (table : list (string * Z)) : list (string * Z) :=
  match n with
  | O => table
  | S n' => escalated n' (FileCompression.escalate_all table)
  end.

(** Every one of the [n] attempts starting at [count] fails, each under
    the timeout table the retry loop has escalated for it. *)
Fixpoint all_sessions_fail (site : string -> Z -> list (string * Z) -> FileCompression.session)
    (input_file : string) (n : nat) (count : Z) (table : list (string * Z)) : bool :=
  match n with
  | O => true
  | S n' =>
      negb (session_succeeds false (site input_file count table))
      && all_sessions_fail site input_file n' (count + 1)
           (FileCompression.escalate_all table)
  end.

(** Only the log differs. *)
Definition log_only (st st' : FileCompression.cstate) : Prop :=
  fst st' = fst st
  /\ files (snd st') = files (snd st)
  /\ slept (snd st') = slept (snd st)
  /\ attempts (snd st') = attempts (snd st).

(** What a failed pass through the [try] body leaves untouched. *)
Definition same_but_log_and_browser (st st' : FileCompression.cstate) : Prop :=
  FileCompression.timeouts (fst st') = FileCompression.timeouts (fst st)
  /\ FileCompression.retry (fst st') = FileCompression.retry (fst st)
  /\ FileCompression.file_name (fst st') = FileCompression.file_name (fst st)
  /\ files (snd st') = files (snd st)
  /\ slept (snd st') = slept (snd st)
  /\ attempts (snd st') = attempts (snd st).

(** The number of futures that hold an exception. *)
Fixpoint raised {A} (futures : list (result A)) : Z :=
  match futures with
  | [] => 0
  | Ok _ :: rest => raised rest
  | Raise _ :: rest => 1 + raised rest
  end.

(** The hash keys of the provenance frames: ["TIT3"] itself and any key
    that starts with ["TIT3:"], the keys [getall("TIT3")] looks at. *)
Definition provenance_key (k : string) : bool :=
  String.eqb k "TIT3" || OsPath.startswith "TIT3:" k.

(** The cover input is a readable image. *)
Definition cover_usable (g : fs) (audio_covers : string) : bool :=
  match open_rb g audio_covers with
  | Ok f => image f
  | Raise _ => false
  end.

Definition readable_identifier (g : fs) (input_path : string) (file : string) : bool :=
  is_ok (ContentIdentifier g (OsPath.join input_path file)).

End Spec.

(* ===================================================================== *)
(** ** Concrete worlds used by the examples                              *)
(* ===================================================================== *)

Module Examples.
Import Fs.

(** An audio file without ID3 header, and one tagged with a TIT3 frame. *)
Definition untagged (n : N) : node :=
  Reg (mkFile n true "" (Some "audio/mpeg") false NoHeader).

Definition tagged (n : N) (title : string) : node :=
  Reg (mkFile n true "" (Some "audio/mpeg") false
              (Frames [("TIT3", Mutagen.Text "TIT3" [title])])).

Definition picture (n : N) : node :=
  Reg (mkFile n true "PNG" (Some "image/png") true NoHeader).

Definition world_of (l : list (string * node)) : world :=
  mkWorld (list_to_map l) [] [] [].

(** Two untagged candidates of equal length and one tagged candidate
    that is already present in the output directory. *)
Definition library : world :=
  world_of [("in", Dir 0 ["a.mp3"; "b.mp3"; "c.mp3"]);
            ("in/a.mp3", untagged 100);
            ("in/b.mp3", untagged 100);
            ("in/c.mp3", tagged 5 "song");
            ("out", Dir 0 ["c.mp3"]);
            ("out/c.mp3", tagged 3 "song")].

(** One candidate and an empty output directory. *)
Definition single : world :=
  world_of [("in", Dir 0 ["a.mp3"]);
            ("in/a.mp3", untagged 100);
            ("out", Dir 0 [])].

(** A session in which the result of the compression never shows up
    (the wait of the AwaitResult stage times out), and one in which
    every stage succeeds and one finished file is downloaded. *)
Definition result_never_ready : FileCompression.session :=
  FileCompression.mkSession (Ok tt) (Ok tt) (Ok tt) (Ok tt) (Ok tt) (Ok tt)
    (Raise TimeoutException) (Ok tt) (Ok tt) (Ok tt) (Ok tt) (Ok []) (Ok tt) (Ok tt).

Definition site_down (input_file : string) (count : Z) (table : list (string * Z))
    : FileCompression.session := result_never_ready.

(** The configuration [ProgramEntrance] passes: defaults everywhere. *)
Definition default_config : FileCompression.config :=
  FileCompression.mkConfig None None [].

(** A download that fails every time without touching anything, a
    converter that is never reached, a serialiser that writes the table
    as it is, and the scratch name [mkdtemp] picks. *)
Definition you_get_fails (download_url video_name output_path : string) (timeout : Z)
    : M world Z := ret 1.

Definition ffmpeg_fails (input_file output_file audio_format : string) : M world Z :=
  ret 1.

Definition save_as_is (t : Mutagen.tags) (f : file) : result file :=
  Ok (mkFile (size f) (readable f) (raw f) (mime f) (image f) (Frames t)).

Definition scratch_name (g : fs) : string := "tmp/scratch".

Definition one_video : ConcurrentTasks.task_config :=
  ConcurrentTasks.mkTaskConfig (Some "title") (Some "in") (Some "BV1xx411c7mD")
    (Some "mp3") (Some []).

(** The pool configuration of an empty catalogue. *)
Definition no_videos : ConcurrentTasks.pool_config :=
  ConcurrentTasks.mkPoolConfig (Some []) (Some []) (Some "in") (Some "mp3") (Some []).

(** A download that fails every time and leaves the timeout it ran under
    in the log. *)
Definition you_get_reports_timeout (download_url video_name output_path : string)
    (timeout : Z) : M world Z :=
  logger DEBUG (pretty timeout) ;; ret 1.

(** A catalogue of two items. *)
Definition some_videos : ConcurrentTasks.pool_config :=
  ConcurrentTasks.mkPoolConfig (Some ["BV1xx411c7mD"; "BV1yy411c7mE"])
    (Some ["first"; "second"]) (Some "in") (Some "mp3") (Some []).

End Examples.

(* ===================================================================== *)
(** ** Contracts of the external collaborators                           *)
(* ===================================================================== *)

Module Id3v23.
Import Fs.

(** What [save(v2_version=3)] stores for a frame, with mutagen's
    separator ["/"]: the values of a text frame joined into one value;
    a text frame that renders as the empty string is not stored.  The
    other frames are stored as they are. *)
Definition written (f : Mutagen.frame) : option Mutagen.frame :=
  match f with
  | Mutagen.Text id text =>
      if String.eqb (Mutagen.str f) "" then None
      else Some (Mutagen.Text id [String.concat "/" text])
  | _ => Some f
  end.

Definition written_entries (t : Mutagen.tags) : Mutagen.tags :=
  omap (fun kf => pair (fst kf) <$> written (snd kf)) t.

(** A serialiser that always succeeds and stores every frame so. *)
Definition save (t : Mutagen.tags) (f : file) : result file :=
  Ok (mkFile (size f) (readable f) (raw f) (mime f) (image f)
             (Frames (written_entries t))).

End Id3v23.

Module Contracts.
Import Fs.

(** An external process acts on the files only: it writes no log record
    of the program, takes none of its sleeps and enters none of its
    retry loops. *)
Definition files_only {A} (m : M world A) : Prop :=
  forall w, log (snd (m w)) = log w
            /\ slept (snd (m w)) = slept w
            /\ attempts (snd (m w)) = attempts w.

(** A process run that does not end with return code 0. *)
Definition unsuccessful (m : M world Z) : Prop :=
  forall w, fst (m w) <> Ok 0.

(** A process run that reports a failure and changes nothing. *)
Definition fails_cleanly (m : M world Z) : Prop :=
  forall w, exists returncode, returncode <> 0 /\ m w = (Ok returncode, w).

(** What a successful [save(v2_version=3)] leaves on disk as far as the
    provenance frames go: a file that can be read back, holding each
    TIT3 entry of the table as ID3v2.3 stores it, in the same order. *)
Definition writes_v23 (save_v23 : Mutagen.tags -> file -> result file) : Prop :=
  forall t f f', readable f = true -> save_v23 t f = Ok f' ->
    readable f' = true
    /\ exists t', id3 f' = Frames t'
                  /\ Mutagen.keep Spec.provenance_key t'
                     = Id3v23.written_entries (Mutagen.keep Spec.provenance_key t).

End Contracts.

(* ===================================================================== *)
(** ** Further concrete scenarios                                        *)
(* ===================================================================== *)

Module Scenarios.
Import Fs.




(** A library whose first file has an ID3 header but no frame yet, next
    to a cover picture. *)
Definition with_cover : world :=
  Examples.world_of
    [("in", Dir 0 ["a.mp3"; "cover.png"]);
     ("in/a.mp3", Reg (mkFile 100 true "" (Some "audio/mpeg") false (Frames [])));
     ("in/cover.png", Examples.picture 10)].

(** The same library when the file carries a TIT3 frame of two
    values. *)
Definition two_titles : world :=
  Examples.world_of
    [("in", Dir 0 ["a.mp3"; "cover.png"]);
     ("in/a.mp3",
      Reg (mkFile 100 true "" (Some "audio/mpeg") false
                  (Frames [("TIT3", Mutagen.Text "TIT3" ["x"; "y"])])));
     ("in/cover.png", Examples.picture 10)].

(** A compressor as [__init__] leaves it, with the default
    configuration. *)
Definition fresh_compressor : FileCompression.AudioCompressor :=
  FileCompression.init Examples.default_config.

End Scenarios.

(* ===================================================================== *)
(** ** Notions used by the further properties                            *)
(* ===================================================================== *)

Module Notions.
Import Fs.

(** A hash key the tagging step manages: one of the seven identifiers it
    clears, or a key such an identifier prefixes. *)
Definition managed_key (k : string) : bool :=
  List.existsb
    (fun tag => String.eqb k tag || OsPath.startswith (tag +:+ ":") k)
    AudioTrackProcessing.old_tags.

(** A key the tagging step has no business with. *)
Definition foreign_key (k : string) : bool :=
  negb (managed_key k) && negb (Spec.provenance_key k).


(** The records [get_existing_identifiers] writes for one listed file:
    those of [get_file_identifier], then one error when the identifier
    could not be read. *)
Definition identifier_records (g : fs) (p : string) : list (level * string) :=
  match ID3 g p with
  | Ok t =>
      match Mutagen.getall "TIT3" t with
      | _ :: _ => []
      | [] => [(ERROR, "reading the file identifier failed")]
      end
  | Raise ID3NoHeaderError => [(WARNING, "file has no ID3 header")]
  | Raise _ => [(ERROR, "reading the file identifier failed")]
  end.

Definition existing_records (g : fs) (output_dir file : string)
    : list (level * string) :=
  (identifier_records g (OsPath.join output_dir file)
   ++ if Spec.readable_identifier g output_dir file then []
      else [(ERROR, "identifier of an output file unavailable")])%list.

(** Text written in ASCII: every byte is below 128. *)
Fixpoint ascii_text (s : string) : bool :=
  match s with
  | EmptyString => true
  | String c s' => Nat.ltb (nat_of_ascii c) 128 && ascii_text s'
  end.

(** A world in which a listed output file has vanished. *)
Definition vanished : world :=
  Examples.world_of [("out", Dir 0 ["c.mp3"; "gone.mp3"]);
                     ("out/c.mp3", Examples.tagged 3 "song")].

End Notions.

Module Downloads.
Import Fs.

(** A scratch directory holding one downloaded video next to the output
    directory. *)
Definition video : file := mkFile 900 true "" (Some "video/x-flv") false NoHeader.

Definition fetched : world :=
  Examples.world_of [("tmp", Dir 0 ["v.flv"; "w.flv"]);
                     ("tmp/v.flv", Reg video);
                     ("tmp/w.flv", Reg video);
                     ("out", Dir 0 [])].

(** A converter that writes nothing and reports success. *)
Definition ffmpeg_succeeds (input_file output_file audio_format : string) : M world Z :=
  ret 0.

(** A converter that cannot be started. *)
Definition ffmpeg_missing (input_file output_file audio_format : string) : M world Z :=
  raise FileNotFoundError.

End Downloads.

(* ===================================================================== *)
(** ** NetworkOperations.py: [crawl_favorites]                           *)
(* ===================================================================== *)

Module Crawl.
Import Fs.

Definition DEFAULT_RETRY : Z := NetworkOperations.DEFAULT_RETRY.
Definition DEFAULT_PAGE_SIZE : Z := 200.
Definition DEFAULT_CRAWL_TIMEOUT : Z := 5.

(** What [requests.get] followed by [response.json()] and
    [response_result.get("code")] come to: an answer with its status
    code and its JSON object, or the exception that was raised.  [J] is
    the type of the JSON objects, [code] reads the entry [code] of one
    ([None] when there is none or it is no number). *)
Inductive reply (J : Type) : Type :=
| Answered (status_code : Z) (response_result : J)
| Timeout
| ValueError
| NetworkError
| OtherError.

Arguments Answered {J} status_code response_result.
Arguments Timeout {J}.
Arguments ValueError {J}.
Arguments NetworkError {J}.
Arguments OtherError {J}.

Definition waiting_time (count : Z) : Z := Z.min (2 ^ count) 5.

Definition url (fid : string) (page_size : Z) : string :=
  "https://api.bilibili.com/x/v1/medialist/resource/list?type=3&biz_id="
    +:+ fid +:+ "&ps=" +:+ pretty page_size.

Section Loop.

Context {J : Type}.
Variable code : J -> option Z.

(** [requests.get(url, timeout, headers)] and the decoding of the
    answer.  The request may depend on the world and change it. *)
Variable request : string -> Z -> M world (reply J).

(** [for count in range(1, retry + 1)], [n] iterations left.  The
    result is [None] for the empty dict. *)
Fixpoint crawl_loop (n : nat) (count timeout : Z) (url : string) : M world (option J) :=
  match n with
  | O => logger ERROR "too many retries, crawl stopped" ;; ret None
  | S n' =>
      enter_attempt count ;;
      let* answer :=
        try_except (request url timeout) (fun _ => ret OtherError) in
      let* next :=
        match answer with
        | Answered status_code response_result =>
            if andb (status_code =? 200)%Z
                    (bool_decide (code response_result = Some 0%Z)) then
              logger INFO "favorites crawled" ;; ret (inl response_result)
            else
              logger ERROR "crawl failed: status code and response code" ;;
              ret (inr timeout)
        | Timeout =>
            logger ERROR "crawl timed out" ;;
            ret (inr (timeout + Z.min (2 ^ count) 5)%Z)
        | ValueError => logger ERROR "JSON cannot be parsed" ;; ret (inr timeout)
        | NetworkError => logger ERROR "network error" ;; ret (inr timeout)
        | OtherError => logger ERROR "crawl error" ;; ret (inr timeout)
        end in
      match next with
      | inl response_result => ret (Some response_result)
      | inr timeout' =>
          logger DEBUG "waiting before the next crawl attempt" ;;
          sleep (waiting_time count) ;;
          crawl_loop n' (count + 1) timeout' url
      end
  end.

Definition crawl_favorites (fid : string) (retry timeout page_size : Z)
    : M world (option J) :=
  if String.eqb fid "" then
    logger ERROR "the fid of the favorites is missing" ;; ret None
  else
  let* retry :=
    (if andb (1 <=? retry)%Z (retry <=? 5)%Z then ret retry
     else logger ERROR "invalid retry count, default used" ;; ret DEFAULT_RETRY) in
  let* timeout :=
    (if andb (0 <=? timeout)%Z (timeout <=? 10)%Z then ret timeout
     else logger ERROR "invalid timeout, default used" ;; ret DEFAULT_CRAWL_TIMEOUT) in
  let* page_size :=
    (if andb (1 <=? page_size)%Z (page_size <=? 200)%Z then ret page_size
     else logger ERROR "invalid page size, default used" ;; ret DEFAULT_PAGE_SIZE) in
  crawl_loop (Z.to_nat retry) 1 timeout (url fid page_size).

End Loop.

(** The values the three arguments are replaced by. *)
Definition valid_retry (retry : Z) : Z :=
  if andb (1 <=? retry)%Z (retry <=? 5)%Z then retry else DEFAULT_RETRY.

Definition valid_timeout (timeout : Z) : Z :=
  if andb (0 <=? timeout)%Z (timeout <=? 10)%Z then timeout else DEFAULT_CRAWL_TIMEOUT.

Definition valid_page_size (page_size : Z) : Z :=
  if andb (1 <=? page_size)%Z (page_size <=? 200)%Z then page_size
  else DEFAULT_PAGE_SIZE.

(** The timeout of attempt [count + k] when attempt [count] ran under
    [timeout] and every attempt from [count] on timed out. *)
Fixpoint timeout_after (k : nat) (count timeout : Z) : Z :=
  match k with
  | O => timeout
  | S k' => timeout_after k' (count + 1) (timeout + Z.min (2 ^ count) 5)
  end.

(** The sleeps of [n] failed attempts starting at [count]. *)
Fixpoint waits (n : nat) (count : Z) : list Z :=
  match n with
  | O => []
  | S n' => waiting_time count :: waits n' (count + 1)
  end.

(** The loop counters of [n] attempts starting at [count]. *)
Fixpoint counters (n : nat) (count : Z) : list Z :=
  match n with
  | O => []
  | S n' => count :: counters n' (count + 1)
  end.

(** An answer that does not end the loop and is no timeout. *)
Definition rejected {J : Type} (code : J -> option Z) (answer : reply J) : bool :=
  match answer with
  | Answered status_code response_result =>
      negb (andb (status_code =? 200)%Z
                 (bool_decide (code response_result = Some 0%Z)))
  | Timeout => false
  | ValueError | NetworkError | OtherError => true
  end.

(** A JSON object reduced to its [code], and two servers: one that
    answers only a request that waits at least eleven seconds, one that
    is unreachable. *)
Definition patient_server (url : string) (timeout : Z) : M world (reply (option Z)) :=
  if (timeout <? 11)%Z then ret Timeout else ret (Answered 200 (Some 0%Z)).

Definition unreachable_server (url : string) (timeout : Z) : M world (reply (option Z)) :=
  ret NetworkError.

End Crawl.

(* ===================================================================== *)
(** ** DataProcessing.py: [data_classification]                          *)
(* ===================================================================== *)

Module Classification.
Import Fs.

Definition DEFAULT_DURATION : string := "00:00:00".
Definition DEFAULT_PUBTIME : string := "0000-00-00 00:00:00".

(** A JSON scalar of the answer. *)
Inductive value : Type :=
| Num (n : Z)
| Str (s : string).

(** One item of [data["data"]["mediaList"]], with the entries the
    function reads; a field is [None] when the item has no such key.
    The entries are taken to have the types the interface gives them:
    strings for [bv_id], [title] and [cover], a dict for [cnt_info],
    integers for [duration] and [pubtime]. *)
Record media : Type := mkMedia {
  bv_id : option string;
  title : option string;
  cover : option string;
  cnt_info : list (string * value);
  duration : option Z;
  pubtime : option Z
}.

(** One value of the result: the dict stored under a bvid. *)
Record entry : Type := mkEntry {
  entry_title : string;
  entry_pubtime : string;
  entry_duration : string;
  entry_cover : string;
  entry_counts : list (string * value)
}.

Definition cnt_info_fields : list string :=
  ["coin"; "play"; "reply"; "share"; "danmaku"; "collect"; "thumb_up"].

(** The characters removed from a title: backslash, slash, colon, star,
    question mark, double quote, angle brackets and bar. *)
Definition invalid_characters : string :=
  "\/:*?" +:+ String (Ascii.ascii_of_nat 34) "<>|".

(** [character in s] *)
Fixpoint occurs (character : ascii) (s : string) : bool :=
  match s with
  | EmptyString => false
  | String c s' => orb (Ascii.eqb c character) (occurs character s')
  end.

(** Lines 85-93: the title without the invalid characters.  The
    characters are the bytes of the UTF-8 text: the invalid ones are
    ASCII, and no byte of a longer sequence is. *)
Fixpoint media_title (title : string) : string :=
  match title with
  | EmptyString => EmptyString
  | String character title' =>
      if occurs character invalid_characters then media_title title'
      else String character (media_title title')
  end.

(** [d[key] = v] on a dict kept in insertion order. *)
Fixpoint setitem {V} (key : string) (v : V) (d : list (string * V)) : list (string * V) :=
  match d with
  | [] => [(key, v)]
  | (k, v') :: d' =>
      if String.eqb k key then (k, v) :: d' else (k, v') :: setitem key v d'
  end.

Section Classify.

(** [bool(frame)] of a frame read from a file. *)
Variable truthy : Mutagen.frame -> bool.

(** [datetime.fromtimestamp(timestamp).strftime(format)] in the local
    time zone; [None] when it raises. *)
Variable fromtimestamp : Z -> string -> option string.

(** Lines 69-82: the TIT3 texts of the files of [input_path]. *)
Fixpoint collect_tags (input_path : string) (entries : list string)
    (file_tag : gset string) : M world (gset string) :=
  match entries with
  | [] => ret file_tag
  | file :: rest =>
      let* file_tag' :=
        try_except
          (let* audio_file := reads (fun g => ID3 g (OsPath.join input_path file)) in
           match Mutagen.getall "TIT3" audio_file with
           | audio_tags :: _ =>
               if truthy audio_tags then ret ({[Mutagen.str audio_tags]} ∪ file_tag)
               else ret file_tag
           | [] => raise IndexError
           end)
          (fun e =>
             match e with
             | ID3NoHeaderError => ret file_tag
             | _ => logger ERROR "reading the tags of an audio file failed" ;;
                    ret file_tag
             end) in
      collect_tags input_path rest file_tag'
  end.

(** A formatted time, or the default after a logged error. *)
Definition formatted (timestamp : Z) (format fallback : string) : M world string :=
  match fromtimestamp timestamp format with
  | Some text => ret text
  | None => logger ERROR "time cannot be formatted" ;; ret fallback
  end.

(** Lines 84-141: the loop over the items. *)
Fixpoint classify (media_data : list media) (file_tag : gset string)
    (media_result : list (string * entry)) : M world (list (string * entry)) :=
  match media_data with
  | [] => ret media_result
  | media :: rest =>
      let bvid := default "" (bv_id media) in
      let media_title := media_title (default "未知标题" (title media)) in
      if String.eqb bvid "" then
        logger ERROR "bvid missing" ;;
        classify rest file_tag media_result
      else if bool_decide (media_title ∈ file_tag) then
        logger DEBUG "audio already downloaded, skipped" ;;
        classify rest file_tag media_result
      else
        let counts :=
          List.map (fun field =>
                      (field, default (Str "0") (dict_get field (cnt_info media))))
                   cnt_info_fields in
        let* duration :=
          formatted (default 0%Z (duration media)) "%H:%M:%S" DEFAULT_DURATION in
        let* pubtime :=
          formatted (default 0%Z (pubtime media)) "%Y-%m-%d %H:%M:%S" DEFAULT_PUBTIME in
        classify rest file_tag
          (setitem bvid
             (mkEntry media_title pubtime duration
                      (default "未知封面" (cover media)) counts)
             media_result)
  end.

(** [data] is [None] for the empty dict, else the list under
    [data["data"]["mediaList"]] (empty when a key is missing).  An
    answer that holds a null in place of the [data] object, of a title
    or of [cnt_info] makes the function raise before any handler; such
    answers are outside [media]. *)
Definition data_classification (data : option (list media)) (input_path : string)
    : M world (list (string * entry)) :=
  match data with
  | None => logger INFO "favorites empty, nothing to download" ;; ret []
  | Some media_data =>
      let* is_dir := gets (fun w => isdir (files w) input_path) in
      if negb is_dir then logger ERROR "audio directory path invalid" ;; ret []
      else
        match media_data with
        | [] => logger INFO "favorites empty, nothing to download" ;; ret []
        | _ :: _ =>
            let* entries := reads (fun g => listdir g input_path) in
            let* file_tag := collect_tags input_path entries ∅ in
            let* media_result := classify media_data file_tag [] in
            logger INFO "video data processed" ;;
            ret media_result
        end
  end.

End Classify.

(** Every frame counts as true; the time is rendered as the number of
    seconds. *)
Definition always_true (f : Mutagen.frame) : bool := true.

Definition seconds (timestamp : Z) (format : string) : option string :=
  Some (pretty timestamp).

(** Two items of a favorites list: the first is in the library of
    [Examples.library] under its title, the second is new. *)
Definition known_item : media :=
  mkMedia (Some "BV1xx411c7mD") (Some "song") None [] (Some 200%Z) None.

Definition new_item : media :=
  mkMedia (Some "BV1yy411c7mE") (Some "what: a tune?") None [("play", Num 7)]
          (Some 100%Z) None.

End Classification.

(* ===================================================================== *)
(** ** ProgramInitialization.py: [tool_detection]                        *)
(* ===================================================================== *)

Module Tools.
Import Fs.

(** The locals of the loop: the dict [tool_list], the list
    [missing_tools] and the two counters. *)
Record detection : Type := mkDetection {
  tool_list : list (string * string);
  missing_tools : list string;
  failed : Z;
  succeed : Z
}.

Section Detection.

(** [shutil.which(tool)]: the absolute path, or [None]. *)
Variable which : string -> option string.

(** [not tool_result] *)
Definition found (tool : string) : option string :=
  match which tool with
  | Some EmptyString => None
  | r => r
  end.

Fixpoint detect (tools : list string) (st : detection) : M world detection :=
  match tools with
  | [] => ret st
  | tool :: rest =>
      match found tool with
      | None =>
          detect rest (mkDetection (tool_list st) (missing_tools st ++ [tool])
                                   (failed st + 1) (succeed st))
      | Some tool_result =>
          logger DEBUG "absolute path of a tool" ;;
          detect rest (mkDetection (Classification.setitem tool tool_result (tool_list st))
                                   (missing_tools st) (failed st) (succeed st + 1))
      end
  end.

Definition tool_detection (tools : list string) : M world (list (string * string)) :=
  let* st := detect tools (mkDetection [] [] 0 0) in
  (match missing_tools st with
   | [] => ret tt
   | _ :: _ => logger ERROR "dependent tools not found"
   end) ;;
  logger DEBUG "tool detection completed" ;;
  ret (tool_list st).

End Detection.

(** A machine on which only [ffmpeg] is installed. *)
Definition only_ffmpeg (tool : string) : option string :=
  if String.eqb tool "ffmpeg" then Some "/usr/bin/ffmpeg" else None.

End Tools.

Module Guards.
Import Fs.

(** A download task whose configuration lacks the URL. *)
Definition no_url : ConcurrentTasks.task_config :=
  ConcurrentTasks.mkTaskConfig (Some "title") (Some "in") None (Some "mp3") (Some []).

End Guards.

(* ===================================================================== *)
(** * Properties                                                         *)
(* ===================================================================== *)

(** ** Backoff: the waits and the timeout escalation of the retry loops  *)

Section Backoff.

Import FileCompression NetworkOperations.

Lemma capped_pow_mono (b cap n m : Z) :
  1 <= b -> 0 <= n <= m -> Z.min (b ^ n) cap <= Z.min (b ^ m) cap.
Proof.
  intros Hb Hnm.
  assert (b ^ n <= b ^ m) by (apply Z.pow_le_mono_r; lia).
  lia.
Qed.

Lemma capped_pow_saturates (b cap k n : Z) :
  1 <= b -> 0 <= k <= n -> cap <= b ^ k -> Z.min (b ^ n) cap = cap.
Proof.
  intros Hb Hkn Hcap.
  assert (b ^ k <= b ^ n) by (apply Z.pow_le_mono_r; lia).
  lia.
Qed.

Lemma wait_time_mono (n m : Z) : 0 <= n <= m -> wait_time n <= wait_time m.
Proof. intros. unfold wait_time. apply capped_pow_mono; lia. Qed.

Lemma wait_time_le_cap (n : Z) : wait_time n <= 30.
Proof. unfold wait_time. lia. Qed.

Lemma wait_time_saturates (n : Z) : 3 <= n -> wait_time n = 30.
Proof.
  intros. unfold wait_time.
  apply (capped_pow_saturates 5 30 3 n); [lia | lia | reflexivity || (simpl; lia)].
Qed.

Lemma waiting_time_mono (n m : Z) : 0 <= n <= m -> waiting_time n <= waiting_time m.
Proof. intros. unfold waiting_time. apply capped_pow_mono; lia. Qed.

Lemma waiting_time_saturates (n : Z) : 3 <= n -> waiting_time n = 5.
Proof.
  intros. unfold waiting_time.
  apply (capped_pow_saturates 2 5 3 n); [lia | lia | simpl; lia].
Qed.

Lemma escalate_le_cap (t : Z) : escalate t <= 300.
Proof. unfold escalate. lia. Qed.

Lemma escalate_increases (t : Z) : 0 <= t <= 300 -> t <= escalate t.
Proof. unfold escalate. lia. Qed.

Lemma escalate_range (t : Z) : 0 <= t <= 300 -> 0 <= escalate t <= 300.
Proof. unfold escalate. lia. Qed.

(** The timeout after [k] failed attempts stays in range. *)
Lemma iter_escalate_range (k : nat) (t : Z) :
  0 <= t <= 300 -> 0 <= Nat.iter k escalate t <= 300.
Proof.
  intros Ht. induction k as [|k IH]; simpl; [lia | now apply escalate_range].
Qed.

(** The timeout after [k] failed attempts does not decrease with [k]. *)
Lemma iter_escalate_mono (k l : nat) (t : Z) :
  0 <= t <= 300 -> (k <= l)%nat -> Nat.iter k escalate t <= Nat.iter l escalate t.
Proof.
  intros Ht Hkl. induction Hkl as [|l Hkl IH]; [lia |].
  cbn [Nat.iter nat_rect].
  change (nat_rect _ t (fun _ => escalate) l) with (Nat.iter l escalate t).
  pose proof (iter_escalate_range l t Ht).
  pose proof (escalate_increases (Nat.iter l escalate t)). lia.
Qed.

Lemma next_timeout_step (t n : Z) : 1 <= n -> t < next_timeout t n <= t + 10.
Proof.
  intros Hn. unfold next_timeout.
  assert (0 < 3 ^ n) by (apply Z.pow_pos_nonneg; lia).
  lia.
Qed.

(** C2, as amended.  For an attempt number [n >= 1] the backoff wait is
    [min(base^n, cap)] at both call sites (base 5 and cap 30 in the
    compression retry, base 2 and cap 5 in the download retry); it does
    not decrease with [n], never exceeds the cap, and is the cap from
    the third attempt on.  The compression retry escalates a timeout
    [t] to [min(2 t, 300)]: never above 300, not below [t] when
    [0 <= t <= 300] (so that a timeout escalated [n] times from such a
    start does not decrease with [n] and stays within 300), and 300 once
    [t] has reached 150.  The download retry adds [min(3^n, 10)] to its
    timeout after attempt [n]: the timeout grows with every attempt and
    has no cap. *)
Theorem backoff_waits_and_timeouts (n m t : Z) :
  1 <= n -> n <= m ->
  (wait_time n = Z.min (5 ^ n) 30 /\ waiting_time n = Z.min (2 ^ n) 5)
  /\ (wait_time n <= wait_time m <= 30 /\ waiting_time n <= waiting_time m <= 5)
  /\ (3 <= n -> wait_time n = 30 /\ waiting_time n = 5)
  /\ (escalate t = Z.min (t * 2) 300 /\ escalate t <= 300)
  /\ (0 <= t <= 300 ->
      t <= escalate t
      /\ Nat.iter (Z.to_nat n) escalate t <= Nat.iter (Z.to_nat m) escalate t <= 300)
  /\ (150 <= t -> escalate t = 300)
  /\ (next_timeout t n = t + Z.min (3 ^ n) 10 /\ t < next_timeout t n).
Proof.
  intros Hn Hm.
  pose proof (wait_time_mono n m). pose proof (waiting_time_mono n m).
  pose proof (wait_time_le_cap m). pose proof (next_timeout_step t n Hn).
  pose proof (escalate_le_cap t). pose proof (escalate_increases t).
  repeat split; try reflexivity; try lia.
  - unfold waiting_time. lia.
  - now apply wait_time_saturates.
  - now apply waiting_time_saturates.
  - apply iter_escalate_mono; [assumption | lia].
  - now apply iter_escalate_range.
  - unfold escalate. lia.
Qed.

Lemma backoff_waits_and_timeouts_witness :
  (wait_time 1 = Z.min (5 ^ 1) 30 /\ waiting_time 1 = Z.min (2 ^ 1) 5)
  /\ (wait_time 1 <= wait_time 2 <= 30 /\ waiting_time 1 <= waiting_time 2 <= 5)
  /\ (3 <= 1 -> wait_time 1 = 30 /\ waiting_time 1 = 5)
  /\ (escalate 100 = Z.min (100 * 2) 300 /\ escalate 100 <= 300)
  /\ (0 <= 100 <= 300 ->
      100 <= escalate 100
      /\ Nat.iter (Z.to_nat 1) escalate 100 <= Nat.iter (Z.to_nat 2) escalate 100 <= 300)
  /\ (150 <= 100 -> escalate 100 = 300)
  /\ (next_timeout 100 1 = 100 + Z.min (3 ^ 1) 10 /\ 100 < next_timeout 100 1).
Proof. apply (backoff_waits_and_timeouts 1 2 100); lia. Defined.

(** C2 as stated fails at the download call site: the next timeout
    depends on the attempt number, so it is no function
    [min(t * growthFactor, capTimeout)] of the timeout alone. *)
Lemma download_timeout_is_additive :
  next_timeout 60 1 = 63
  /\ next_timeout 60 2 = 69
  /\ ~ (exists escalate_timeout : Z -> Z,
          forall t n, 1 <= n -> next_timeout t n = escalate_timeout t).
Proof.
  split; [reflexivity | split; [reflexivity |]].
  intros (f & Hf).
  pose proof (Hf 60 1 ltac:(lia)) as H1. pose proof (Hf 60 2 ltac:(lia)) as H2.
  vm_compute in H1, H2. congruence.
Qed.

(** The download retry at work: four failed attempts from the default
    timeout run under 60, 63, 72 and 82 seconds, with waits of 2, 4, 5
    and 5 seconds. *)
Lemma download_retry_trace :
  let w := snd (download_video Examples.you_get_reports_timeout "title" "in"
                  "BV1xx411c7mD" 4 60 Examples.single) in
  List.map snd (List.filter (fun r => match fst r with DEBUG => true | _ => false end)
                            (Fs.log w))
  = ["60"; "63"; "72"; "82"]
  /\ Fs.slept w = [2; 4; 5; 5]
  /\ Fs.attempts w = [1; 2; 3; 4].
Proof. vm_compute. auto. Qed.

End Backoff.

(** ** Identity resolver *)

Section Identity.

Import Fs FileCompression Spec.

(** [get_file_identifier] computes the ContentIdentifier and touches
    nothing but the log. *)
Lemma get_file_identifier_run (p : string) (w : world) :
  exists w', get_file_identifier p w = (ContentIdentifier (files w) p, w')
             /\ files w' = files w
             /\ slept w' = slept w
             /\ attempts w' = attempts w.
Proof.
  unfold get_file_identifier, ContentIdentifier, size_string,
    try_except, bind, reads, ret, raise.
  destruct (ID3 (files w) p) as [t|e] eqn:Hload.
  - destruct (Mutagen.getall "TIT3" t) as [|f fs']; cbn.
    + destruct (getsize (files w) p); eauto.
    + eauto.
  - destruct e; cbn; destruct (getsize (files w) p); eauto.
Qed.

Lemma get_file_identifier_missing (p : string) (w : world) :
  files w !! p = None ->
  fst (get_file_identifier p w) = Raise FileNotFoundError.
Proof.
  intros Hp. destruct (get_file_identifier_run p w) as (w' & -> & _).
  cbn. unfold ContentIdentifier, size_string, ID3, getsize. now rewrite Hp.
Qed.

(** C4, as amended: on a path whose size can be read,
    [get_file_identifier] never raises.  It returns the text of the TIT3
    frame when the tag table loads and holds one, leaving the log
    alone; otherwise it adds one record to the log (a warning when the
    ID3 header is missing, an error for any other failure) and returns
    the byte length as a decimal string.  On a path whose size cannot be
    read, the error of the size query leaves the method.  The files are
    never changed. *)
Theorem identifier_of_path (p : string) (w : world) :
  exists w',
    files w' = files w /\
    match getsize (files w) p with
    | Ok n =>
        match ID3 (files w) p with
        | Ok t =>
            match Mutagen.getall "TIT3" t with
            | f :: _ =>
                get_file_identifier p w = (Ok (Mutagen.str f), w') /\ log w' = log w
            | [] =>
                get_file_identifier p w = (Ok (pretty n), w') /\
                exists msg, log w' = (log w ++ [(ERROR, msg)])%list
            end
        | Raise ID3NoHeaderError =>
            get_file_identifier p w = (Ok (pretty n), w') /\
            exists msg, log w' = (log w ++ [(WARNING, msg)])%list
        | Raise _ =>
            get_file_identifier p w = (Ok (pretty n), w') /\
            exists msg, log w' = (log w ++ [(ERROR, msg)])%list
        end
    | Raise e => get_file_identifier p w = (Raise e, w')
    end.
Proof.
  destruct (getsize (files w) p) as [n|e0] eqn:Hsize.
  - unfold get_file_identifier, try_except, bind, reads, ret, raise.
    destruct (ID3 (files w) p) as [t|e].
    + destruct (Mutagen.getall "TIT3" t) as [|f fs']; cbn.
      * rewrite Hsize. cbn.
        eexists; split; [| split; [reflexivity | eexists; reflexivity]]; reflexivity.
      * exists w. auto.
    + destruct e; cbn; rewrite Hsize; cbn;
        (eexists; split; [| split; [reflexivity | eexists; reflexivity]]; reflexivity).
  - destruct (get_file_identifier_run p w) as (w' & Hrun & Hfiles & _).
    exists w'. split; [exact Hfiles |]. rewrite Hrun. f_equal.
    unfold ContentIdentifier, size_string, ID3, getsize in *.
    destruct (files w !! p) as [[f|s entries]|]; try discriminate Hsize.
    injection Hsize as <-. reflexivity.
Qed.

Lemma identifier_of_path_witness :
  exists w',
    files w' = files Examples.library /\
    get_file_identifier "in/a.mp3" Examples.library = (Ok "100", w') /\
    exists msg, log w' = (log Examples.library ++ [(WARNING, msg)])%list.
Proof. exact (identifier_of_path "in/a.mp3" Examples.library). Defined.

(** C4 as stated fails: for a path that does not exist the fallback
    itself raises, and the exception leaves the function. *)
Lemma identifier_of_missing_path_raises :
  fst (get_file_identifier "in/missing.mp3" Examples.library)
  = Raise FileNotFoundError.
Proof. vm_compute. reflexivity. Qed.

End Identity.

(** ** Scheduling of the compression pool *)

Section Scheduling.

Import Fs FileCompression ConcurrentTasks Spec.

Lemma collect_identifiers_run (output_dir : string) (entries : list string) :
  forall (acc : gset string) (w : world),
  exists ids w',
    collect_identifiers output_dir entries acc w = (Ok ids, w')
    /\ files w' = files w
    /\ forall i, i ∈ ids <-> i ∈ acc \/ identifiers_in (files w) output_dir entries i.
Proof.
  induction entries as [|file rest IH]; intros acc w.
  - exists acc, w. repeat split; auto.
    + intros [H | (f & [] & _)]; exact H.
  - cbn [collect_identifiers]. unfold bind at 1, try_except, bind at 1.
    destruct (get_file_identifier_run (OsPath.join output_dir file) w)
      as (w1 & Hrun & Hfiles & _ & _).
    rewrite Hrun.
    destruct (ContentIdentifier (files w) (OsPath.join output_dir file))
      as [i0|e] eqn:Hid; cbn.
    + destruct (IH ({[ i0 ]} ∪ acc) w1) as (ids & w' & Heq & Hf & Hin).
      exists ids, w'. rewrite Heq, Hf, Hfiles. repeat split; auto.
      * rewrite Hin, Hfiles. rewrite elem_of_union, elem_of_singleton.
        intros [[-> | H] | (f & Hf' & Hc)]; auto.
        -- right. exists file. split; [now left | exact Hid].
        -- right. exists f. split; [now right | exact Hc].
      * rewrite Hin, Hfiles. rewrite elem_of_union, elem_of_singleton.
        intros [H | (f & [<- | Hf'] & Hc)]; auto.
        -- rewrite Hid in Hc. injection Hc as ->. auto.
        -- right. exists f. auto.
    + destruct (IH acc (emit ERROR "identifier of an output file unavailable" w1))
        as (ids & w' & Heq & Hf & Hin).
      exists ids, w'. rewrite Heq, Hf. cbn. rewrite Hfiles. repeat split; auto.
      * rewrite Hin. cbn. rewrite Hfiles.
        intros [H | (f & Hf' & Hc)]; auto.
        right. exists f. split; [now right | exact Hc].
      * rewrite Hin. cbn. rewrite Hfiles.
        intros [H | (f & [<- | Hf'] & Hc)]; auto.
        -- rewrite Hid in Hc. discriminate.
        -- right. exists f. auto.
Qed.

Lemma get_existing_identifiers_run (output_dir : string) (entries : list string)
    (w : world) :
  listdir (files w) output_dir = Ok entries ->
  exists ids w',
    get_existing_identifiers output_dir w = (Ok ids, w')
    /\ files w' = files w
    /\ forall i, i ∈ ids <-> identifiers_in (files w) output_dir entries i.
Proof.
  intros Hls. unfold get_existing_identifiers, bind, reads. rewrite Hls.
  destruct (collect_identifiers_run output_dir entries ∅ w)
    as (ids & w' & Heq & Hf & Hin).
  exists ids, w'. repeat split; auto.
  - intros H. apply Hin in H as [H | H]; [set_solver | exact H].
  - intros H. apply Hin. now right.
Qed.

(** The submission loop computes [plan] on the files as they are,
    appending to [futures]. *)
Lemma submit_candidates_run (input_path : string) (existing_ids : gset string)
    (entries : list string) :
  forall (futures : list string) (w : world),
  exists w',
    submit_candidates input_path existing_ids entries (futures, w)
    = (fst (plan (files w) input_path existing_ids entries),
       ((futures ++ snd (plan (files w) input_path existing_ids entries))%list, w'))
    /\ files w' = files w.
Proof.
  induction entries as [|file rest IH]; intros futures w.
  - exists w. cbn. now rewrite app_nil_r.
  - cbn [submit_candidates plan]. unfold bind at 1.
    destruct (get_file_identifier_run (OsPath.join input_path file) w)
      as (w1 & Hrun & Hfiles & _ & _).
    cbn [fst snd]. rewrite Hrun.
    destruct (ContentIdentifier (files w) (OsPath.join input_path file))
      as [i0|e] eqn:Hid.
    + unfold bind at 1.
      destruct (bool_decide (i0 ∈ existing_ids)) eqn:Hmem; cbn [modify fst snd].
      * destruct (IH futures (emit DEBUG "audio already compressed, skipped" w1))
          as (w' & Heq & Hf).
        cbn in Hf. rewrite Hfiles in Hf. cbn [files emit world_logging] in Heq.
        exists w'. split; [| exact Hf].
        rewrite Heq. cbn [files]. rewrite Hfiles.
        destruct (plan (files w) input_path existing_ids rest); reflexivity.
      * destruct (IH (futures ++ [file])%list w1) as (w' & Heq & Hf).
        exists w'. split; [| congruence].
        rewrite Heq, Hfiles.
        destruct (plan (files w) input_path existing_ids rest); cbn.
        now rewrite <- app_assoc.
    + exists w1. split; [| exact Hfiles]. cbn. now rewrite app_nil_r.
Qed.

Lemma plan_submits_eligible (g : fs) (input_path : string)
    (existing_ids : gset string) (entries : list string) (file : string) :
  In file (snd (plan g input_path existing_ids entries)) ->
  In file entries /\ eligible g input_path existing_ids file = true.
Proof.
  induction entries as [|f rest IH]; cbn [plan]; [intros [] |].
  destruct (ContentIdentifier g (OsPath.join input_path f)) as [i|e] eqn:Hid;
    [| intros []].
  destruct (plan g input_path existing_ids rest) as [ended l].
  cbn [snd] in *. destruct (bool_decide (i ∈ existing_ids)) eqn:Hmem.
  - intros H. destruct (IH H). split; [now right | assumption].
  - intros [<- | H].
    + split; [now left |]. unfold eligible. now rewrite Hid, Hmem.
    + destruct (IH H). split; [now right | assumption].
Qed.

Lemma plan_all_readable (g : fs) (input_path : string)
    (existing_ids : gset string) (entries : list string) :
  (forall file, In file entries -> readable_identifier g input_path file = true) ->
  plan g input_path existing_ids entries
  = (Ok tt, List.filter (eligible g input_path existing_ids) entries).
Proof.
  induction entries as [|f rest IH]; intros Hall; cbn [plan List.filter]; [reflexivity |].
  pose proof (Hall f (or_introl eq_refl)) as Hf.
  unfold readable_identifier in Hf. unfold eligible at 1.
  destruct (ContentIdentifier g (OsPath.join input_path f)) as [i|e]; [| discriminate].
  rewrite IH by (intros; apply Hall; now right).
  destruct (bool_decide (i ∈ existing_ids)); reflexivity.
Qed.

(** What [schedule] returns, in terms of the files at the start. *)
Lemma schedule_run (input_path output_path : string) (w : world)
    (ins outs : list string) :
  listdir (files w) input_path = Ok ins ->
  listdir (files w) output_path = Ok outs ->
  exists existing_ids w',
    (forall i, i ∈ existing_ids <-> identifiers_in (files w) output_path outs i)
    /\ schedule input_path output_path w
       = (plan (files w) input_path existing_ids ins, w')
    /\ files w' = files w.
Proof.
  intros Hins Houts. unfold schedule.
  destruct (get_existing_identifiers_run output_path outs w Houts)
    as (ids & w0 & -> & Hf0 & Hin).
  exists ids. unfold bind. cbn [snd]. rewrite Hf0, Hins.
  destruct (submit_candidates_run input_path ids ins [] w0) as (w1 & -> & Hf1).
  exists w1. rewrite Hf0 in *. repeat split; try apply Hin; auto.
  cbn. now destruct (plan (files w) input_path ids ins).
Qed.

(** C6: a candidate whose ContentIdentifier is that of a file present in
    the output directory when the run starts is not handed to the
    compression pool. *)
Theorem existing_identifier_never_submitted
    (input_path output_path : string) (w : world)
    (ins outs : list string) (file out_file i : string) :
  listdir (files w) input_path = Ok ins ->
  listdir (files w) output_path = Ok outs ->
  In out_file outs ->
  ContentIdentifier (files w) (OsPath.join output_path out_file) = Ok i ->
  ContentIdentifier (files w) (OsPath.join input_path file) = Ok i ->
  ~ In file (snd (fst (schedule input_path output_path w))).
Proof.
  intros Hins Houts Hout Hidout Hidin Hsub.
  destruct (schedule_run input_path output_path w ins outs Hins Houts)
    as (ids & w' & Hex & Heq & _).
  rewrite Heq in Hsub. cbn [fst] in Hsub.
  apply plan_submits_eligible in Hsub as [_ Hel].
  unfold eligible in Hel. rewrite Hidin in Hel.
  assert (i ∈ ids) as Hi by (apply Hex; exists out_file; auto).
  rewrite (bool_decide_eq_true_2 _ Hi) in Hel. discriminate.
Qed.

Lemma existing_identifier_never_submitted_witness :
  ~ In "c.mp3" (snd (fst (schedule "in" "out" Examples.library))).
Proof.
  apply (existing_identifier_never_submitted "in" "out" Examples.library
           ["a.mp3"; "b.mp3"; "c.mp3"] ["c.mp3"] "c.mp3" "c.mp3" "song");
    vm_compute; auto.
Defined.

(** C1 as stated fails: two candidates with the same ContentIdentifier
    that no existing output carries are both submitted. *)
Lemma equal_identifiers_both_submitted :
  ContentIdentifier (files Examples.library) "in/a.mp3" = Ok "100"
  /\ ContentIdentifier (files Examples.library) "in/b.mp3" = Ok "100"
  /\ snd (fst (schedule "in" "out" Examples.library)) = ["a.mp3"; "b.mp3"].
Proof. vm_compute. auto. Qed.

End Scheduling.

(** ** The retry loop of the compression session *)

Section CompressionRetries.

Import Fs FileCompression ConcurrentTasks Spec.

Variable site : string -> Z -> list (string * Z) -> session.

Lemma log_only_refl (st : cstate) : log_only st st.
Proof. unfold log_only. auto. Qed.

Lemma log_only_trans (st1 st2 st3 : cstate) :
  log_only st1 st2 -> log_only st2 st3 -> log_only st1 st3.
Proof. unfold log_only. intuition congruence. Qed.

Lemma log_only_emit (l : level) (msg : string) (st : cstate) :
  log_only st (emit l msg st).
Proof. destruct st. unfold log_only. cbn. auto. Qed.

Lemma stage_failed_run (e : exn) (st : cstate) :
  exists st', stage_failed e st = (Ok false, st') /\ log_only st st'.
Proof.
  unfold stage_failed, bind, logger, modify, ret.
  destruct e; eexists; (split; [reflexivity | apply log_only_emit]).
Qed.

Lemma upload_file_run (s : session) (st : cstate) :
  exists st', upload_file s st = (Ok (uploaded s), st') /\ log_only st st'.
Proof.
  unfold upload_file, uploaded, try_except, bind, lift, logger, modify, ret.
  destruct (upfile_wait s) as [[]|e]; cbn; [| apply stage_failed_run].
  destruct (upfile_send s) as [[]|e]; cbn; [| apply stage_failed_run].
  eexists; split; [reflexivity | apply log_only_emit].
Qed.

Lemma start_compression_run (s : session) (st : cstate) :
  exists st', start_compression s st = (Ok (compressed s), st') /\ log_only st st'.
Proof.
  unfold start_compression, compressed, try_except, bind, lift, logger, modify, ret.
  destruct (submit_wait s) as [[]|e]; cbn; [| apply stage_failed_run].
  destruct (submit_click s) as [[]|e]; cbn; [| apply stage_failed_run].
  destruct (result_wait s) as [[]|e]; cbn; [| apply stage_failed_run].
  eexists; split; [reflexivity | apply log_only_emit].
Qed.

(** The download stage returns a boolean; a copy is made only when all
    its steps succeed, and a failed stage changes nothing but the log. *)
Lemma download_compressed_file_run (s : session) (output_path : string)
    (st : cstate) :
  exists (b : bool) st',
    download_compressed_file s output_path st = (Ok b, st')
    /\ (b = true -> downloaded s = true)
    /\ (b = false -> log_only st st').
Proof.
  unfold download_compressed_file, downloaded, finished_downloads,
    try_except, bind, lift, gets, ret, raise.
  destruct (link_wait s) as [[]|e]; cbn;
    [| destruct (stage_failed_run e st) as (st' & -> & H); exists false, st'; auto].
  destruct (link_click s) as [[]|e]; cbn;
    [| destruct (stage_failed_run e st) as (st' & -> & H); exists false, st'; auto].
  destruct (start_wait s) as [[]|e]; cbn;
    [| destruct (stage_failed_run e st) as (st' & -> & H); exists false, st'; auto].
  destruct (complete_wait s) as [[]|e]; cbn;
    [| destruct (stage_failed_run e st) as (st' & -> & H); exists false, st'; auto].
  destruct (temp_listing s) as [listing|e]; cbn;
    [| destruct (stage_failed_run e st) as (st' & -> & H); exists false, st'; auto].
  destruct (List.filter _ listing) as [|x l']; cbn.
  { exists false, st. repeat split; auto using log_only_refl. }
  destruct (file_name (fst st)) as [name|]; cbn;
    [| exists false; eexists;
       (split; [reflexivity
               | split; [intros; discriminate | intros _; apply log_only_emit]])].
  destruct (copy2 s) as [[]|e]; cbn;
    [| destruct (stage_failed_run e st) as (st' & -> & H); exists false, st';
       (split; [reflexivity | split; [intros; discriminate | intros _; exact H]])].
  eexists true, _.
  split; [reflexivity | split; [reflexivity | intros; discriminate]].
Qed.

Lemma log_only_same (st st' : cstate) :
  log_only st st' -> same_but_log_and_browser st st'.
Proof.
  unfold log_only, same_but_log_and_browser.
  intros (H & ? & ? & ?). rewrite H. repeat split; assumption.
Qed.

Lemma same_trans (st1 st2 st3 : cstate) :
  same_but_log_and_browser st1 st2 -> same_but_log_and_browser st2 st3 ->
  same_but_log_and_browser st1 st3.
Proof. unfold same_but_log_and_browser. intuition congruence. Qed.

(** A session that does not get through every stage ends in the
    [except] clause, having changed the log and the browser only. *)
Lemma run_session_fails (s : session) (input_path output_path : string)
    (st : cstate) :
  session_succeeds (browser (fst st)) s = false ->
  exists e st',
    run_session s input_path output_path st = (Raise e, st')
    /\ same_but_log_and_browser st st'.
Proof.
  unfold session_succeeds, run_session. intros Hfail.
  unfold bind at 1, gets at 1. cbn [fst snd].
  assert (exists st1,
            (browser (fst st) || is_ok (edge_start s) = true ->
             (if browser (fst st) then ret tt else init_browser s) st = (Ok tt, st1))
            /\ (browser (fst st) || is_ok (edge_start s) = false ->
                exists e, (if browser (fst st) then ret tt else init_browser s) st
                          = (Raise e, st1))
            /\ same_but_log_and_browser st st1) as (st1 & Hopen & Hclosed & Hsame1).
  { destruct st as [[b name n t] w]. cbn.
    unfold init_browser, set_browser, bind, lift, modify, ret.
    destruct b; cbn.
    - eexists. split; [reflexivity |].
      split; [intros; discriminate | repeat split].
    - destruct (edge_start s) as [[]|e]; cbn.
      + eexists. split; [reflexivity |].
        split; [intros; discriminate | repeat split].
      + eexists. split; [intros; discriminate |].
        split; [intros _; exists e; reflexivity | repeat split]. }
  destruct (browser (fst st) || is_ok (edge_start s)) eqn:Hb.
  2:{ destruct (Hclosed eq_refl) as (e & He). unfold bind at 1. rewrite He. eauto. }
  unfold bind at 1. rewrite (Hopen eq_refl). clear Hopen Hclosed.
  unfold bind at 1, lift at 1.
  destruct (page_get s) as [[]|e]; [| eauto].
  unfold bind at 1.
  destruct (upload_file_run s st1) as (st2 & -> & H2).
  destruct (uploaded s); cbn [negb]; [| unfold raise; eauto 6 using same_trans, log_only_same].
  unfold bind at 1.
  destruct (start_compression_run s st2) as (st3 & -> & H3).
  destruct (compressed s); cbn [negb];
    [| unfold raise; eauto 8 using same_trans, log_only_same].
  unfold bind at 1.
  destruct (download_compressed_file_run s output_path st3) as (b & st4 & -> & Hb1 & Hb2).
  destruct b; cbn [negb].
  - rewrite Hb1 in Hfail by reflexivity. discriminate.
  - specialize (Hb2 eq_refl). unfold raise.
    eauto 10 using same_trans, log_only_same.
Qed.

(** Conversely, a session that gets through every stage makes the
    [try] body return [True], with the newest finished download copied
    to the output directory. *)
Lemma run_session_succeeds (s : session) (input_path output_path name : string)
    (st : cstate) :
  session_succeeds (browser (fst st)) s = true ->
  file_name (fst st) = Some name ->
  exists st',
    run_session s input_path output_path st = (Ok true, st')
    /\ isfile (files (snd st')) (OsPath.join output_path name) = true
    /\ attempts (snd st') = attempts (snd st)
    /\ slept (snd st') = slept (snd st).
Proof.
  destruct st as [[b fname n t] w]. destruct s. cbn [fst snd browser file_name].
  unfold session_succeeds, uploaded, compressed, downloaded, finished_downloads.
  intros Hok ->.
  destruct b; cbn -[OsPath.endswith] in Hok;
    repeat match type of Hok with
           | context [is_ok ?r] =>
               destruct r as [[]|?]; cbn -[OsPath.endswith] in Hok;
               rewrite ?andb_false_r in Hok; try discriminate Hok
           end;
    (destruct temp_listing0 as [listing|?];
       [| rewrite ?andb_false_r in Hok; discriminate Hok]);
    unfold run_session, upload_file, start_compression, download_compressed_file,
      init_browser, set_browser, in_world, try_except, bind, lift, gets, modify,
      logger, ret, raise;
    cbn -[OsPath.endswith write_file OsPath.join];
    (destruct (List.filter _ listing) as [|x l'] eqn:Hfinished;
       [rewrite ?andb_false_r in Hok; discriminate Hok |]);
    cbn -[OsPath.endswith write_file OsPath.join];
    (eexists; split; [reflexivity |]); cbn -[write_file OsPath.join];
    (split; [| auto]);
    unfold isfile, write_file; now rewrite lookup_insert_eq.
Qed.

Lemma tear_down_run (s : session) (st : cstate) :
  exists st',
    tear_down s st = (Ok tt, st')
    /\ browser (fst st') = false
    /\ same_but_log_and_browser st st'.
Proof.
  destruct st as [[b name n t] w].
  unfold tear_down, set_browser, try_except, bind, gets, lift, raise, logger,
    modify. cbn.
  destruct b; cbn; [destruct (browser_quit s) as [[]|e]; cbn |];
    (eexists; split; [reflexivity | split; [reflexivity | repeat split]]).
Qed.

(** The retry loop when every attempt fails: it returns [False] after
    [n] attempts, having slept after each and escalated the timeouts
    [n] times. *)
Lemma retry_loop_all_fail (input_path output_path : string) (n : nat) :
  forall (count : Z) (st : cstate),
    browser (fst st) = false ->
    all_sessions_fail site input_path n count (timeouts (fst st)) = true ->
    exists st',
      retry_loop site n count input_path output_path st = (Ok false, st')
      /\ browser (fst st') = false
      /\ timeouts (fst st') = escalated n (timeouts (fst st))
      /\ files (snd st') = files (snd st)
      /\ slept (snd st') = (slept (snd st) ++ List.map wait_time (counts_from count n))%list
      /\ attempts (snd st') = (attempts (snd st) ++ counts_from count n)%list.
Proof.
  induction n as [|n IH]; intros count st Hclosed Hfail.
  - cbn. unfold bind, logger, modify, ret. eexists. split; [reflexivity |].
    destruct st as [c w]. cbn. rewrite !app_nil_r. auto.
  - cbn [all_sessions_fail] in Hfail.
    apply andb_true_iff in Hfail as [Hthis Hrest].
    apply negb_true_iff in Hthis.
    cbn [retry_loop]. unfold bind at 1, gets at 1.
    set (s := site input_path count (timeouts (fst st))) in *.
    unfold bind at 1, try_finally, try_except, bind at 1, in_world at 1.
    cbn [enter_attempt modify snd fst].
    set (st_a := (fst st, _)).
    destruct (run_session_fails s input_path output_path st_a)
      as (e & st_b & -> & Hab); [subst st_a; cbn; now rewrite Hclosed |].
    destruct Hab as (Ht & Hr & Hn & Hf & Hs & Ha). subst st_a. cbn in Ht, Hr, Hn, Hf, Hs, Ha.
    destruct st_b as [[b1 name1 r1 t1] w1]. cbn in Ht, Hr, Hn, Hf, Hs, Ha. subst.
    unfold back_off, set_timeouts, in_world, sleep, bind, logger, modify, ret.
    cbn.
    match goal with
    | |- context [tear_down s ?st_c] =>
        destruct (tear_down_run s st_c) as (st_d & -> & Hb & Hcd)
    end.
    destruct Hcd as (Ht2 & _ & _ & Hf2 & Hs2 & Ha2). cbn in Ht2, Hf2, Hs2, Ha2.
    destruct (IH (count + 1) st_d Hb) as (st' & Hloop & Hb' & Ht' & Hf' & Hs' & Ha').
    { rewrite Ht2. exact Hrest. }
    exists st'. split; [exact Hloop |]. split; [exact Hb' |].
    rewrite Ht', Hf', Hs', Ha', Ht2, Hf2, Hs2, Ha2, Hf, Hs, Ha.
    cbn [counts_from List.map escalated]. rewrite <- !app_assoc.
    repeat split; reflexivity.
Qed.

Lemma length_counts_from (n : nat) (count : Z) :
  List.length (counts_from count n) = n.
Proof. revert count. induction n as [|n IH]; intros; cbn; [| rewrite IH]; auto. Qed.

(** [compress] on a valid input when every attempt fails. *)
Lemma compress_all_fail (input_path output_path : string) (retry_arg : option Z)
    (st : cstate) :
  let n := Z.to_nat (default (retry (fst st)) retry_arg) in
  isfile (files (snd st)) input_path = true ->
  isdir (files (snd st)) output_path = true ->
  browser (fst st) = false ->
  all_sessions_fail site input_path n 1 (timeouts (fst st)) = true ->
  exists st',
    compress site input_path output_path retry_arg st = (Ok false, st')
    /\ timeouts (fst st') = escalated n (timeouts (fst st))
    /\ files (snd st') = files (snd st)
    /\ slept (snd st') = (slept (snd st) ++ List.map wait_time (counts_from 1 n))%list
    /\ attempts (snd st') = (attempts (snd st) ++ counts_from 1 n)%list.
Proof.
  intros n Hfile Hdir Hclosed Hfail.
  destruct st as [[b name r t] w]. cbn [fst snd] in *.
  unfold compress. unfold bind at 1, gets at 1. cbn [fst snd].
  rewrite Hfile. cbn [negb]. unfold bind at 1, gets at 1. cbn [fst snd].
  rewrite Hdir. cbn [negb]. unfold bind at 1, gets at 1.
  unfold set_file_name, logger, modify, bind. cbn [fst snd retry].
  match goal with
  | |- context [retry_loop site _ 1 input_path output_path ?st0] =>
      destruct (retry_loop_all_fail input_path output_path n 1 st0)
        as (st' & Hloop & _ & Ht & Hf & Hs & Ha); [exact Hclosed | exact Hfail |]
  end.
  exists st'. split; [exact Hloop |]. cbn in Ht, Hf, Hs, Ha. auto.
Qed.

(** C3: when every one of the [retry] attempts on a file fails, the
    compression task makes exactly the attempts [1 .. retry] (sleeping
    the backoff wait after each), returns [False] for that file, and no
    exception leaves the task. *)
Theorem exhausted_retries_reported_as_failure
    (file input_path output_path : string) (config : FileCompression.config)
    (w : world) :
  let maxRetries := Z.to_nat (retry (init config)) in
  isfile (files w) (OsPath.join input_path file) = true ->
  isdir (files w) output_path = true ->
  all_sessions_fail site (OsPath.join input_path file) maxRetries 1
                    (timeouts (init config)) = true ->
  exists w',
    compress_task site file input_path output_path config w = (Ok false, w')
    /\ attempts w' = (attempts w ++ counts_from 1 maxRetries)%list
    /\ List.length (counts_from 1 maxRetries) = maxRetries
    /\ slept w' = (slept w ++ List.map wait_time (counts_from 1 maxRetries))%list.
Proof.
  intros n Hfile Hdir Hfail.
  destruct (compress_all_fail (OsPath.join input_path file) output_path None
              (init config, w))
    as ([c' w'] & Hrun & _ & _ & Hs & Ha); auto.
  exists w'. unfold compress_task, try_except. rewrite Hrun.
  repeat split; auto. apply length_counts_from.
Qed.

End CompressionRetries.

Lemma exhausted_retries_reported_as_failure_witness :
  exists w',
    ConcurrentTasks.compress_task Examples.site_down "a.mp3" "in" "out"
      Examples.default_config Examples.single = (Py.Ok false, w')
    /\ Fs.attempts w' = [1; 2; 3]
    /\ List.length (Spec.counts_from 1 3) = 3%nat
    /\ Fs.slept w' = [5; 25; 30].
Proof.
  apply (exhausted_retries_reported_as_failure Examples.site_down "a.mp3" "in" "out"
           Examples.default_config Examples.single); vm_compute; reflexivity.
Defined.

(** ** The per-item pipeline and its scratch directory *)

Section Pipeline.

Import Fs ConcurrentTasks.

Variable you_get : string -> string -> string -> Z -> M world Z.
Variable ffmpeg : string -> string -> string -> M world Z.
Variable year : N.
Variable save_v23 : Mutagen.tags -> file -> result file.
Variable mkdtemp : fs -> string.

Lemma rmtree_below (d p : string) (g : fs) :
  below d p = true -> rmtree d g !! p = None.
Proof.
  intros Hp. unfold rmtree. apply map_lookup_filter_None. right.
  intros x _. cbn. rewrite Hp. discriminate.
Qed.

(** Leaving the [with] block removes the directory, however the body
    ended. *)
Lemma with_temporary_directory_cleans {A} (body : string -> M world A)
    (w : world) (p : string) :
  below (mkdtemp (files w)) p = true ->
  files (snd (with_temporary_directory mkdtemp body w)) !! p = None.
Proof.
  intros Hp. unfold with_temporary_directory, bind, gets, modify, try_finally.
  destruct (body (mkdtemp (files w)) _) as [r w2]. cbn.
  now apply rmtree_below.
Qed.

(** C7: whatever the download, the conversion and the tagging do, and
    however they end, no path at or below the scratch directory of the
    pipeline exists once [process_video_download] is over.  ([mkdtemp]
    picks a name that is not in use.) *)
Theorem scratch_directory_never_persists (config : task_config) (w : world)
    (p : string) :
  (forall q, below (mkdtemp (files w)) q = true -> files w !! q = None) ->
  below (mkdtemp (files w)) p = true ->
  files (snd (process_video_download you_get ffmpeg year save_v23 mkdtemp config w)) !! p
  = None.
Proof.
  intros Hfresh Hp. unfold process_video_download.
  destruct (video_name config), (output_path config), (download_url config),
    (audio_format config), (track_information config);
    try (cbn; now apply Hfresh).
  now apply with_temporary_directory_cleans.
Qed.

End Pipeline.

Lemma scratch_directory_never_persists_witness :
  Fs.files (snd (ConcurrentTasks.process_video_download Examples.you_get_fails
                   Examples.ffmpeg_fails 2025 Examples.save_as_is Examples.scratch_name
                   Examples.one_video Examples.single)) !! "tmp/scratch" = None
  /\ Fs.attempts (snd (ConcurrentTasks.process_video_download Examples.you_get_fails
                   Examples.ffmpeg_fails 2025 Examples.save_as_is Examples.scratch_name
                   Examples.one_video Examples.single)) = [1; 2].
Proof.
  split.
  - apply (scratch_directory_never_persists Examples.you_get_fails Examples.ffmpeg_fails
             2025 Examples.save_as_is Examples.scratch_name Examples.one_video
             Examples.single "tmp/scratch").
    + intros q Hq. unfold Examples.scratch_name in Hq.
      unfold Examples.single, Examples.world_of. cbn [Fs.files].
      apply not_elem_of_list_to_map_1. cbn. intros Hin.
      repeat (apply elem_of_cons in Hin as [-> | Hin];
              [vm_compute in Hq; discriminate |]).
      now apply elem_of_nil in Hin.
    + vm_compute. reflexivity.
  - vm_compute. reflexivity.
Defined.

(** ** The worker pools *)

Section PoolResults.

Import Fs ConcurrentTasks.

Variable you_get : string -> string -> string -> Z -> M world Z.
Variable ffmpeg : string -> string -> string -> M world Z.
Variable year : N.
Variable save_v23 : Mutagen.tags -> file -> result file.
Variable site : string -> Z -> list (string * Z) -> FileCompression.session.
Variable mkdtemp : fs -> string.

(** Every submitted task is run and has its outcome in the result. *)
Lemma run_tasks_length {A} (tasks : list (M world A)) :
  forall w, List.length (fst (run_tasks tasks w)) = List.length tasks.
Proof.
  induction tasks as [|task rest IH]; intros w; cbn; [reflexivity |].
  destruct (task w) as [r w1]. specialize (IH w1).
  destruct (run_tasks rest w1) as [rs w2]. cbn in *. now rewrite IH.
Qed.

(** The collection loop counts exactly the futures that hold an
    exception; it never raises itself and changes only the log. *)
Lemma count_failed_run {A} (futures : list (result A)) :
  forall (failed : Z) (w : world),
  exists w',
    count_failed futures failed w = (Ok (failed + Spec.raised futures), w')
    /\ files w' = files w /\ attempts w' = attempts w /\ slept w' = slept w.
Proof.
  induction futures as [|[a|e] rest IH]; intros failed w;
    cbn [count_failed Spec.raised].
  - exists w. unfold ret. rewrite Z.add_0_r. auto.
  - apply IH.
  - unfold bind, logger, modify.
    destruct (IH (failed + 1) (emit ERROR "a concurrent task raised" w))
      as (w' & -> & Hf & Ha & Hs).
    exists w'. split; [f_equal; f_equal; lia | auto].
Qed.

(** The order in which the futures complete does not matter. *)
Lemma raised_permutation {A} (futures futures' : list (result A)) :
  Permutation futures futures' -> Spec.raised futures = Spec.raised futures'.
Proof.
  induction 1 as [| x l l' _ IH | x y l | l1 l2 l3 _ IH1 _ IH2]; cbn.
  - reflexivity.
  - destruct x; now rewrite IH.
  - destruct x, y; lia.
  - congruence.
Qed.

(** C8, as amended: on an empty list of items the acquisition pool
    submits nothing, logs one error and returns [False]. *)
Theorem empty_item_list_is_rejected (config : pool_config) (w : world) :
  url_list config = Some [] ->
  exists msg,
    concurrent_process you_get ffmpeg year save_v23 mkdtemp config w
    = (Ok false, emit ERROR msg w).
Proof.
  intros Hurls. unfold concurrent_process. rewrite Hurls.
  destruct (name_list config) as [names|], (pool_output_path config) as [out|],
    (pool_audio_format config), (pool_track_information config);
    try (eexists; reflexivity).
  unfold bind, gets. destruct (isdir (files w) out); cbn [negb];
    [| eexists; reflexivity].
  destruct names; cbn; eexists; reflexivity.
Qed.

(** No exception leaves a compression task. *)
Lemma compress_task_never_raises (file input_path output_path : string)
    (config : FileCompression.config) (w : world) :
  exists (b : bool) w',
    compress_task site file input_path output_path config w = (Ok b, w').
Proof.
  unfold compress_task, try_except.
  destruct (FileCompression.compress site _ output_path None _) as [[b|e] [c w']].
  - eauto.
  - unfold bind, logger, modify, ret. cbn. eauto.
Qed.

Lemma compress_tasks_never_raise (input_path output_path : string)
    (config : FileCompression.config) (futures : list string) :
  forall w,
    Spec.raised
      (fst (run_tasks
              (List.map (fun file => compress_task site file input_path output_path config)
                        futures) w)) = 0.
Proof.
  induction futures as [|file rest IH]; intros w; cbn; [reflexivity |].
  destruct (compress_task_never_raises file input_path output_path config w)
    as (b & w1 & ->).
  specialize (IH w1). destruct (run_tasks _ w1) as [rs w2]. cbn in *. exact IH.
Qed.

(** The counting branch of [concurrent_compression] is never taken: once
    the candidates have been examined, the pool returns [True] whatever
    the compression tasks returned. *)
Lemma concurrent_compression_result_is_constant (input_path output_path : string)
    (config : FileCompression.config) (w : world) (ins outs : list string) :
  listdir (files w) input_path = Ok ins ->
  listdir (files w) output_path = Ok outs ->
  (forall file, In file ins -> Spec.readable_identifier (files w) input_path file = true) ->
  fst (concurrent_compression site input_path output_path config w) = Ok true.
Proof.
  intros Hins Houts Hall.
  assert (isdir (files w) input_path = true) as Hin
    by (unfold isdir, listdir in *; destruct (files w !! input_path) as [[]|];
        congruence).
  assert (isdir (files w) output_path = true) as Hout
    by (unfold isdir, listdir in *; destruct (files w !! output_path) as [[]|];
        congruence).
  unfold concurrent_compression. unfold bind at 1, gets at 1. rewrite Hin. cbn [negb].
  unfold bind at 1, gets at 1. rewrite Hout. cbn [negb].
  destruct (schedule_run input_path output_path w ins outs Hins Houts)
    as (ids & w1 & _ & -> & _).
  rewrite plan_all_readable by exact Hall.
  pose proof (compress_tasks_never_raise input_path output_path config
                (List.filter (Spec.eligible (files w) input_path ids) ins) w1) as Hnone.
  destruct (run_tasks _ w1) as [results w2]. cbn [fst] in Hnone.
  unfold bind, logger, modify.
  destruct (count_failed_run results 0 (emit INFO "files examined, compression tasks submitted" w2))
    as (w3 & -> & _).
  cbn. now rewrite Hnone.
Qed.

End PoolResults.

(** C1, as amended: the compression pool is handed exactly the
    candidates whose ContentIdentifier is carried by no file present in
    the output directory when the run starts, each listed candidate
    once and in listing order, and it runs a compression task for every
    one of them, in that order, before it returns.  Candidates that
    share an identifier with an existing output are all skipped;
    candidates that share an identifier only among themselves are all
    submitted and processed. *)
Theorem pool_submits_the_new_candidates
    (site : string -> Z -> list (string * Z) -> FileCompression.session)
    (input_path output_path : string) (config : FileCompression.config)
    (w : Fs.world) (ins outs : list string) :
  Fs.listdir (Fs.files w) input_path = Ok ins ->
  Fs.listdir (Fs.files w) output_path = Ok outs ->
  (forall file, In file ins ->
                Spec.readable_identifier (Fs.files w) input_path file = true) ->
  exists existing_ids w1 results w2 w3,
    let submitted :=
      List.filter (Spec.eligible (Fs.files w) input_path existing_ids) ins in
    (forall i, i ∈ existing_ids
               <-> Spec.identifiers_in (Fs.files w) output_path outs i)
    /\ ConcurrentTasks.schedule input_path output_path w = ((Ok tt, submitted), w1)
    /\ ConcurrentTasks.run_tasks
         (List.map (fun file =>
                      ConcurrentTasks.compress_task site file input_path output_path
                        config)
                   submitted) w1 = (results, w2)
    /\ List.length results = List.length submitted
    /\ ConcurrentTasks.concurrent_compression site input_path output_path config w
       = (Ok (Spec.raised results =? 0)%Z, w3)
    /\ Fs.files w3 = Fs.files w2
    /\ Fs.slept w3 = Fs.slept w2
    /\ Fs.attempts w3 = Fs.attempts w2.
Proof.
  intros Hins Houts Hall.
  assert (Fs.isdir (Fs.files w) input_path = true) as Hin
    by (unfold Fs.isdir, Fs.listdir in *;
        destruct (Fs.files w !! input_path) as [[]|]; congruence).
  assert (Fs.isdir (Fs.files w) output_path = true) as Hout
    by (unfold Fs.isdir, Fs.listdir in *;
        destruct (Fs.files w !! output_path) as [[]|]; congruence).
  destruct (schedule_run input_path output_path w ins outs Hins Houts)
    as (ids & w1 & Hex & Hschedule & _).
  rewrite plan_all_readable in Hschedule by exact Hall.
  set (submitted := List.filter (Spec.eligible (Fs.files w) input_path ids) ins) in *.
  destruct (ConcurrentTasks.run_tasks
              (List.map (fun file =>
                           ConcurrentTasks.compress_task site file input_path
                             output_path config) submitted) w1)
    as [results w2] eqn:Hrun.
  destruct (count_failed_run results 0
              (emit INFO "files examined, compression tasks submitted" w2))
    as (w3 & Hcount & Hf & Ha & Hs).
  exists ids, w1, results, w2, w3. cbn zeta. fold submitted.
  split; [exact Hex |]. split; [exact Hschedule |]. split; [exact Hrun |].
  split.
  { pose proof (run_tasks_length
                  (List.map (fun file =>
                               ConcurrentTasks.compress_task site file input_path
                                 output_path config) submitted) w1) as Hlen.
    rewrite Hrun in Hlen. cbn [fst] in Hlen. now rewrite Hlen, length_map. }
  split; [| auto].
  unfold ConcurrentTasks.concurrent_compression.
  unfold bind at 1, gets at 1. rewrite Hin. cbn [negb].
  unfold bind at 1, gets at 1. rewrite Hout. cbn [negb].
  rewrite Hschedule, Hrun.
  unfold bind, logger, modify. rewrite Hcount. reflexivity.
Qed.

Lemma pool_submits_the_new_candidates_witness :
  exists existing_ids w1 results w2 w3,
    let submitted :=
      List.filter (Spec.eligible (Fs.files Examples.library) "in" existing_ids)
                  ["a.mp3"; "b.mp3"; "c.mp3"] in
    (forall i, i ∈ existing_ids
               <-> Spec.identifiers_in (Fs.files Examples.library) "out" ["c.mp3"] i)
    /\ ConcurrentTasks.schedule "in" "out" Examples.library = ((Ok tt, submitted), w1)
    /\ ConcurrentTasks.run_tasks
         (List.map (fun file =>
                      ConcurrentTasks.compress_task Examples.site_down file "in" "out"
                        Examples.default_config)
                   submitted) w1 = (results, w2)
    /\ List.length results = List.length submitted
    /\ ConcurrentTasks.concurrent_compression Examples.site_down "in" "out"
         Examples.default_config Examples.library
       = (Ok (Spec.raised results =? 0)%Z, w3)
    /\ Fs.files w3 = Fs.files w2
    /\ Fs.slept w3 = Fs.slept w2
    /\ Fs.attempts w3 = Fs.attempts w2.
Proof.
  apply (pool_submits_the_new_candidates Examples.site_down "in" "out"
           Examples.default_config Examples.library
           ["a.mp3"; "b.mp3"; "c.mp3"] ["c.mp3"]).
  - vm_compute. reflexivity.
  - vm_compute. reflexivity.
  - intros file [<- | [<- | [<- | []]]]; vm_compute; reflexivity.
Defined.

(** C5 on the code: a compression task whose every session fails returns
    [False], and the pool that ran it still returns [True]; the same
    happens to a download that exhausts its retries. *)
Theorem failed_task_is_not_counted :
  fst (ConcurrentTasks.compress_task Examples.site_down "a.mp3" "in" "out"
         Examples.default_config Examples.single) = Ok false
  /\ fst (ConcurrentTasks.concurrent_compression Examples.site_down "in" "out"
            Examples.default_config Examples.single) = Ok true
  /\ fst (ConcurrentTasks.concurrent_process Examples.you_get_fails Examples.ffmpeg_fails
            2025 Examples.save_as_is Examples.scratch_name Examples.some_videos
            Examples.single) = Ok true.
Proof. vm_compute. auto. Qed.

Lemma empty_item_list_is_rejected_witness :
  exists msg,
    ConcurrentTasks.concurrent_process Examples.you_get_fails Examples.ffmpeg_fails 2025
      Examples.save_as_is Examples.scratch_name Examples.no_videos Examples.single
    = (Ok false, emit ERROR msg Examples.single).
Proof.
  apply (empty_item_list_is_rejected Examples.you_get_fails Examples.ffmpeg_fails 2025
           Examples.save_as_is Examples.scratch_name Examples.no_videos Examples.single).
  reflexivity.
Defined.

(** C8 as stated fails: the acquisition pool run on the empty item list
    does not report success. *)
Lemma empty_item_list_reports_failure :
  fst (ConcurrentTasks.concurrent_process Examples.you_get_fails Examples.ffmpeg_fails
         2025 Examples.save_as_is Examples.scratch_name Examples.no_videos
         Examples.single)
  = Ok false.
Proof. vm_compute. reflexivity. Qed.

(** ** Tagging *)

Section Tagging.

Import Fs Mutagen AudioTrackProcessing Spec.

Variable year : N.
Variable save_v23 : Mutagen.tags -> file -> result file.

(** *** The tag table *)

Lemma keep_keep (p q : string -> bool) (t : tags) :
  (forall k, p k = true -> q k = true) -> keep p (keep q t) = keep p t.
Proof.
  intros Hpq. unfold keep.
  induction t as [|[k f] t IH]; cbn; [reflexivity |].
  destruct (q k) eqn:Hq; cbn.
  - now rewrite IH.
  - destruct (p k) eqn:Hp; [| exact IH].
    apply Hpq in Hp. congruence.
Qed.

Lemma keep_setitem_other (p : string -> bool) (key : string) (f : frame) (t : tags) :
  p key = false -> keep p (setitem key f t) = keep p t.
Proof.
  intros Hkey. unfold keep.
  induction t as [|[k g] t IH]; cbn.
  - now rewrite Hkey.
  - destruct (String.eqb k key) eqn:Hk; cbn.
    + apply String.eqb_eq in Hk. subst k. now rewrite Hkey.
    + now rewrite IH.
Qed.

Lemma keep_setitem_new (p : string -> bool) (key : string) (f : frame) (t : tags) :
  p key = true -> keep p t = [] -> keep p (setitem key f t) = [(key, f)].
Proof.
  intros Hkey. unfold keep.
  induction t as [|[k g] t IH]; cbn.
  - now rewrite Hkey.
  - destruct (p k) eqn:Hp; [discriminate |]. intros Hnone.
    destruct (String.eqb k key) eqn:Hk; cbn.
    + apply String.eqb_eq in Hk. congruence.
    + rewrite Hp. now apply IH.
Qed.

Lemma keep_delall (p : string -> bool) (key : string) (t : tags) :
  (forall k, p k = true ->
             String.eqb k key = false /\ OsPath.startswith (key +:+ ":") k = false) ->
  keep p (delall key t) = keep p t.
Proof.
  intros Hp. unfold delall.
  destruct (has_key key t); apply keep_keep; intros k Hk;
    destruct (Hp k Hk) as [H1 H2]; now rewrite ?H1, ?H2.
Qed.

(** A provenance key starts with the four characters of ["TIT3"]. *)
Lemma provenance_key_shape (k : string) :
  provenance_key k = true ->
  exists rest, k = String "T" (String "I" (String "T" (String "3" rest))).
Proof.
  unfold provenance_key. intros H. apply orb_true_iff in H as [H | H].
  - apply String.eqb_eq in H. subst k. now exists "".
  - unfold OsPath.startswith in H. apply String.prefix_correct in H.
    destruct k as [|c1 [|c2 [|c3 [|c4 rest]]]]; cbn in H; try discriminate.
    injection H as -> -> -> -> _. now exists rest.
Qed.

(** None of the tags the program clears or sets is a provenance key. *)
Lemma provenance_key_not_cleared (tag k : string) :
  In tag old_tags -> provenance_key k = true ->
  String.eqb k tag = false /\ OsPath.startswith (tag +:+ ":") k = false.
Proof.
  intros Htag Hk. apply provenance_key_shape in Hk as (rest & ->).
  cbn in Htag. intuition (subst; split; reflexivity).
Qed.

Lemma getall_provenance_nil (t : tags) :
  getall "TIT3" t = [] <-> keep provenance_key t = [].
Proof.
  unfold getall, keep, provenance_key, OsPath.startswith.
  change ("TIT3" +:+ ":") with "TIT3:".
  induction t as [|[k f] t IH]; cbn; [tauto |].
  destruct (String.eqb k "TIT3") eqn:Hk; cbn; [split; intros H; discriminate H |].
  destruct (String.prefix "TIT3:" k) eqn:Hpre; cbn.
  - destruct (lookup "TIT3" t); split; intros H; discriminate H.
  - exact IH.
Qed.

(** The changes to the tag table neither delete nor replace a
    provenance frame.  The TIT3 entries of the table after the changes
    are those of the loaded table, in the same order, when it had any;
    when it had none, the only one is a new TIT3 frame whose text is
    [file_name] without its extension. *)
Lemma retag_provenance (file_name : string)
    (track_information : list (string * string)) (covers_type : option string)
    (cover_data : string) (audio_file : tags) :
  keep provenance_key
       (retag year file_name track_information covers_type cover_data audio_file)
  = match getall "TIT3" audio_file with
    | [] => [("TIT3", Text "TIT3" [OsPath.splitext_root file_name])]
    | _ :: _ => keep provenance_key audio_file
    end.
Proof.
  unfold retag.
  set (t0 := List.fold_left (fun t tag => delall tag t) old_tags audio_file).
  assert (keep provenance_key t0 = keep provenance_key audio_file) as Hcleared.
  { subst t0. cbn [List.fold_left old_tags].
    rewrite !keep_delall; [reflexivity | ..];
      intros k Hk; apply provenance_key_not_cleared; cbn; auto 10. }
  unfold add. rewrite !keep_setitem_other by reflexivity.
  destruct (getall "TIT3" t0) as [|f0 l0] eqn:Hnow;
    destruct (getall "TIT3" audio_file) as [|f1 l1] eqn:Hloaded.
  - apply getall_provenance_nil in Hnow.
    cbn [HashKey]. now apply keep_setitem_new.
  - apply getall_provenance_nil in Hnow. rewrite Hcleared in Hnow.
    apply getall_provenance_nil in Hnow. congruence.
  - apply getall_provenance_nil in Hloaded. rewrite <- Hcleared in Hloaded.
    apply getall_provenance_nil in Hloaded. congruence.
  - exact Hcleared.
Qed.

(** With a loadable file and a usable cover, what is handed to the
    serialiser is the re-tagged table, and its output replaces the
    file. *)
Lemma tagging_saves_the_retagged_table (input_file : string)
    (track_information : list (string * string)) (w : world)
    (f f' cover : file) (t : tags) :
  ID3 (files w) input_file = Ok t ->
  files w !! input_file = Some (Reg f) ->
  open_rb (files w) (info_get "Cover" "" track_information) = Ok cover ->
  image cover = true ->
  save_v23 (retag year (OsPath.basename input_file) track_information
                  (mime cover) (raw cover) t) f = Ok f' ->
  exists w',
    audio_track_processing year save_v23 input_file track_information w = (Ok tt, w')
    /\ files w' = <[input_file := Reg f']> (files w).
Proof.
  intros Hload Hfile Hcover Himage Hsave.
  unfold audio_track_processing, read_cover, save, try_except, bind, reads, ret,
    logger, modify.
  rewrite Hload. cbn. rewrite Hcover. cbn. rewrite Himage. cbn.
  rewrite Hcover. cbn. rewrite Hfile, Hsave. cbn. eauto.
Qed.

(** C10, as amended: for a file that loads and is tagged with a usable
    cover, the table handed to the serialiser keeps the TIT3 entries the
    file carried, unchanged and in order, and holds one new TIT3 frame,
    whose text is the base name of the file without its extension, only
    when the file carried none.  When the save succeeds, the file
    written holds these entries as ID3v2.3 stores them: the values of
    each joined by a slash into one value, an entry with empty text left
    out.  When the save fails, the file is left as it was. *)
Theorem provenance_frame_preserved (input_file : string)
    (track_information : list (string * string)) (w : world)
    (f cover : file) (t : tags) :
  Contracts.writes_v23 save_v23 ->
  ID3 (files w) input_file = Ok t ->
  files w !! input_file = Some (Reg f) ->
  open_rb (files w) (info_get "Cover" "" track_information) = Ok cover ->
  image cover = true ->
  let table :=
    retag year (OsPath.basename input_file) track_information
          (mime cover) (raw cover) t in
  let kept :=
    match getall "TIT3" t with
    | [] => [("TIT3", Text "TIT3" [OsPath.splitext_root (OsPath.basename input_file)])]
    | _ :: _ => keep provenance_key t
    end in
  keep provenance_key table = kept
  /\ exists w',
       audio_track_processing year save_v23 input_file track_information w = (Ok tt, w')
       /\ match save_v23 table f with
          | Ok f' =>
              files w' = <[input_file := Reg f']> (files w)
              /\ exists t', ID3 (files w') input_file = Ok t'
                            /\ keep provenance_key t' = Id3v23.written_entries kept
          | Raise _ => files w' = files w
          end.
Proof.
  intros Hcontract Hload Hfile Hcover Himage table kept.
  assert (readable f = true) as Hreadable.
  { unfold ID3 in Hload. rewrite Hfile in Hload.
    destruct (readable f); [reflexivity | discriminate Hload]. }
  pose proof (retag_provenance (OsPath.basename input_file) track_information
                (mime cover) (raw cover) t) as Hkept.
  fold table kept in Hkept. split; [exact Hkept |].
  destruct (save_v23 table f) as [f'|e] eqn:Hsave.
  - destruct (Hcontract _ f f' Hreadable Hsave) as (Hread & t' & Hid3 & Hdisk).
    destruct (tagging_saves_the_retagged_table input_file track_information w f f'
                cover t Hload Hfile Hcover Himage Hsave) as (w' & Hrun & Hfiles).
    exists w'. split; [exact Hrun |]. split; [exact Hfiles |].
    exists t'. split.
    + unfold ID3. now rewrite Hfiles, lookup_insert_eq, Hread, Hid3.
    + now rewrite Hdisk, Hkept.
  - unfold audio_track_processing, read_cover, save, try_except, bind, reads, ret,
      logger, modify.
    rewrite Hload. cbn. rewrite Hcover. cbn. rewrite Himage. cbn.
    rewrite Hcover. cbn. rewrite Hfile. fold table. rewrite Hsave. cbn. eauto.
Qed.

(** C9: when the cover input cannot be read or is not an image, tagging
    is given up for that file: [audio_track_processing] returns normally,
    no file is written, and one error is logged. *)
Theorem unusable_cover_aborts_tagging (input_file : string)
    (track_information : list (string * string)) (w : world) :
  cover_usable (files w) (info_get "Cover" "" track_information) = false ->
  exists w' msg,
    audio_track_processing year save_v23 input_file track_information w = (Ok tt, w')
    /\ files w' = files w
    /\ log w' = (log w ++ [(ERROR, msg)])%list.
Proof.
  unfold cover_usable. intros Hcover.
  unfold audio_track_processing, try_except, bind, reads, ret.
  destruct (ID3 (files w) input_file) as [t|e]; cbn.
  - unfold read_cover, try_except, bind, reads, ret. cbn.
    destruct (open_rb (files w) (info_get "Cover" "" track_information)) as [f|e]; cbn.
    + rewrite Hcover. cbn. eauto.
    + destruct e; cbn; eauto.
  - eauto.
Qed.

End Tagging.

(** The serialiser of [Id3v23] meets the contract. *)
Lemma save_writes_v23 : Contracts.writes_v23 Id3v23.save.
Proof.
  intros t f f' Hreadable [= <-]. cbn. split; [exact Hreadable |].
  eexists. split; [reflexivity |].
  unfold Mutagen.keep, Id3v23.written_entries.
  induction t as [|[k g] t IH]; cbn; [reflexivity |].
  destruct (Spec.provenance_key k) eqn:Hk; cbn;
    destruct (Id3v23.written g); cbn; rewrite ?Hk; now rewrite IH.
Qed.

Lemma provenance_frame_preserved_witness :
  let table :=
    AudioTrackProcessing.retag 2025 "a.mp3" [("Cover", "in/cover.png")]
      (Some "image/png") "PNG" [] in
  let kept := [("TIT3", Mutagen.Text "TIT3" ["a"])] in
  Mutagen.keep Spec.provenance_key table = kept
  /\ exists w',
       AudioTrackProcessing.audio_track_processing 2025 Id3v23.save "in/a.mp3"
         [("Cover", "in/cover.png")] Scenarios.with_cover = (Ok tt, w')
       /\ (Fs.files w'
           = <["in/a.mp3" :=
                Fs.Reg (Fs.mkFile 100 true "" (Some "audio/mpeg") false
                          (Fs.Frames (Id3v23.written_entries table)))]>
             (Fs.files Scenarios.with_cover)
           /\ exists t', Fs.ID3 (Fs.files w') "in/a.mp3" = Ok t'
                         /\ Mutagen.keep Spec.provenance_key t'
                            = Id3v23.written_entries kept).
Proof.
  apply (provenance_frame_preserved 2025 Id3v23.save "in/a.mp3"
           [("Cover", "in/cover.png")] Scenarios.with_cover
           (Fs.mkFile 100 true "" (Some "audio/mpeg") false (Fs.Frames []))
           (Fs.mkFile 10 true "PNG" (Some "image/png") true Fs.NoHeader) []).
  - exact save_writes_v23.
  - vm_compute. reflexivity.
  - vm_compute. reflexivity.
  - vm_compute. reflexivity.
  - reflexivity.
Defined.

(** C10 as stated fails on the file written.  A TIT3 frame of two
    values is replaced by one of a single value, which changes the
    identifier read from the file; and the frame given to a file that
    had none carries the base name without its extension, not the base
    name. *)
Lemma provenance_frame_rewritten :
  let tagged w :=
    snd (AudioTrackProcessing.audio_track_processing 2025 Id3v23.save "in/a.mp3"
           [("Cover", "in/cover.png")] w) in
  Fs.ID3 (Fs.files Scenarios.two_titles) "in/a.mp3"
  = Ok [("TIT3", Mutagen.Text "TIT3" ["x"; "y"])]
  /\ (exists t',
        Fs.ID3 (Fs.files (tagged Scenarios.two_titles)) "in/a.mp3" = Ok t'
        /\ Mutagen.lookup "TIT3" t' = Some (Mutagen.Text "TIT3" ["x/y"]))
  /\ Spec.ContentIdentifier (Fs.files Scenarios.two_titles) "in/a.mp3"
     <> Spec.ContentIdentifier (Fs.files (tagged Scenarios.two_titles)) "in/a.mp3"
  /\ (exists t',
        Fs.ID3 (Fs.files (tagged Scenarios.with_cover)) "in/a.mp3" = Ok t'
        /\ Mutagen.lookup "TIT3" t' = Some (Mutagen.Text "TIT3" ["a"]))
  /\ OsPath.basename "in/a.mp3" = "a.mp3".
Proof.
  cbv zeta. split; [vm_compute; reflexivity |].
  split; [eexists; split; vm_compute; reflexivity |].
  split; [vm_compute; discriminate |].
  split; [eexists; split; vm_compute; reflexivity |].
  vm_compute. reflexivity.
Qed.

Lemma unusable_cover_aborts_tagging_witness :
  exists w' msg,
    AudioTrackProcessing.audio_track_processing 2025 Examples.save_as_is "in/c.mp3"
      [("Cover", "in/a.mp3")] Examples.library = (Ok tt, w')
    /\ Fs.files w' = Fs.files Examples.library
    /\ Fs.log w' = (Fs.log Examples.library ++ [(ERROR, msg)])%list.
Proof.
  apply (unusable_cover_aborts_tagging 2025 Examples.save_as_is "in/c.mp3"
           [("Cover", "in/a.mp3")] Examples.library).
  vm_compute. reflexivity.
Defined.

(* ===================================================================== *)
(** * Further properties of the pipeline                                 *)
(* ===================================================================== *)

(** ** The download retry loop *)

Section DownloadRetries.

Import Fs NetworkOperations Contracts Spec.

Variable you_get : string -> string -> string -> Z -> M world Z.

Lemma download_loop_never_raises (download_url video_name output_path : string)
    (n : nat) :
  forall (count timeout : Z) (w : world),
    fst (download_loop you_get n count timeout download_url video_name output_path w)
    = Ok tt.
Proof.
  induction n as [|n IH]; intros count timeout w; [reflexivity |].
  cbn [download_loop].
  unfold bind, try_except, enter_attempt, logger, sleep, modify, ret. cbn.
  destruct (you_get download_url video_name output_path timeout _) as [[rc|e] w1]; cbn.
  - destruct (rc =? 0)%Z; cbn; [reflexivity | apply IH].
  - destruct e; cbn; apply IH.
Qed.

(** X1: whatever [you-get] does (return any code, time out, fail to
    start, change any file), [download_video] returns normally. *)
Theorem download_video_never_raises (video_name output_path download_url : string)
    (retry timeout : Z) (w : world) :
  fst (download_video you_get video_name output_path download_url retry timeout w)
  = Ok tt.
Proof.
  unfold download_video. unfold bind at 1, gets at 1.
  destruct (isdir (files w) output_path); cbn [negb]; [| reflexivity].
  unfold bind at 1.
  destruct (andb (30 <=? timeout)%Z (timeout <=? 120)%Z); cbn;
    apply download_loop_never_raises.
Qed.

Hypothesis you_get_files_only :
  forall download_url video_name output_path timeout,
    files_only (you_get download_url video_name output_path timeout).

(** The loop makes the attempts [count, count + 1, ...] up to some [k]
    of the [n] allowed, and sleeps after each attempt but a successful
    last one. *)
Lemma download_loop_shape (download_url video_name output_path : string) (n : nat) :
  forall (count timeout : Z) (w : world),
  exists (k : nat) w',
    download_loop you_get n count timeout download_url video_name output_path w
    = (Ok tt, w')
    /\ (k <= n)%nat
    /\ attempts w' = (attempts w ++ counts_from count k)%list
    /\ (slept w' = (slept w ++ List.map waiting_time (counts_from count k))%list
        \/ ((0 < k)%nat
            /\ slept w'
               = (slept w ++ List.map waiting_time (counts_from count (k - 1)))%list)).
Proof.
  induction n as [|n IH]; intros count timeout w.
  - exists 0%nat. eexists. split; [reflexivity |]. cbn. rewrite !app_nil_r. auto.
  - cbn [download_loop].
    unfold bind, try_except, enter_attempt, logger, sleep, modify, ret. cbn.
    match goal with
    | |- context [you_get download_url video_name output_path timeout ?w0] =>
        destruct (you_get_files_only download_url video_name output_path timeout w0)
          as (_ & Hs & Ha);
        destruct (you_get download_url video_name output_path timeout w0)
          as [r w1] eqn:Hrun
    end.
    cbn in Hs, Ha.
    assert (forall w2, attempts w2 = attempts w1 ->
                       slept w2 = (slept w1 ++ [waiting_time count])%list ->
              exists (k : nat) w',
                download_loop you_get n (count + 1) (next_timeout timeout count)
                  download_url video_name output_path w2 = (Ok tt, w')
                /\ (k <= S n)%nat
                /\ attempts w' = (attempts w ++ counts_from count k)%list
                /\ (slept w' = (slept w ++ List.map waiting_time (counts_from count k))%list
                    \/ ((0 < k)%nat
                        /\ slept w' = (slept w ++ List.map waiting_time
                                                    (counts_from count (k - 1)))%list)))
      as Hretry.
    { intros w2 Ha2 Hs2.
      destruct (IH (count + 1) (next_timeout timeout count) w2)
        as (k & w' & -> & Hk & Hatt & Hsl).
      exists (S k), w'. split; [reflexivity |]. split; [lia |].
      rewrite Hatt, Ha2, Ha. cbn [counts_from]. rewrite <- app_assoc. split; [reflexivity |].
      destruct Hsl as [Hsl | [Hpos Hsl]]; rewrite Hsl, Hs2, Hs, <- app_assoc.
      - left. reflexivity.
      - right. split; [lia |].
        destruct k as [|j]; [lia |]. cbn. now rewrite Nat.sub_0_r. }
    destruct r as [rc|e]; cbn.
    + destruct (rc =? 0)%Z; cbn.
      * exists 1%nat. eexists. split; [reflexivity |]. cbn.
        rewrite Ha, Hs, app_nil_r. repeat split; auto. lia.
      * apply Hretry; reflexivity.
    + destruct e; cbn; apply Hretry; reflexivity.
Qed.

(** X2: if [you-get] acts on the files only, [download_video] makes the
    attempts [1 .. k] for some [k] not above [retry], and the waits it
    takes are the backoff waits of the attempts that failed: all [k] of
    them, or all but the last when the last attempt succeeded. *)
Theorem download_video_attempts_bounded (video_name output_path download_url : string)
    (retry timeout : Z) (w : world) :
  exists (k : nat) w',
    download_video you_get video_name output_path download_url retry timeout w
    = (Ok tt, w')
    /\ (k <= Z.to_nat retry)%nat
    /\ attempts w' = (attempts w ++ counts_from 1 k)%list
    /\ (slept w' = (slept w ++ List.map waiting_time (counts_from 1 k))%list
        \/ ((0 < k)%nat
            /\ slept w' = (slept w ++ List.map waiting_time (counts_from 1 (k - 1)))%list)).
Proof.
  unfold download_video. unfold bind at 1, gets at 1.
  destruct (isdir (files w) output_path); cbn [negb].
  - unfold bind at 1.
    destruct (andb (30 <=? timeout)%Z (timeout <=? 120)%Z);
      unfold bind, logger, modify, ret; cbn beta iota.
    + apply download_loop_shape.
    + match goal with
      | |- context [download_loop you_get ?n ?c ?t ?u ?v ?o ?w0] =>
          destruct (download_loop_shape u v o n c t w0) as (k & w' & Heq & Hk & Ha & Hs)
      end.
      exists k, w'. cbn in Heq, Ha, Hs. auto.
  - exists 0%nat. eexists. split; [reflexivity |]. cbn. rewrite !app_nil_r.
    split; [lia | auto].
Qed.

Hypothesis you_get_unsuccessful :
  forall download_url video_name output_path timeout,
    unsuccessful (you_get download_url video_name output_path timeout).

Lemma download_loop_all_fail (download_url video_name output_path : string) (n : nat) :
  forall (count timeout : Z) (w : world),
  exists w',
    download_loop you_get n count timeout download_url video_name output_path w
    = (Ok tt, w')
    /\ attempts w' = (attempts w ++ counts_from count n)%list
    /\ slept w' = (slept w ++ List.map waiting_time (counts_from count n))%list.
Proof.
  induction n as [|n IH]; intros count timeout w.
  - eexists. split; [reflexivity |]. cbn. now rewrite !app_nil_r.
  - cbn [download_loop].
    unfold bind, try_except, enter_attempt, logger, sleep, modify, ret. cbn.
    match goal with
    | |- context [you_get download_url video_name output_path timeout ?w0] =>
        destruct (you_get_files_only download_url video_name output_path timeout w0)
          as (_ & Hs & Ha);
        pose proof (you_get_unsuccessful download_url video_name output_path timeout w0)
          as Hfail;
        destruct (you_get download_url video_name output_path timeout w0)
          as [r w1] eqn:Hrun
    end.
    cbn in Hs, Ha, Hfail.
    assert (forall w2, attempts w2 = attempts w1 ->
                       slept w2 = (slept w1 ++ [waiting_time count])%list ->
              exists w',
                download_loop you_get n (count + 1) (next_timeout timeout count)
                  download_url video_name output_path w2 = (Ok tt, w')
                /\ attempts w' = (attempts w ++ counts_from count (S n))%list
                /\ slept w' = (slept w ++ List.map waiting_time
                                            (counts_from count (S n)))%list)
      as Hretry.
    { intros w2 Ha2 Hs2.
      destruct (IH (count + 1) (next_timeout timeout count) w2) as (w' & -> & Hatt & Hsl).
      exists w'. split; [reflexivity |].
      rewrite Hatt, Hsl, Ha2, Hs2, Ha, Hs. cbn [counts_from List.map].
      now rewrite <- !app_assoc. }
    destruct r as [rc|e]; cbn.
    + destruct (rc =? 0)%Z eqn:Hrc; cbn.
      * apply Z.eqb_eq in Hrc. subst rc. now destruct Hfail.
      * apply Hretry; reflexivity.
    + destruct e; cbn; apply Hretry; reflexivity.
Qed.

(** X3: a download that never succeeds is tried exactly [retry] times,
    with the backoff wait after each attempt, and then given up without
    an exception. *)
Theorem failing_download_exhausts_retries (video_name output_path download_url : string)
    (retry timeout : Z) (w : world) :
  isdir (files w) output_path = true ->
  exists w',
    download_video you_get video_name output_path download_url retry timeout w
    = (Ok tt, w')
    /\ attempts w' = (attempts w ++ counts_from 1 (Z.to_nat retry))%list
    /\ slept w'
       = (slept w ++ List.map waiting_time (counts_from 1 (Z.to_nat retry)))%list.
Proof.
  intros Hdir. unfold download_video. unfold bind at 1, gets at 1.
  rewrite Hdir. cbn [negb]. unfold bind at 1.
  destruct (andb (30 <=? timeout)%Z (timeout <=? 120)%Z);
    unfold bind, logger, modify, ret; cbn beta iota.
  - apply download_loop_all_fail.
  - match goal with
    | |- context [download_loop you_get ?n ?c ?t ?u ?v ?o ?w0] =>
        destruct (download_loop_all_fail u v o n c t w0) as (w' & Heq & Ha & Hs)
    end.
    exists w'. cbn in Heq, Ha, Hs. auto.
Qed.

End DownloadRetries.

Lemma download_video_attempts_bounded_witness :
  exists (k : nat) w',
    NetworkOperations.download_video Examples.you_get_fails "title" "in" "BV1xx411c7mD"
      2 60 Examples.single = (Ok tt, w')
    /\ (k <= Z.to_nat 2)%nat
    /\ Fs.attempts w' = (Fs.attempts Examples.single ++ Spec.counts_from 1 k)%list
    /\ (Fs.slept w'
        = (Fs.slept Examples.single
           ++ List.map NetworkOperations.waiting_time (Spec.counts_from 1 k))%list
        \/ ((0 < k)%nat
            /\ Fs.slept w'
               = (Fs.slept Examples.single
                  ++ List.map NetworkOperations.waiting_time
                              (Spec.counts_from 1 (k - 1)))%list)).
Proof.
  apply (download_video_attempts_bounded Examples.you_get_fails).
  intros url name out timeout w. cbn. auto.
Defined.

Lemma failing_download_exhausts_retries_witness :
  exists w',
    NetworkOperations.download_video Examples.you_get_fails "title" "in" "BV1xx411c7mD"
      2 60 Examples.single = (Ok tt, w')
    /\ Fs.attempts w' = [1; 2]
    /\ Fs.slept w' = [2; 4].
Proof.
  apply (failing_download_exhausts_retries Examples.you_get_fails).
  - intros url name out timeout w. cbn. auto.
  - intros url name out timeout w. cbn. discriminate.
  - vm_compute. reflexivity.
Defined.

(** ** What a compression run can do *)

Section CompressOutcome.

Import Fs FileCompression ConcurrentTasks Spec.

Variable site : string -> Z -> list (string * Z) -> session.

(** The retry loop, whatever the site answers: it returns a boolean with
    the browser closed, after the attempts [count, count + 1, ...] up to
    some [k] of the [n] allowed.  [True] comes with the file in the
    output directory and a wait after every attempt but the last;
    [False] comes after all [n] attempts, a wait after each, and no file
    changed. *)
Lemma retry_loop_outcome (input_path output_path name : string) (n : nat) :
  forall (count : Z) (st : cstate),
    browser (fst st) = false ->
    file_name (fst st) = Some name ->
    exists (b : bool) (k : nat) st',
      retry_loop site n count input_path output_path st = (Ok b, st')
      /\ browser (fst st') = false
      /\ (k <= n)%nat
      /\ attempts (snd st') = (attempts (snd st) ++ counts_from count k)%list
      /\ if b then
           (0 < k)%nat
           /\ slept (snd st')
              = (slept (snd st) ++ List.map wait_time (counts_from count (k - 1)))%list
           /\ isfile (files (snd st')) (OsPath.join output_path name) = true
         else
           k = n
           /\ slept (snd st')
              = (slept (snd st) ++ List.map wait_time (counts_from count n))%list
           /\ files (snd st') = files (snd st)
           /\ timeouts (fst st') = escalated n (timeouts (fst st)).
Proof.
  induction n as [|n IH]; intros count st Hclosed Hname.
  - exists false, 0%nat. cbn. unfold bind, logger, modify, ret. eexists.
    split; [reflexivity |]. destruct st as [c w]. cbn in *. rewrite !app_nil_r. auto 10.
  - cbn [retry_loop]. unfold bind at 1, gets at 1.
    set (s := site input_path count (timeouts (fst st))).
    unfold bind at 1, try_finally, try_except, bind at 1, in_world at 1.
    cbn [enter_attempt modify snd fst].
    set (st_a := (fst st, _)).
    destruct (session_succeeds false s) eqn:Hsession.
    + destruct (run_session_succeeds s input_path output_path name st_a)
        as (st_b & -> & Hfile & Ha & Hs);
        [subst st_a; cbn; now rewrite Hclosed | subst st_a; exact Hname |].
      destruct (tear_down_run s st_b) as (st_c & -> & Hb & Hbc).
      destruct Hbc as (_ & _ & _ & Hf2 & Hs2 & Ha2).
      exists true, 1%nat, st_c. unfold ret. cbn [counts_from List.map Nat.sub].
      subst st_a. cbn in Ha, Hs.
      rewrite Ha2, Hs2, Hf2, Ha, Hs, app_nil_r. repeat split; auto; lia.
    + destruct (run_session_fails s input_path output_path st_a)
        as (e & st_b & -> & Hab); [subst st_a; cbn; now rewrite Hclosed |].
      destruct Hab as (Ht & Hr & Hn & Hf & Hs & Ha). subst st_a.
      cbn in Ht, Hr, Hn, Hf, Hs, Ha.
      destruct st_b as [[b1 name1 r1 t1] w1]. cbn in Ht, Hr, Hn, Hf, Hs, Ha. subst.
      unfold back_off, set_timeouts, in_world, sleep, bind, logger, modify, ret.
      cbn.
      match goal with
      | |- context [tear_down s ?st_c] =>
          destruct (tear_down_run s st_c) as (st_d & -> & Hb & Hcd)
      end.
      destruct Hcd as (Ht2 & _ & Hn2 & Hf2 & Hs2 & Ha2). cbn in Ht2, Hn2, Hf2, Hs2, Ha2.
      destruct (IH (count + 1) st_d Hb) as (b & k & st' & Hloop & Hb' & Hk & Ha' & Hrest).
      { now rewrite Hn2. }
      exists b, (S k), st'. split; [exact Hloop |]. split; [exact Hb' |].
      split; [lia |]. rewrite Ha', Ha2, Ha. cbn [counts_from]. rewrite <- app_assoc.
      split; [reflexivity |].
      destruct b.
      * destruct Hrest as (Hpos & Hs' & Hout). split; [lia |].
        rewrite Hs', Hs2, Hs, <- app_assoc. split; [| exact Hout].
        destruct k as [|j]; [lia |]. cbn. now rewrite Nat.sub_0_r.
      * destruct Hrest as (-> & Hs' & Hf' & Ht'). split; [reflexivity |].
        rewrite Hs', Hs2, Hs, Hf', Hf2, Hf, Ht', Ht2, <- app_assoc.
        cbn [counts_from List.map escalated]. auto.
Qed.

(** X4: whatever the compression site answers, [compress] on a
    compressor whose browser is closed returns a boolean and raises
    nothing, and leaves the browser closed; it makes the attempts
    [1 .. k] for some [k] not above the retry bound; [True] comes with a
    file of the input's name in the output directory; [False] leaves
    every file as it was. *)
Theorem compress_outcome (c : AudioCompressor) (input_path output_path : string)
    (retry_arg : option Z) (w : world) :
  browser c = false ->
  exists (b : bool) (k : nat) c' w',
    compress site input_path output_path retry_arg (c, w) = (Ok b, (c', w'))
    /\ browser c' = false
    /\ (k <= Z.to_nat (default (retry c) retry_arg))%nat
    /\ attempts w' = (attempts w ++ counts_from 1 k)%list
    /\ if b then
         (0 < k)%nat
         /\ slept w' = (slept w ++ List.map wait_time (counts_from 1 (k - 1)))%list
         /\ isfile (files w')
                   (OsPath.join output_path (OsPath.basename input_path)) = true
       else
         files w' = files w
         /\ slept w' = (slept w ++ List.map wait_time (counts_from 1 k))%list.
Proof.
  intros Hclosed. unfold compress.
  unfold bind at 1, gets at 1. cbn [fst snd].
  destruct (isfile (files w) input_path); cbn [negb].
  2:{ exists false, 0%nat. unfold bind, logger, modify, ret. cbn. eexists _, _.
      split; [reflexivity |]. rewrite !app_nil_r. split; [exact Hclosed |].
      split; [lia | auto]. }
  unfold bind at 1, gets at 1. cbn [fst snd].
  destruct (isdir (files w) output_path); cbn [negb].
  2:{ exists false, 0%nat. unfold bind, logger, modify, ret. cbn. eexists _, _.
      split; [reflexivity |]. rewrite !app_nil_r. split; [exact Hclosed |].
      split; [lia | auto]. }
  unfold bind at 1, gets at 1.
  unfold set_file_name, logger, modify, bind. cbn [fst snd].
  match goal with
  | |- context [retry_loop site ?n 1 ?i ?o ?st0] =>
      destruct (retry_loop_outcome i o (OsPath.basename i) n 1 st0)
        as (b & k & [c' w'] & Hloop & Hb & Hk & Ha & Hrest);
        [exact Hclosed | reflexivity |]
  end.
  exists b, k, c', w'. rewrite Hloop. cbn in Ha, Hrest, Hb.
  split; [reflexivity |]. split; [exact Hb |]. split; [exact Hk |].
  split; [exact Ha |].
  destruct b.
  - exact Hrest.
  - destruct Hrest as (-> & Hs & Hf & _). auto.
Qed.



End CompressOutcome.

Lemma compress_outcome_witness :
  exists (b : bool) (k : nat) c' w',
    FileCompression.compress Examples.site_down "in/a.mp3" "out" None
      (Scenarios.fresh_compressor, Examples.single) = (Ok b, (c', w'))
    /\ FileCompression.browser c' = false
    /\ (k <= 3)%nat
    /\ Fs.attempts w' = Spec.counts_from 1 k
    /\ if b then
         (0 < k)%nat
         /\ Fs.slept w'
            = List.map FileCompression.wait_time (Spec.counts_from 1 (k - 1))
         /\ Fs.isfile (Fs.files w') (OsPath.join "out" (OsPath.basename "in/a.mp3"))
            = true
       else
         Fs.files w' = Fs.files Examples.single
         /\ Fs.slept w' = List.map FileCompression.wait_time (Spec.counts_from 1 k).
Proof.
  apply (compress_outcome Examples.site_down Scenarios.fresh_compressor "in/a.mp3" "out"
           None Examples.single).
  reflexivity.
Defined.


(** ** The identifiers of the output directory *)

Section ExistingIdentifiers.

Import Fs FileCompression Spec.

Lemma get_file_identifier_log (p : string) (w : world) :
  exists w',
    get_file_identifier p w = (ContentIdentifier (files w) p, w')
    /\ files w' = files w
    /\ log w' = (log w ++ Notions.identifier_records (files w) p)%list.
Proof.
  unfold get_file_identifier, ContentIdentifier, size_string, Notions.identifier_records,
    try_except, bind, reads, ret, raise.
  destruct (ID3 (files w) p) as [t|e] eqn:Hload.
  - destruct (Mutagen.getall "TIT3" t) as [|f fs']; cbn.
    + destruct (getsize (files w) p); cbn; eauto.
    + rewrite app_nil_r. eauto.
  - destruct e; cbn; destruct (getsize (files w) p); cbn; eauto.
Qed.

Lemma collect_identifiers_log (output_dir : string) (entries : list string) :
  forall (acc : gset string) (w : world),
  exists ids w',
    collect_identifiers output_dir entries acc w = (Ok ids, w')
    /\ log w'
       = (log w
          ++ List.flat_map (Notions.existing_records (files w) output_dir) entries)%list.
Proof.
  induction entries as [|file rest IH]; intros acc w.
  - exists acc, w. cbn. now rewrite app_nil_r.
  - cbn [collect_identifiers List.flat_map].
    unfold bind at 1, try_except, bind at 1.
    destruct (get_file_identifier_log (OsPath.join output_dir file) w)
      as (w1 & -> & Hfiles & Hlog).
    unfold Notions.existing_records at 1, readable_identifier.
    destruct (ContentIdentifier (files w) (OsPath.join output_dir file))
      as [i0|e] eqn:Hid; cbn [is_ok].
    + unfold ret at 1. cbn beta iota.
      destruct (IH ({[ i0 ]} ∪ acc) w1) as (ids & w' & -> & Hlog').
      exists ids, w'. split; [reflexivity |].
      rewrite Hlog', Hlog, Hfiles, app_nil_r, <- app_assoc. reflexivity.
    + unfold bind, logger, modify, ret. cbn beta iota.
      destruct (IH acc (emit ERROR "identifier of an output file unavailable" w1))
        as (ids & w' & -> & Hlog').
      exists ids, w'. split; [reflexivity |].
      rewrite Hlog'. cbn. rewrite Hlog, Hfiles, <- !app_assoc. reflexivity.
Qed.

(** X7: [get_existing_identifiers] never fails on a directory: a listed
    file whose identifier cannot be read is left out, with one error
    logged for it after what the attempt to read it logged; the set
    returned holds exactly the identifiers that can be read, and no file
    is changed. *)
Theorem existing_identifiers_skip_unreadable (output_dir : string)
    (entries : list string) (w : world) :
  listdir (files w) output_dir = Ok entries ->
  exists ids w',
    get_existing_identifiers output_dir w = (Ok ids, w')
    /\ files w' = files w
    /\ (forall i, i ∈ ids <-> identifiers_in (files w) output_dir entries i)
    /\ log w'
       = (log w
          ++ List.flat_map (Notions.existing_records (files w) output_dir) entries)%list.
Proof.
  intros Hlist.
  destruct (get_existing_identifiers_run output_dir entries w Hlist)
    as (ids & w' & Hrun & Hfiles & Hin).
  exists ids, w'. split; [exact Hrun |]. split; [exact Hfiles |]. split; [exact Hin |].
  unfold get_existing_identifiers, bind, reads in Hrun. rewrite Hlist in Hrun.
  destruct (collect_identifiers_log output_dir entries ∅ w) as (ids2 & w2 & Hrun2 & Hlog).
  rewrite Hrun in Hrun2. injection Hrun2 as _ <-. exact Hlog.
Qed.

(** X8: the set of existing identifiers does not depend on the order in
    which the directory lists its entries. *)
Theorem existing_identifiers_order_insensitive (output_dir : string)
    (entries entries' : list string) (w : world) :
  Permutation entries entries' ->
  fst (collect_identifiers output_dir entries ∅ w)
  = fst (collect_identifiers output_dir entries' ∅ w).
Proof.
  intros Hperm.
  destruct (collect_identifiers_run output_dir entries ∅ w) as (ids & w1 & -> & _ & Hin).
  destruct (collect_identifiers_run output_dir entries' ∅ w) as (ids' & w2 & -> & _ & Hin').
  cbn. f_equal. apply set_eq. intros i. rewrite Hin, Hin'.
  unfold identifiers_in.
  split; intros [H | (f & Hf & Hid)]; auto; right; exists f; split; auto.
  - apply (Permutation_in _ Hperm Hf).
  - apply (Permutation_in _ (Permutation_sym Hperm) Hf).
Qed.

End ExistingIdentifiers.

Lemma existing_identifiers_skip_unreadable_witness :
  exists ids w',
    FileCompression.get_existing_identifiers "out" Notions.vanished = (Ok ids, w')
    /\ Fs.files w' = Fs.files Notions.vanished
    /\ (forall i, i ∈ ids
                  <-> Spec.identifiers_in (Fs.files Notions.vanished) "out"
                        ["c.mp3"; "gone.mp3"] i)
    /\ Fs.log w'
       = [(ERROR, "reading the file identifier failed");
          (ERROR, "identifier of an output file unavailable")].
Proof.
  apply (existing_identifiers_skip_unreadable "out" ["c.mp3"; "gone.mp3"] Notions.vanished).
  vm_compute. reflexivity.
Defined.

Lemma existing_identifiers_order_insensitive_witness :
  fst (FileCompression.collect_identifiers "in" ["a.mp3"; "c.mp3"] ∅ Examples.library)
  = fst (FileCompression.collect_identifiers "in" ["c.mp3"; "a.mp3"] ∅ Examples.library).
Proof.
  apply (existing_identifiers_order_insensitive "in" ["a.mp3"; "c.mp3"]
           ["c.mp3"; "a.mp3"] Examples.library).
  apply perm_swap.
Defined.

(** ** Compressing a directory into itself *)

Section SelfCompression.

Import Fs ConcurrentTasks Spec.

(** X9: when the input directory is also the output directory, no
    candidate is handed to the compression pool: each one is its own
    existing output. *)
Theorem same_directory_submits_nothing (path : string) (entries : list string)
    (w : world) :
  listdir (files w) path = Ok entries ->
  snd (fst (schedule path path w)) = [].
Proof.
  intros Hls.
  destruct (schedule_run path path w entries entries Hls Hls)
    as (ids & w' & Hex & -> & _).
  cbn [fst].
  destruct (snd (plan (files w) path ids entries)) as [|file rest] eqn:Hplan;
    [reflexivity |].
  assert (In file (snd (plan (files w) path ids entries))) as Hin
    by (rewrite Hplan; now left).
  apply plan_submits_eligible in Hin as [Hentry Hel].
  unfold eligible in Hel.
  destruct (ContentIdentifier (files w) (OsPath.join path file)) as [i|e] eqn:Hid;
    [| discriminate].
  assert (i ∈ ids) as Hi by (apply Hex; exists file; auto).
  rewrite (bool_decide_eq_true_2 _ Hi) in Hel. discriminate.
Qed.

End SelfCompression.

Lemma same_directory_submits_nothing_witness :
  snd (fst (ConcurrentTasks.schedule "in" "in" Examples.library)) = [].
Proof.
  apply (same_directory_submits_nothing "in" ["a.mp3"; "b.mp3"; "c.mp3"] Examples.library).
  vm_compute. reflexivity.
Defined.

(** ** What tagging does to a file *)

Section TaggingEffects.

Import Fs Mutagen AudioTrackProcessing Spec Notions Contracts.

Variable year : N.
Variable save_v23 : Mutagen.tags -> file -> result file.

Lemma lookup_setitem_eq (key : string) (f : frame) (t : tags) :
  lookup key (setitem key f t) = Some f.
Proof.
  induction t as [|[k g] t IH]; cbn.
  - now rewrite String.eqb_refl.
  - destruct (String.eqb k key) eqn:Hk; cbn; rewrite Hk; [reflexivity | exact IH].
Qed.

Lemma lookup_setitem_ne (key key' : string) (f : frame) (t : tags) :
  String.eqb key' key = false -> lookup key (setitem key' f t) = lookup key t.
Proof.
  intros Hne. induction t as [|[k g] t IH]; cbn.
  - now rewrite Hne.
  - destruct (String.eqb k key') eqn:Hk; cbn.
    + apply String.eqb_eq in Hk. subst k. now rewrite Hne.
    + destruct (String.eqb k key); [reflexivity | exact IH].
Qed.

Lemma lookup_keep (p : string -> bool) (key : string) (t : tags) :
  p key = true -> lookup key (keep p t) = lookup key t.
Proof.
  intros Hp. unfold keep. induction t as [|[k f] t IH]; cbn; [reflexivity |].
  destruct (String.eqb k key) eqn:Hk.
  - apply String.eqb_eq in Hk. subst k. rewrite Hp. cbn. now rewrite String.eqb_refl.
  - destruct (p k); cbn; [rewrite Hk |]; exact IH.
Qed.

(** [getall("TIT3")] looks at the provenance keys only. *)
Lemma getall_provenance (t : tags) :
  getall "TIT3" t = getall "TIT3" (keep provenance_key t).
Proof.
  unfold getall. rewrite lookup_keep by reflexivity.
  destruct (lookup "TIT3" t); [reflexivity |].
  rewrite keep_keep; [reflexivity |].
  intros k Hk. unfold provenance_key. change ("TIT3" +:+ ":") with "TIT3:" in Hk.
  rewrite Hk. apply orb_true_r.
Qed.

(** X10: [audio_track_processing] never raises, whatever the file, the
    cover and the serialiser do, and the only file it can change is the
    one it is asked to tag. *)
Theorem tagging_never_raises (input_file : string)
    (track_information : list (string * string)) (w : world) :
  exists w',
    audio_track_processing year save_v23 input_file track_information w = (Ok tt, w')
    /\ forall p, p <> input_file -> files w' !! p = files w !! p.
Proof.
  unfold audio_track_processing, read_cover, save, try_except, bind, reads, ret,
    logger, modify.
  destruct (ID3 (files w) input_file) as [t|e]; cbn; [| eauto].
  destruct (open_rb (files w) (info_get "Cover" "" track_information)) as [c|e] eqn:Hopen;
    cbn; rewrite ?Hopen; cbn.
  2:{ destruct e; cbn; eauto. }
  destruct (image c); cbn; rewrite ?Hopen; cbn; [| eauto].
  destruct (files w !! input_file) as [[f|s entries]|]; cbn; eauto.
  match goal with
  | |- context [save_v23 ?t' f] => destruct (save_v23 t' f) as [f'|e]; cbn; eauto
  end.
  eexists. split; [reflexivity |]. intros p Hp. cbn. now rewrite lookup_insert_ne.
Qed.

(** X11: after the changes the seven managed frames carry the configured
    values (the defaults where [track_information] has no entry), the
    year of the run and the cover. *)
Theorem retag_sets_managed_frames (file_name : string)
    (track_information : list (string * string)) (covers_type : option string)
    (cover_data : string) (audio_file : tags) :
  let t := retag year file_name track_information covers_type cover_data audio_file in
  lookup "TDRC" t = Some (Text "TDRC" [pretty year])
  /\ lookup "TPE1" t
     = Some (Text "TPE1" [info_get "Artist" DEFAULT_ARTIST track_information])
  /\ lookup "TENC" t
     = Some (Text "TENC" [info_get "Encoder" DEFAULT_ENCODER track_information])
  /\ lookup "APIC:Cover" t = Some (Apic 3 "Cover" covers_type cover_data)
  /\ lookup "TPUB" t
     = Some (Text "TPUB" [info_get "Publisher" DEFAULT_PUBLISHER track_information])
  /\ lookup ("WOAR:" +:+ info_get "Author_URL" DEFAULT_AUTHOR_URL track_information) t
     = Some (Url "WOAR" (info_get "Author_URL" DEFAULT_AUTHOR_URL track_information))
  /\ lookup "TCOP" t
     = Some (Text "TCOP" [info_get "Copyright" DEFAULT_COPYRIGHT track_information]).
Proof.
  cbn zeta. unfold retag, add. cbn [HashKey].
  repeat split;
    repeat (rewrite lookup_setitem_ne by reflexivity);
    apply lookup_setitem_eq.
Qed.

Lemma foreign_key_not_cleared (tag k : string) :
  In tag old_tags -> foreign_key k = true ->
  String.eqb k tag = false /\ OsPath.startswith (tag +:+ ":") k = false.
Proof.
  intros Htag Hk. unfold foreign_key, managed_key in Hk.
  apply andb_true_iff in Hk as [Hk _]. apply negb_true_iff in Hk.
  rewrite <- orb_false_iff.
  destruct (String.eqb k tag || OsPath.startswith (tag +:+ ":") k) eqn:Hhit;
    [| reflexivity].
  assert (List.existsb
            (fun tag => String.eqb k tag || OsPath.startswith (tag +:+ ":") k)
            old_tags = true) as Hex
    by (apply List.existsb_exists; exists tag; auto).
  congruence.
Qed.

Lemma woar_key_not_foreign (url : string) :
  foreign_key ("WOAR" +:+ ":" +:+ url) = false.
Proof. destruct url; reflexivity. Qed.

(** X12: a frame that is neither one of the managed ones nor a TIT3
    frame comes out of the changes as it went in, and in the same
    place among such frames. *)
Theorem retag_leaves_foreign_frames (file_name : string)
    (track_information : list (string * string)) (covers_type : option string)
    (cover_data : string) (audio_file : tags) :
  keep foreign_key
       (retag year file_name track_information covers_type cover_data audio_file)
  = keep foreign_key audio_file.
Proof.
  unfold retag, add. cbn [HashKey].
  rewrite !keep_setitem_other by (reflexivity || apply woar_key_not_foreign).
  assert (keep foreign_key
            (List.fold_left (fun t tag => delall tag t) old_tags audio_file)
          = keep foreign_key audio_file) as Hcleared.
  { cbn [List.fold_left old_tags].
    rewrite !keep_delall; [reflexivity | ..];
      intros k Hk; apply foreign_key_not_cleared; cbn; auto 10. }
  destruct (getall "TIT3" _); [| exact Hcleared].
  rewrite keep_setitem_other by reflexivity. exact Hcleared.
Qed.

Hypothesis save_writes_v23 : writes_v23 save_v23.

(** X13: a file carries its provenance as at most one text frame under
    the key TIT3.  Once such a file has been tagged and saved, its
    identifier is the text of that frame, its values joined by a slash,
    and the stem of the file's name when it carried none: tagging gives
    every file a TIT3 identifier, keeps one of a single value as it is
    and rewrites one of several values. *)
Theorem tagged_file_identifier (input_file : string)
    (track_information : list (string * string)) (w : world) (f f' cover : file)
    (t : tags) (carried : option (list string)) :
  files w !! input_file = Some (Reg f) ->
  ID3 (files w) input_file = Ok t ->
  open_rb (files w) (info_get "Cover" "" track_information) = Ok cover ->
  image cover = true ->
  save_v23 (retag year (OsPath.basename input_file) track_information
                  (mime cover) (raw cover) t) f = Ok f' ->
  keep provenance_key t
  = match carried with
    | Some text => [("TIT3", Text "TIT3" text)]
    | None => []
    end ->
  let text := default [OsPath.splitext_root (OsPath.basename input_file)] carried in
  str (Text "TIT3" text) <> "" ->
  exists w1 w2,
    audio_track_processing year save_v23 input_file track_information w = (Ok tt, w1)
    /\ FileCompression.get_file_identifier input_file w1
       = (Ok (String.concat "/" text), w2).
Proof.
  intros Hfile Hload Hopen Hcover Hsave Hcarried text Htext.
  assert (readable f = true) as Hreadable.
  { unfold ID3 in Hload. rewrite Hfile in Hload.
    destruct (readable f); [reflexivity | discriminate Hload]. }
  destruct (save_writes_v23 _ f f' Hreadable Hsave) as (Hread & t' & Hid3 & Hdisk).
  destruct (tagging_saves_the_retagged_table year save_v23 input_file track_information
              w f f' cover t Hload Hfile Hopen Hcover Hsave) as (w1 & Hrun & Hfiles).
  exists w1. rewrite Hrun.
  assert (keep provenance_key t' = [("TIT3", Text "TIT3" [String.concat "/" text])])
    as Hwritten.
  { rewrite Hdisk, (retag_provenance year), (getall_provenance t), Hcarried.
    apply String.eqb_neq in Htext.
    subst text. destruct carried as [carried_text|]; cbn [default] in *;
      unfold getall; cbn [lookup keep List.filter fst String.eqb Ascii.eqb Bool.eqb
                          provenance_key orb List.map snd];
      unfold Id3v23.written_entries; cbn [omap list_omap Id3v23.written fst snd fmap
                                           option_fmap option_map];
      unfold id in *; rewrite Htext; reflexivity. }
  unfold FileCompression.get_file_identifier, try_except, bind, reads, ret.
  unfold ID3 at 1. rewrite Hfiles, lookup_insert_eq, Hread, Hid3.
  rewrite (getall_provenance t'), Hwritten. cbn. eauto.
Qed.

End TaggingEffects.

Lemma tagged_file_identifier_witness :
  exists w1 w2,
    AudioTrackProcessing.audio_track_processing 2025 Id3v23.save "in/a.mp3"
      [("Cover", "in/cover.png")] Scenarios.two_titles = (Ok tt, w1)
    /\ FileCompression.get_file_identifier "in/a.mp3" w1 = (Ok "x/y", w2).
Proof.
  eapply (tagged_file_identifier 2025 Id3v23.save save_writes_v23 "in/a.mp3"
           [("Cover", "in/cover.png")] Scenarios.two_titles
           (Fs.mkFile 100 true "" (Some "audio/mpeg") false
                      (Fs.Frames [("TIT3", Mutagen.Text "TIT3" ["x"; "y"])]))
           _ (Fs.mkFile 10 true "PNG" (Some "image/png") true Fs.NoHeader)
           [("TIT3", Mutagen.Text "TIT3" ["x"; "y"])] (Some ["x"; "y"])).
  - vm_compute. reflexivity.
  - vm_compute. reflexivity.
  - vm_compute. reflexivity.
  - reflexivity.
  - reflexivity.
  - reflexivity.
  - vm_compute. discriminate.
Defined.

(** ** The conversion of the downloaded files *)

Section Conversion.

Import Fs DataProcessing Contracts.

Variable ffmpeg : string -> string -> string -> M world Z.

Lemma lower_char_idem (c : ascii) : lower_char (lower_char c) = lower_char c.
Proof. destruct c as [[] [] [] [] [] [] [] []]; reflexivity. Qed.

Lemma lower_idem (s : string) : lower (lower s) = lower s.
Proof. induction s as [|c s IH]; cbn; [reflexivity |]. now rewrite lower_char_idem, IH. Qed.

(** X14: a format written in ASCII is taken in lower case and without
    leading dots, so [MP3], [mp3] and [.mp3] ask for the same
    conversion. *)
Theorem conversion_format_is_normalised (input_path output_path : string) (retry : Z)
    (audio_format : string) :
  Notions.ascii_text audio_format = true ->
  download_processing ffmpeg input_path output_path retry ("." +:+ audio_format)
  = download_processing ffmpeg input_path output_path retry audio_format
  /\ download_processing ffmpeg input_path output_path retry (lower audio_format)
     = download_processing ffmpeg input_path output_path retry audio_format.
Proof.
  intros _. unfold download_processing. split.
  - change (lstrip_dots (lower ("." +:+ audio_format)))
      with (lstrip_dots (lower audio_format)).
    reflexivity.
  - now rewrite lower_idem.
Qed.

(** The retry loop of one file when the converter never succeeds. *)
Lemma convert_loop_all_fail (input_path file output_file audio_format : string) :
  (forall a b c, fails_cleanly (ffmpeg a b c)) ->
  forall (n : nat) (count : Z) (w : world),
  exists w',
    convert_loop ffmpeg n count input_path file output_file audio_format w = (Ok false, w')
    /\ files w' = files w
    /\ slept w' = (slept w ++ List.repeat 1%Z n)%list
    /\ attempts w' = attempts w.
Proof.
  intros Hfails. induction n as [|n IH]; intros count w; cbn [convert_loop].
  - exists w. unfold ret. cbn. now rewrite app_nil_r.
  - unfold bind at 1.
    destruct (Hfails (OsPath.join input_path file) output_file audio_format w)
      as (returncode & Hcode & ->).
    apply Z.eqb_neq in Hcode. rewrite Hcode.
    unfold bind, logger, sleep, modify. cbn.
    match goal with
    | |- context [convert_loop _ n ?c _ _ _ _ ?w0] =>
        destruct (IH c w0) as (w' & Hloop & Hfiles & Hslept & Hattempts)
    end.
    exists w'. rewrite Hloop. cbn in *.
    split; [reflexivity |]. split; [exact Hfiles |]. split; [| exact Hattempts].
    rewrite Hslept, <- app_assoc. reflexivity.
Qed.

Lemma convert_files_all_fail (retry : Z) (input_path output_path audio_format : string) :
  (forall a b c, fails_cleanly (ffmpeg a b c)) ->
  forall (entries : list string) (w : world),
  isdir (files w) input_path = true ->
  NoDup (OsPath.join input_path <$> entries) ->
  (forall e, e ∈ entries -> isfile (files w) (OsPath.join input_path e) = true) ->
  exists w',
    convert_files ffmpeg retry input_path output_path audio_format entries w = (Ok tt, w')
    /\ (forall e, e ∈ entries -> files w' !! OsPath.join input_path e = None)
    /\ (forall p, p <> input_path -> p ∉ (OsPath.join input_path <$> entries) ->
                  files w' !! p = files w !! p)
    /\ isdir (files w') input_path = true
    /\ slept w' = (slept w ++ List.repeat 1%Z (Z.to_nat retry * List.length entries))%list.
Proof.
  intros Hfails. induction entries as [|file rest IH]; intros w Hdir Hdistinct Hfiles.
  - exists w. cbn. rewrite Nat.mul_0_r, app_nil_r.
    split; [reflexivity |]. split; [intros e He; inversion He |]. auto.
  - cbn [convert_files]. unfold bind at 1.
    destruct (convert_loop_all_fail input_path file
                (OsPath.join output_path (OsPath.splitext_root file +:+ audio_format))
                audio_format Hfails (Z.to_nat retry) 1 w)
      as (w1 & -> & Hfiles1 & Hslept1 & _).
    cbn [fmap list_fmap] in Hdistinct. apply NoDup_cons in Hdistinct as [Hfresh Hdistinct].
    assert (isfile (files w) (OsPath.join input_path file) = true) as Hfile
      by (apply Hfiles; left).
    unfold isfile in Hfile. unfold isdir in Hdir.
    destruct (files w !! OsPath.join input_path file) as [[f|]|] eqn:Hnode;
      try discriminate Hfile.
    assert (OsPath.join input_path file <> input_path) as Hne.
    { intros Heq. rewrite Heq in Hnode. rewrite Hnode in Hdir. discriminate Hdir. }
    unfold bind, logger, modify, remove. cbn. rewrite Hfiles1, Hnode.
    set (w2 := set_files _ _).
    assert (forall p, p <> input_path -> p <> OsPath.join input_path file ->
                      files w2 !! p = files w !! p) as Hframe.
    { intros p Hp Hp'. subst w2. cbn.
      rewrite lookup_delete_ne by congruence.
      rewrite lookup_alter_ne by congruence. now rewrite Hfiles1. }
    destruct (IH w2) as (w' & Hrun & Hgone & Hkept & Hdir' & Hslept').
    + subst w2. unfold isdir. cbn.
      rewrite lookup_delete_ne by congruence. rewrite lookup_alter_eq, Hfiles1.
      destruct (files w !! input_path) as [[|s entries]|]; try discriminate Hdir.
      reflexivity.
    + exact Hdistinct.
    + intros e He. unfold isfile.
      assert (isfile (files w) (OsPath.join input_path e) = true) as Hreg
        by (apply Hfiles; now right).
      unfold isfile in Hreg.
      rewrite Hframe; [exact Hreg | |].
      * intros Heq. rewrite Heq in Hreg.
        destruct (files w !! input_path) as [[|]|]; discriminate.
      * intros Heq. apply Hfresh. rewrite <- Heq. now apply list_elem_of_fmap_2.
    + exists w'. rewrite Hrun. split; [reflexivity |].
      split; [| split; [| split; [exact Hdir' |]]].
      * intros e He. apply elem_of_cons in He as [-> | He]; [| now apply Hgone].
        rewrite Hkept; [| exact Hne | exact Hfresh].
        subst w2. cbn. apply lookup_delete_eq.
      * intros p Hp Hnot. cbn [fmap list_fmap] in Hnot.
        apply not_elem_of_cons in Hnot as [Hp' Hnot].
        rewrite Hkept by assumption. now apply Hframe.
      * rewrite Hslept'. subst w2. cbn. rewrite Hslept1, <- app_assoc.
        f_equal. rewrite <- repeat_app. f_equal. cbn [List.length]. lia.
Qed.

(** X15: when the converter fails on every run, every listed file is
    tried [retry] times with a second of sleep after each run and then
    deleted; nothing else is touched and no exception is raised. *)
Theorem failed_conversions_remove_inputs (input_path output_path : string) (retry : Z)
    (audio_format : string) (entries : list string) (w : world) :
  (forall a b c, fails_cleanly (ffmpeg a b c)) ->
  listdir (files w) input_path = Ok entries ->
  isdir (files w) output_path = true ->
  NoDup (OsPath.join input_path <$> entries) ->
  (forall e, e ∈ entries -> isfile (files w) (OsPath.join input_path e) = true) ->
  exists w',
    download_processing ffmpeg input_path output_path retry audio_format w = (Ok tt, w')
    /\ (forall e, e ∈ entries -> files w' !! OsPath.join input_path e = None)
    /\ (forall p, p <> input_path -> p ∉ (OsPath.join input_path <$> entries) ->
                  files w' !! p = files w !! p)
    /\ slept w'
       = (slept w
          ++ List.repeat 1%Z
               (Z.to_nat (if andb (1 <=? retry)%Z (retry <=? 5)%Z then retry
                          else DEFAULT_RETRY)
                * List.length entries))%list.
Proof.
  intros Hfails Hlist Hout Hdistinct Hfiles.
  assert (isdir (files w) input_path = true) as Hin
    by (unfold isdir, listdir in *; destruct (files w !! input_path) as [[]|];
        congruence).
  unfold download_processing. unfold bind at 1, gets at 1. rewrite Hin. cbn [negb].
  unfold bind at 1, gets at 1. rewrite Hout. cbn [negb].
  destruct (andb (1 <=? retry)%Z (retry <=? 5)%Z).
  - unfold bind, ret, reads. rewrite Hlist.
    destruct (convert_files_all_fail retry input_path output_path
                ("." +:+ lstrip_dots (lower audio_format)) Hfails entries w
                Hin Hdistinct Hfiles) as (w' & Hrun & Hgone & Hkept & _ & Hslept).
    exists w'. auto.
  - unfold bind, ret, reads, logger, modify. cbn. rewrite Hlist.
    match goal with
    | |- context [convert_files _ _ _ _ _ _ ?w0] =>
        destruct (convert_files_all_fail DEFAULT_RETRY input_path output_path
                    ("." +:+ lstrip_dots (lower audio_format)) Hfails entries w0
                    Hin Hdistinct Hfiles) as (w' & Hrun & Hgone & Hkept & _ & Hslept)
    end.
    exists w'. auto.
Qed.

(** X16: the function returns at the first conversion that succeeds:
    the converted input is deleted, and the files listed after it are
    neither converted nor deleted. *)
Theorem first_conversion_ends_processing (input_path output_path : string) (retry : Z)
    (audio_format file : string) (rest : list string) (w w1 : world) :
  (1 <= retry <= 5)%Z ->
  listdir (files w) input_path = Ok (file :: rest) ->
  isdir (files w) output_path = true ->
  ffmpeg (OsPath.join input_path file)
         (OsPath.join output_path
            (OsPath.splitext_root file +:+ "." +:+ lstrip_dots (lower audio_format)))
         ("." +:+ lstrip_dots (lower audio_format)) w = (Ok 0%Z, w1) ->
  isfile (files w1) (OsPath.join input_path file) = true ->
  exists w',
    download_processing ffmpeg input_path output_path retry audio_format w = (Ok tt, w')
    /\ files w' !! OsPath.join input_path file = None
    /\ (forall p, p <> input_path -> p <> OsPath.join input_path file ->
                  files w' !! p = files w1 !! p)
    /\ slept w' = slept w1.
Proof.
  intros Hretry Hlist Hout Hrun Hfile.
  assert (isdir (files w) input_path = true) as Hin
    by (unfold isdir, listdir in *; destruct (files w !! input_path) as [[]|];
        congruence).
  unfold download_processing. unfold bind at 1, gets at 1. rewrite Hin. cbn [negb].
  unfold bind at 1, gets at 1. rewrite Hout. cbn [negb].
  assert (andb (1 <=? retry)%Z (retry <=? 5)%Z = true) as ->
    by (apply andb_true_iff; split; apply Z.leb_le; lia).
  unfold bind at 1, ret at 1. unfold bind at 1, reads at 1. rewrite Hlist.
  cbn [convert_files].
  destruct (Z.to_nat retry) as [|n] eqn:Hn; [lia |].
  cbn [convert_loop]. unfold bind at 1. unfold bind at 1. rewrite Hrun.
  cbn [Z.eqb]. unfold bind, logger, modify, remove, ret. cbn.
  unfold isfile in Hfile.
  destruct (files w1 !! OsPath.join input_path file) as [[f|]|]; try discriminate Hfile.
  eexists. split; [reflexivity |]. cbn.
  split; [apply lookup_delete_eq |]. split; [| reflexivity].
  intros p Hp Hp'. rewrite lookup_delete_ne by congruence.
  now rewrite lookup_alter_ne by congruence.
Qed.

(** X17: unlike the download, the conversion has no handler: an exception
    raised by the run of the converter on the first file leaves
    [download_processing], and the file is not deleted. *)
Theorem converter_exception_escapes (input_path output_path : string) (retry : Z)
    (audio_format file : string) (rest : list string) (e : exn) (w w1 : world) :
  (1 <= retry <= 5)%Z ->
  listdir (files w) input_path = Ok (file :: rest) ->
  isdir (files w) output_path = true ->
  ffmpeg (OsPath.join input_path file)
         (OsPath.join output_path
            (OsPath.splitext_root file +:+ "." +:+ lstrip_dots (lower audio_format)))
         ("." +:+ lstrip_dots (lower audio_format)) w = (Raise e, w1) ->
  download_processing ffmpeg input_path output_path retry audio_format w = (Raise e, w1).
Proof.
  intros Hretry Hlist Hout Hrun.
  assert (isdir (files w) input_path = true) as Hin
    by (unfold isdir, listdir in *; destruct (files w !! input_path) as [[]|];
        congruence).
  unfold download_processing. unfold bind at 1, gets at 1. rewrite Hin. cbn [negb].
  unfold bind at 1, gets at 1. rewrite Hout. cbn [negb].
  assert (andb (1 <=? retry)%Z (retry <=? 5)%Z = true) as ->
    by (apply andb_true_iff; split; apply Z.leb_le; lia).
  unfold bind at 1, ret at 1. unfold bind at 1, reads at 1. rewrite Hlist.
  cbn [convert_files].
  destruct (Z.to_nat retry) as [|n] eqn:Hn; [lia |].
  cbn [convert_loop]. unfold bind at 1. unfold bind at 1. rewrite Hrun. reflexivity.
Qed.

End Conversion.

Lemma conversion_format_is_normalised_witness :
  DataProcessing.download_processing Examples.ffmpeg_fails "tmp" "out" 3 ".MP3"
  = DataProcessing.download_processing Examples.ffmpeg_fails "tmp" "out" 3 "MP3"
  /\ DataProcessing.download_processing Examples.ffmpeg_fails "tmp" "out" 3 "mp3"
     = DataProcessing.download_processing Examples.ffmpeg_fails "tmp" "out" 3 "MP3".
Proof.
  apply (conversion_format_is_normalised Examples.ffmpeg_fails "tmp" "out" 3 "MP3").
  reflexivity.
Defined.

Lemma failed_conversions_remove_inputs_witness :
  exists w',
    DataProcessing.download_processing Examples.ffmpeg_fails "tmp" "out" 2 "mp3"
      Downloads.fetched = (Ok tt, w')
    /\ (forall e, e ∈ ["v.flv"; "w.flv"] -> Fs.files w' !! OsPath.join "tmp" e = None)
    /\ (forall p, p <> "tmp" -> p ∉ (OsPath.join "tmp" <$> ["v.flv"; "w.flv"]) ->
                  Fs.files w' !! p = Fs.files Downloads.fetched !! p)
    /\ Fs.slept w' = [1; 1; 1; 1]%Z.
Proof.
  apply (failed_conversions_remove_inputs Examples.ffmpeg_fails "tmp" "out" 2 "mp3"
           ["v.flv"; "w.flv"] Downloads.fetched).
  - intros a b c w. exists 1%Z. split; [lia | reflexivity].
  - reflexivity.
  - reflexivity.
  - apply (bool_decide_unpack _). vm_compute. exact I.
  - intros e He. repeat (apply elem_of_cons in He as [-> | He]; [reflexivity |]).
    inversion He.
Defined.

Lemma first_conversion_ends_processing_witness :
  exists w',
    DataProcessing.download_processing Downloads.ffmpeg_succeeds "tmp" "out" 3 "MP3"
      Downloads.fetched = (Ok tt, w')
    /\ Fs.files w' !! OsPath.join "tmp" "v.flv" = None
    /\ (forall p, p <> "tmp" -> p <> OsPath.join "tmp" "v.flv" ->
                  Fs.files w' !! p = Fs.files Downloads.fetched !! p)
    /\ Fs.slept w' = Fs.slept Downloads.fetched.
Proof.
  apply (first_conversion_ends_processing Downloads.ffmpeg_succeeds "tmp" "out" 3 "MP3"
           "v.flv" ["w.flv"] Downloads.fetched Downloads.fetched).
  - lia.
  - reflexivity.
  - reflexivity.
  - reflexivity.
  - reflexivity.
Defined.

Lemma converter_exception_escapes_witness :
  DataProcessing.download_processing Downloads.ffmpeg_missing "tmp" "out" 3 "mp3"
    Downloads.fetched = (Raise FileNotFoundError, Downloads.fetched).
Proof.
  apply (converter_exception_escapes Downloads.ffmpeg_missing "tmp" "out" 3 "mp3"
           "v.flv" ["w.flv"] FileNotFoundError Downloads.fetched Downloads.fetched).
  - lia.
  - reflexivity.
  - reflexivity.
  - reflexivity.
Defined.

(** ** The crawl of the favorites *)

Section CrawlRetries.

Import Fs Crawl Contracts.

Context {J : Type}.
Variable code : J -> option Z.
Variable request : string -> Z -> M world (reply J).

Lemma crawl_favorites_no_fid (retry timeout page_size : Z) (w : world) :
  crawl_favorites code request "" retry timeout page_size w
  = (Ok None, emit ERROR "the fid of the favorites is missing" w).
Proof. reflexivity. Qed.

(** X18: without a fid nothing is requested: one error is logged and the
    empty result returned, whatever the other arguments are. *)
Theorem crawl_without_fid_requests_nothing (retry timeout page_size : Z) (w : world) :
  exists msg,
    crawl_favorites code request "" retry timeout page_size w
    = (Ok None, emit ERROR msg w).
Proof. eexists. apply crawl_favorites_no_fid. Qed.

(** One iteration of the loop, by what the request came to. *)
Lemma crawl_loop_step (n : nat) (count timeout : Z) (url : string) (w : world) :
  let w0 := mkWorld (files w) (log w) (slept w) (attempts w ++ [count]) in
  crawl_loop code request (S n) count timeout url w
  = match request url timeout w0 with
    | (Ok (Answered status_code response_result), w1) =>
        if andb (status_code =? 200)%Z
                (bool_decide (code response_result = Some 0%Z)) then
          (Ok (Some response_result), emit INFO "favorites crawled" w1)
        else
          crawl_loop code request n (count + 1) timeout url
            (snd (sleep (waiting_time count)
                    (emit DEBUG "waiting before the next crawl attempt"
                       (emit ERROR "crawl failed: status code and response code" w1))))
    | (Ok Timeout, w1) =>
        crawl_loop code request n (count + 1) (timeout + Z.min (2 ^ count) 5) url
          (snd (sleep (waiting_time count)
                  (emit DEBUG "waiting before the next crawl attempt"
                     (emit ERROR "crawl timed out" w1))))
    | (Ok ValueError, w1) =>
        crawl_loop code request n (count + 1) timeout url
          (snd (sleep (waiting_time count)
                  (emit DEBUG "waiting before the next crawl attempt"
                     (emit ERROR "JSON cannot be parsed" w1))))
    | (Ok NetworkError, w1) =>
        crawl_loop code request n (count + 1) timeout url
          (snd (sleep (waiting_time count)
                  (emit DEBUG "waiting before the next crawl attempt"
                     (emit ERROR "network error" w1))))
    | (Ok OtherError, w1) | (Raise _, w1) =>
        crawl_loop code request n (count + 1) timeout url
          (snd (sleep (waiting_time count)
                  (emit DEBUG "waiting before the next crawl attempt"
                     (emit ERROR "crawl error" w1))))
    end.
Proof.
  cbn zeta. cbn [crawl_loop].
  unfold bind at 1, enter_attempt at 1, modify at 1. cbn beta iota.
  unfold bind at 1, try_except.
  destruct (request url timeout _) as [[answer|e] w1].
  - destruct answer as [status_code response_result| | | |];
      [destruct (andb _ _) |..]; reflexivity.
  - reflexivity.
Qed.

(** The world after the sleep that follows a failed attempt. *)
Lemma after_wait (count : Z) (msg : string) (w : world) :
  let w' := snd (sleep (waiting_time count)
                   (emit DEBUG "waiting before the next crawl attempt"
                      (emit ERROR msg w))) in
  files w' = files w
  /\ slept w' = (slept w ++ [waiting_time count])%list
  /\ attempts w' = attempts w.
Proof. cbn. auto. Qed.

Lemma crawl_loop_result (url : string) :
  forall (n : nat) (count timeout : Z) (w : world),
  exists res w',
    crawl_loop code request n count timeout url w = (Ok res, w')
    /\ (res = None \/ exists j, res = Some j /\ code j = Some 0%Z).
Proof.
  induction n as [|n IH]; intros count timeout w.
  - cbn. unfold bind, logger, modify, ret. cbn. eauto.
  - rewrite crawl_loop_step. cbn zeta.
    destruct (request url timeout _) as [[answer|e] w1]; [| apply IH].
    destruct answer as [status_code response_result| | | |]; try apply IH.
    destruct (andb _ _) eqn:Hok; [| apply IH].
    apply andb_true_iff in Hok as [_ Hcode]. apply bool_decide_eq_true in Hcode.
    eauto 10.
Qed.

(** The validation of the arguments changes the log only. *)
Lemma crawl_favorites_unfold (fid : string) (retry timeout page_size : Z) (w : world) :
  fid <> "" ->
  exists w0,
    crawl_favorites code request fid retry timeout page_size w
    = crawl_loop code request (Z.to_nat (valid_retry retry)) 1 (valid_timeout timeout)
        (url fid (valid_page_size page_size)) w0
    /\ files w0 = files w /\ slept w0 = slept w /\ attempts w0 = attempts w.
Proof.
  intros Hfid. unfold crawl_favorites, valid_retry, valid_timeout, valid_page_size.
  apply String.eqb_neq in Hfid. rewrite Hfid.
  destruct (andb (1 <=? retry)%Z (retry <=? 5)%Z),
    (andb (0 <=? timeout)%Z (timeout <=? 10)%Z),
    (andb (1 <=? page_size)%Z (page_size <=? 200)%Z);
    unfold bind, ret, logger, modify; cbn beta iota;
    eexists; (split; [reflexivity |]); cbn; auto.
Qed.

(** X19: [crawl_favorites] never raises, whatever the request does, and
    what it returns is the empty result or an answer whose [code] is
    0. *)
Theorem crawl_returns_empty_or_code_zero (fid : string) (retry timeout page_size : Z)
    (w : world) :
  exists res w',
    crawl_favorites code request fid retry timeout page_size w = (Ok res, w')
    /\ (res = None \/ exists j, res = Some j /\ code j = Some 0%Z).
Proof.
  destruct (String.eqb fid "") eqn:Hfid.
  - apply String.eqb_eq in Hfid. subst fid. rewrite crawl_favorites_no_fid. eauto.
  - apply String.eqb_neq in Hfid.
    destruct (crawl_favorites_unfold fid retry timeout page_size w Hfid)
      as (w0 & -> & _).
    apply crawl_loop_result.
Qed.

Lemma crawl_loop_escalates (url : string) (j : J) :
  code j = Some 0%Z ->
  forall (k n : nat) (count timeout : Z) (w : world),
  (k < n)%nat ->
  (forall i w, (i < k)%nat ->
               request url (timeout_after i count timeout) w = (Ok Timeout, w)) ->
  (forall w, request url (timeout_after k count timeout) w = (Ok (Answered 200 j), w)) ->
  exists w',
    crawl_loop code request n count timeout url w = (Ok (Some j), w')
    /\ files w' = files w
    /\ slept w' = (slept w ++ waits k count)%list
    /\ attempts w' = (attempts w ++ counters (S k) count)%list.
Proof.
  intros Hcode. induction k as [|k IH]; intros n count timeout w Hk Hbefore Hthen.
  - destruct n as [|n]; [lia |]. rewrite crawl_loop_step. cbn zeta.
    cbn [timeout_after] in Hthen. rewrite Hthen. cbn [Z.eqb Pos.eqb andb].
    rewrite bool_decide_eq_true_2 by exact Hcode.
    eexists. split; [reflexivity |]. cbn. rewrite app_nil_r. auto.
  - destruct n as [|n]; [lia |]. rewrite crawl_loop_step. cbn zeta.
    rewrite (Hbefore 0%nat _ ltac:(lia)).
    edestruct (IH n (count + 1)%Z (timeout + Z.min (2 ^ count) 5)%Z)
      as (w' & -> & Hfiles & Hslept & Hattempts).
    + lia.
    + intros i w0 Hi. apply (Hbefore (S i) w0). lia.
    + exact Hthen.
    + exists w'. split; [reflexivity |].
      rewrite Hfiles, Hslept, Hattempts. cbn. rewrite <- !app_assoc. auto.
Qed.

(** X20: as long as the requests time out, the timeout of the next
    request grows by [min(2 ** count, 5)]; the request that is answered
    with status 200 and code 0 ends the loop with its answer, after one
    sleep of [min(2 ** count, 5)] seconds per timed-out attempt. *)
Theorem crawl_escalates_until_answered (fid : string) (retry timeout page_size : Z)
    (k : nat) (j : J) (w : world) :
  fid <> "" ->
  code j = Some 0%Z ->
  (k < Z.to_nat (valid_retry retry))%nat ->
  (forall i w, (i < k)%nat ->
     request (url fid (valid_page_size page_size))
             (timeout_after i 1 (valid_timeout timeout)) w = (Ok Timeout, w)) ->
  (forall w,
     request (url fid (valid_page_size page_size))
             (timeout_after k 1 (valid_timeout timeout)) w = (Ok (Answered 200 j), w)) ->
  exists w',
    crawl_favorites code request fid retry timeout page_size w = (Ok (Some j), w')
    /\ files w' = files w
    /\ slept w' = (slept w ++ waits k 1)%list
    /\ attempts w' = (attempts w ++ counters (S k) 1)%list.
Proof.
  intros Hfid Hcode Hk Hbefore Hthen.
  destruct (crawl_favorites_unfold fid retry timeout page_size w Hfid)
    as (w0 & -> & Hfiles & Hslept & Hattempts).
  rewrite <- Hfiles, <- Hslept, <- Hattempts.
  now apply crawl_loop_escalates.
Qed.

Lemma crawl_loop_rejected (url : string) (timeout : Z) :
  (forall w, exists answer,
     rejected code answer = true /\ request url timeout w = (Ok answer, w)) ->
  forall (n : nat) (count : Z) (w : world),
  exists w',
    crawl_loop code request n count timeout url w = (Ok None, w')
    /\ files w' = files w
    /\ slept w' = (slept w ++ waits n count)%list
    /\ attempts w' = (attempts w ++ counters n count)%list.
Proof.
  intros Hrejected. induction n as [|n IH]; intros count w.
  - cbn. unfold bind, logger, modify, ret. cbn. eexists. split; [reflexivity |].
    cbn. rewrite !app_nil_r. auto.
  - rewrite crawl_loop_step. cbn zeta.
    match goal with |- context [request url timeout ?w0] =>
      destruct (Hrejected w0) as (answer & Hanswer & ->) end.
    destruct answer as [status_code response_result| | | |]; cbn in Hanswer;
      try discriminate Hanswer;
      try (apply negb_true_iff in Hanswer; rewrite Hanswer);
      match goal with |- context [crawl_loop _ _ n ?c timeout url ?w0] =>
        destruct (IH c w0) as (w' & -> & Hfiles & Hslept & Hattempts) end;
      exists w'; (split; [reflexivity |]);
      rewrite Hfiles, Hslept, Hattempts; cbn; rewrite <- !app_assoc; auto.
Qed.

(** X21: an answer that is refused, a body that is no JSON and a network
    error leave the timeout as it is: when every request under the
    validated timeout fails in one of these ways, all the attempts are
    made under that timeout and the empty result is returned. *)
Theorem crawl_keeps_timeout_on_other_failures (fid : string)
    (retry timeout page_size : Z) (w : world) :
  fid <> "" ->
  (forall w, exists answer,
     rejected code answer = true
     /\ request (url fid (valid_page_size page_size)) (valid_timeout timeout) w
        = (Ok answer, w)) ->
  exists w',
    crawl_favorites code request fid retry timeout page_size w = (Ok None, w')
    /\ files w' = files w
    /\ slept w' = (slept w ++ waits (Z.to_nat (valid_retry retry)) 1)%list
    /\ attempts w' = (attempts w ++ counters (Z.to_nat (valid_retry retry)) 1)%list.
Proof.
  intros Hfid Hrejected.
  destruct (crawl_favorites_unfold fid retry timeout page_size w Hfid)
    as (w0 & -> & Hfiles & Hslept & Hattempts).
  rewrite <- Hfiles, <- Hslept, <- Hattempts.
  now apply crawl_loop_rejected.
Qed.

Lemma crawl_loop_bounded (url : string) :
  (forall u t, files_only (request u t)) ->
  forall (n : nat) (count timeout : Z) (w : world),
  exists (k : nat) res w',
    crawl_loop code request n count timeout url w = (Ok res, w')
    /\ (k <= n)%nat
    /\ match res with Some _ => (1 <= k)%nat | None => k = n end
    /\ attempts w' = (attempts w ++ counters k count)%list
    /\ slept w'
       = (slept w ++ waits (match res with Some _ => Nat.pred k | None => k end) count)%list.
Proof.
  intros Hfo. induction n as [|n IH]; intros count timeout w.
  - exists 0%nat. cbn. unfold bind, logger, modify, ret. cbn.
    eexists _, _. split; [reflexivity |]. cbn. rewrite !app_nil_r. auto.
  - rewrite crawl_loop_step. cbn zeta.
    match goal with |- context [request url timeout ?w0] =>
      destruct (Hfo url timeout w0) as (_ & Hs & Ha);
      destruct (request url timeout w0) as [r w1] end.
    cbn in Hs, Ha.
    assert (forall msg t,
      exists (k : nat) res w',
        crawl_loop code request n (count + 1) t url
          (snd (sleep (waiting_time count)
                  (emit DEBUG "waiting before the next crawl attempt"
                     (emit ERROR msg w1)))) = (Ok res, w')
        /\ (k <= S n)%nat
        /\ match res with Some _ => (1 <= k)%nat | None => k = S n end
        /\ attempts w' = (attempts w ++ counters k count)%list
        /\ slept w'
           = (slept w
              ++ waits (match res with Some _ => Nat.pred k | None => k end)
                       count)%list) as Hnext.
    { intros msg t.
      destruct (IH (count + 1)%Z t
                  (snd (sleep (waiting_time count)
                          (emit DEBUG "waiting before the next crawl attempt"
                             (emit ERROR msg w1)))))
        as (k & res & w' & Hrun & Hk & Hres & Hattempts & Hslept).
      exists (S k), res, w'. split; [exact Hrun |]. split; [lia |].
      split; [destruct res; lia |].
      cbn in Hattempts, Hslept. rewrite Ha in Hattempts. rewrite Hs in Hslept.
      split.
      - rewrite Hattempts. cbn. now rewrite <- app_assoc.
      - rewrite Hslept, <- app_assoc. f_equal.
        destruct res as [j|]; [| reflexivity].
        destruct k as [|k]; [lia | reflexivity]. }
    destruct r as [[status_code response_result| | | |]|e]; try apply Hnext.
    destruct (andb _ _); [| apply Hnext].
    exists 1%nat. eexists _, _. split; [reflexivity |]. cbn.
    rewrite Ha, Hs, app_nil_r. repeat split; (lia || auto).
Qed.

(** X22: when the requests act on nothing but the network, the attempts
    are numbered 1, 2, ... and there are at most five of them (the
    validated retry count); an answer is returned from inside an attempt
    and the empty result only after the last one; every attempt that
    does not return is followed by one sleep. *)
Theorem crawl_attempts_bounded (fid : string) (retry timeout page_size : Z) (w : world) :
  (forall u t, files_only (request u t)) ->
  fid <> "" ->
  exists (k : nat) res w',
    crawl_favorites code request fid retry timeout page_size w = (Ok res, w')
    /\ (k <= Z.to_nat (valid_retry retry) <= 5)%nat
    /\ match res with
       | Some _ => (1 <= k)%nat
       | None => k = Z.to_nat (valid_retry retry)
       end
    /\ attempts w' = (attempts w ++ counters k 1)%list
    /\ slept w'
       = (slept w ++ waits (match res with Some _ => Nat.pred k | None => k end) 1)%list.
Proof.
  intros Hfo Hfid.
  destruct (crawl_favorites_unfold fid retry timeout page_size w Hfid)
    as (w0 & -> & _ & Hslept & Hattempts).
  destruct (crawl_loop_bounded (url fid (valid_page_size page_size)) Hfo
              (Z.to_nat (valid_retry retry)) 1 (valid_timeout timeout) w0)
    as (k & res & w' & Hrun & Hk & Hres & Ha & Hs).
  exists k, res, w'. rewrite <- Hslept, <- Hattempts.
  split; [exact Hrun |]. split; [| auto].
  split; [exact Hk |].
  unfold valid_retry, DEFAULT_RETRY, NetworkOperations.DEFAULT_RETRY.
  destruct (andb (1 <=? retry)%Z (retry <=? 5)%Z) eqn:Hvalid; [| lia].
  apply andb_true_iff in Hvalid as [_ Hle]. apply Z.leb_le in Hle. lia.
Qed.

End CrawlRetries.

Lemma crawl_escalates_until_answered_witness :
  exists w',
    Crawl.crawl_favorites id Crawl.patient_server "3570962345" 3 5 200 Examples.single
    = (Ok (Some (Some 0%Z)), w')
    /\ Fs.files w' = Fs.files Examples.single
    /\ Fs.slept w' = [2; 4]%Z
    /\ Fs.attempts w' = [1; 2; 3]%Z.
Proof.
  apply (crawl_escalates_until_answered id Crawl.patient_server "3570962345" 3 5 200
           2 (Some 0%Z) Examples.single).
  - discriminate.
  - reflexivity.
  - vm_compute. lia.
  - intros i w Hi. destruct i as [|[|i]]; [reflexivity | reflexivity | lia].
  - intros w. reflexivity.
Defined.

Lemma crawl_keeps_timeout_on_other_failures_witness :
  exists w',
    Crawl.crawl_favorites id Crawl.unreachable_server "3570962345" 2 10 200
      Examples.single = (Ok None, w')
    /\ Fs.files w' = Fs.files Examples.single
    /\ Fs.slept w' = [2; 4]%Z
    /\ Fs.attempts w' = [1; 2]%Z.
Proof.
  apply (crawl_keeps_timeout_on_other_failures id Crawl.unreachable_server "3570962345"
           2 10 200 Examples.single).
  - discriminate.
  - intros w. exists Crawl.NetworkError. split; reflexivity.
Defined.

Lemma crawl_attempts_bounded_witness :
  exists (k : nat) res w',
    Crawl.crawl_favorites id Crawl.patient_server "3570962345" 3 5 200 Examples.single
    = (Ok res, w')
    /\ (k <= 3 <= 5)%nat
    /\ match res with Some _ => (1 <= k)%nat | None => k = 3%nat end
    /\ Fs.attempts w' = Crawl.counters k 1
    /\ Fs.slept w'
       = Crawl.waits (match res with Some _ => Nat.pred k | None => k end) 1.
Proof.
  apply (crawl_attempts_bounded id Crawl.patient_server "3570962345" 3 5 200
           Examples.single).
  - intros u t w. unfold Crawl.patient_server. destruct (t <? 11)%Z; cbn; auto.
  - discriminate.
Defined.

(** ** The classification of the favorites *)

Section ClassificationResult.

Import Fs Classification.

Variable truthy : Mutagen.frame -> bool.
Variable fromtimestamp : Z -> string -> option string.

Lemma occurs_media_title (character : ascii) (title : string) :
  occurs character invalid_characters = true ->
  occurs character (media_title title) = false.
Proof.
  intros Hinvalid. induction title as [|c title IH]; cbn [media_title]; [reflexivity |].
  destruct (occurs c invalid_characters) eqn:Hc; [exact IH |].
  cbn [occurs]. rewrite IH, orb_false_r.
  apply Ascii.eqb_neq. intros ->. congruence.
Qed.

Lemma elem_of_setitem {V} (key k : string) (v x : V) (d : list (string * V)) :
  (k, x) ∈ setitem key v d -> (k, x) ∈ d \/ (k = key /\ x = v).
Proof.
  induction d as [|[k' v'] d IH]; cbn.
  - intros Hin. apply list_elem_of_singleton in Hin. injection Hin as -> ->. auto.
  - destruct (String.eqb k' key) eqn:Hk.
    + apply String.eqb_eq in Hk. subst k'. intros Hin.
      apply elem_of_cons in Hin as [Hin | Hin].
      * injection Hin as -> ->. auto.
      * left. now right.
    + intros Hin. apply elem_of_cons in Hin as [Hin | Hin].
      * left. rewrite Hin. left.
      * destruct (IH Hin) as [Hd | Hd]; [left; now right | now right].
Qed.

Lemma keys_setitem {V} (key : string) (v : V) (d : list (string * V)) (k : string) :
  k ∈ (setitem key v d).*1 <-> k ∈ d.*1 \/ k = key.
Proof.
  induction d as [|[k' v'] d IH]; cbn.
  - rewrite list_elem_of_singleton. split; [auto | intros [H | H]; [inversion H | exact H]].
  - destruct (String.eqb k' key) eqn:Hk; cbn.
    + apply String.eqb_eq in Hk. subst k'. rewrite !elem_of_cons. tauto.
    + rewrite !elem_of_cons, IH. tauto.
Qed.

Lemma NoDup_setitem {V} (key : string) (v : V) (d : list (string * V)) :
  NoDup d.*1 -> NoDup (setitem key v d).*1.
Proof.
  induction d as [|[k' v'] d IH]; cbn; intros Hd.
  - apply NoDup_singleton.
  - apply NoDup_cons in Hd as [Hfresh Hd].
    destruct (String.eqb k' key) eqn:Hk; cbn.
    + apply NoDup_cons. auto.
    + apply NoDup_cons. split; [| auto].
      rewrite keys_setitem. intros [Hin | ->]; [auto |].
      rewrite String.eqb_refl in Hk. discriminate Hk.
Qed.

Lemma formatted_run (timestamp : Z) (format fallback : string) (w : world) :
  exists text w',
    formatted fromtimestamp timestamp format fallback w = (Ok text, w')
    /\ files w' = files w.
Proof.
  unfold formatted. destruct (fromtimestamp timestamp format).
  - unfold ret. eauto.
  - unfold bind, logger, modify, ret. cbn. eauto.
Qed.

(** What the tag loop gathers: the texts of the first TIT3 frames that
    count as true, of the files whose tags load. *)
Lemma collect_tags_run (input_path : string) :
  forall (entries : list string) (file_tag : gset string) (w : world),
  exists file_tag' w',
    collect_tags truthy input_path entries file_tag w = (Ok file_tag', w')
    /\ files w' = files w
    /\ (forall text,
          text ∈ file_tag' <->
          text ∈ file_tag
          \/ exists file t f l,
               file ∈ entries
               /\ ID3 (files w) (OsPath.join input_path file) = Ok t
               /\ Mutagen.getall "TIT3" t = f :: l
               /\ truthy f = true
               /\ text = Mutagen.str f).
Proof.
  induction entries as [|file rest IH]; intros file_tag w.
  - exists file_tag, w. split; [reflexivity |]. split; [reflexivity |].
    intros text. split; [auto |].
    intros [Hin | (file & t & f & l & Hfile & _)]; [exact Hin | inversion Hfile].
  - cbn [collect_tags]. unfold bind at 1, try_except, bind at 1, reads at 1.
    destruct (ID3 (files w) (OsPath.join input_path file)) as [t|e] eqn:Hload.
    + destruct (Mutagen.getall "TIT3" t) as [|f l] eqn:Hget.
      * unfold raise, bind, logger, modify, ret. cbn beta iota.
        destruct (IH file_tag (emit ERROR "reading the tags of an audio file failed" w))
          as (file_tag' & w' & -> & Hfiles & Htags).
        exists file_tag', w'. split; [reflexivity |]. split; [exact Hfiles |].
        intros text. rewrite Htags. cbn. split.
        -- intros [Hin | (file' & t' & f' & l' & Hfile & Hrest)]; [auto |].
           right. exists file', t', f', l'. split; [now right | exact Hrest].
        -- intros [Hin | (file' & t' & f' & l' & Hfile & Hid & Hall & Hrest)]; [auto |].
           apply elem_of_cons in Hfile as [-> | Hfile].
           ++ rewrite Hload in Hid. injection Hid as <-. rewrite Hget in Hall.
              discriminate Hall.
           ++ right. exists file', t', f', l'. auto.
      * destruct (truthy f) eqn:Htruthy.
        -- unfold ret at 1. cbn beta iota.
           destruct (IH ({[Mutagen.str f]} ∪ file_tag) w)
             as (file_tag' & w' & -> & Hfiles & Htags).
           exists file_tag', w'. split; [reflexivity |]. split; [exact Hfiles |].
           intros text. rewrite Htags, elem_of_union, elem_of_singleton. split.
           ++ intros [[-> | Hin] | (file' & t' & f' & l' & Hfile & Hrest)]; [| auto |].
              ** right. exists file, t, f, l. split; [left | auto].
              ** right. exists file', t', f', l'. split; [now right | exact Hrest].
           ++ intros [Hin | (file' & t' & f' & l' & Hfile & Hid & Hall & Htrue & ->)];
                [auto |].
              apply elem_of_cons in Hfile as [-> | Hfile].
              ** rewrite Hload in Hid. injection Hid as <-. rewrite Hget in Hall.
                 injection Hall as <- <-. auto.
              ** right. exists file', t', f', l'. auto.
        -- unfold ret at 1. cbn beta iota.
           destruct (IH file_tag w) as (file_tag' & w' & -> & Hfiles & Htags).
           exists file_tag', w'. split; [reflexivity |]. split; [exact Hfiles |].
           intros text. rewrite Htags. split.
           ++ intros [Hin | (file' & t' & f' & l' & Hfile & Hrest)]; [auto |].
              right. exists file', t', f', l'. split; [now right | exact Hrest].
           ++ intros [Hin | (file' & t' & f' & l' & Hfile & Hid & Hall & Htrue & ->)];
                [auto |].
              apply elem_of_cons in Hfile as [-> | Hfile].
              ** rewrite Hload in Hid. injection Hid as <-. rewrite Hget in Hall.
                 injection Hall as <- <-. congruence.
              ** right. exists file', t', f', l'. auto.
    + assert (exists w0,
                (match e with
                 | ID3NoHeaderError => ret file_tag
                 | _ => logger ERROR "reading the tags of an audio file failed" ;;
                        ret file_tag
                 end) w = (Ok file_tag, w0) /\ files w0 = files w) as (w0 & Hhandler & Hw0).
      { destruct e; unfold bind, logger, modify, ret; cbn; eauto. }
      rewrite Hhandler.
      destruct (IH file_tag w0) as (file_tag' & w' & -> & Hfiles & Htags).
      exists file_tag', w'. split; [reflexivity |]. split; [congruence |].
      intros text. rewrite Htags, Hw0. split.
      * intros [Hin | (file' & t' & f' & l' & Hfile & Hrest)]; [auto |].
        right. exists file', t', f', l'. split; [now right | exact Hrest].
      * intros [Hin | (file' & t' & f' & l' & Hfile & Hid & Hrest)]; [auto |].
        apply elem_of_cons in Hfile as [-> | Hfile].
        -- rewrite Hload in Hid. discriminate Hid.
        -- right. exists file', t', f', l'. auto.
Qed.

(** What the loop over the items adds to the result. *)
Lemma classify_run (file_tag : gset string) :
  forall (media_data : list media) (media_result : list (string * entry)) (w : world),
  exists res w',
    classify fromtimestamp media_data file_tag media_result w = (Ok res, w')
    /\ files w' = files w
    /\ (NoDup media_result.*1 -> NoDup res.*1)
    /\ (forall k, k ∈ media_result.*1 -> k ∈ res.*1)
    /\ (forall m, m ∈ media_data -> bv_id m <> None -> bv_id m <> Some "" ->
                  media_title (default "未知标题" (title m)) ∉ file_tag ->
                  default "" (bv_id m) ∈ res.*1)
    /\ (forall k x, (k, x) ∈ res ->
          (k, x) ∈ media_result
          \/ exists m, m ∈ media_data /\ bv_id m = Some k /\ k <> ""
                       /\ entry_title x = media_title (default "未知标题" (title m))
                       /\ entry_title x ∉ file_tag).
Proof.
  induction media_data as [|m rest IH]; intros media_result w.
  - exists media_result, w. cbn. unfold ret.
    repeat (split; [solve [auto] |]). split; [| auto].
    intros m Hm. inversion Hm.
  - cbn [classify].
    destruct (String.eqb (default "" (bv_id m)) "") eqn:Hbvid;
      [| destruct (bool_decide
                     (media_title (default "未知标题" (title m)) ∈ file_tag)) eqn:Hknown].
    + unfold bind, logger, modify.
      destruct (IH media_result (emit ERROR "bvid missing" w))
        as (res & w' & -> & Hfiles & Hnodup & Hkeys & Hnew & Hfrom).
      exists res, w'. repeat (split; [solve [auto] |]). split.
      * intros m' Hm' Hsome Hnonempty Hfresh.
        apply elem_of_cons in Hm' as [-> | Hm']; [| now apply Hnew].
        apply String.eqb_eq in Hbvid. destruct (bv_id m); cbn in Hbvid; congruence.
      * intros k x Hin. destruct (Hfrom k x Hin) as [Hold | (m' & Hm' & Hrest)];
          [auto |].
        right. exists m'. split; [now right | exact Hrest].
    + unfold bind, logger, modify.
      destruct (IH media_result (emit DEBUG "audio already downloaded, skipped" w))
        as (res & w' & -> & Hfiles & Hnodup & Hkeys & Hnew & Hfrom).
      exists res, w'. repeat (split; [solve [auto] |]). split.
      * intros m' Hm' Hsome Hnonempty Hfresh.
        apply elem_of_cons in Hm' as [-> | Hm']; [| now apply Hnew].
        apply bool_decide_eq_true in Hknown. contradiction.
      * intros k x Hin. destruct (Hfrom k x Hin) as [Hold | (m' & Hm' & Hrest)];
          [auto |].
        right. exists m'. split; [now right | exact Hrest].
    + unfold bind at 1.
      destruct (formatted_run (default 0%Z (duration m)) "%H:%M:%S" DEFAULT_DURATION w)
        as (duration_text & w1 & -> & Hw1).
      unfold bind at 1.
      destruct (formatted_run (default 0%Z (pubtime m)) "%Y-%m-%d %H:%M:%S"
                  DEFAULT_PUBTIME w1) as (pubtime_text & w2 & -> & Hw2).
      match goal with |- context [classify _ rest file_tag ?acc w2] =>
        destruct (IH acc w2)
          as (res & w' & -> & Hfiles & Hnodup & Hkeys & Hnew & Hfrom) end.
      apply String.eqb_neq in Hbvid. apply bool_decide_eq_false in Hknown.
      exists res, w'. split; [reflexivity |]. split; [congruence |].
      split; [intros Hd; apply Hnodup, NoDup_setitem, Hd |].
      split; [intros k Hk; apply Hkeys, keys_setitem; auto |]. split.
      * intros m' Hm' Hsome Hnonempty Hfresh.
        apply elem_of_cons in Hm' as [-> | Hm']; [| now apply Hnew].
        apply Hkeys, keys_setitem. auto.
      * intros k x Hin. destruct (Hfrom k x Hin) as [Hold | (m' & Hm' & Hrest)].
        -- apply elem_of_setitem in Hold as [Hold | [-> ->]]; [auto |].
           right. exists m. split; [left |]. cbn.
           destruct (bv_id m) as [b|]; cbn in *; [| congruence]. auto.
        -- right. exists m'. split; [now right | exact Hrest].
Qed.

(** The whole function: the result and what it is made of. *)
Lemma data_classification_run (data : option (list media)) (input_path : string)
    (w : world) :
  exists res w',
    data_classification truthy fromtimestamp data input_path w = (Ok res, w')
    /\ files w' = files w
    /\ NoDup res.*1
    /\ (forall k x, (k, x) ∈ res ->
          exists media_data m,
            data = Some media_data /\ m ∈ media_data /\ bv_id m = Some k /\ k <> ""
            /\ entry_title x = media_title (default "未知标题" (title m)))
    /\ (forall entries file t f l k x,
          listdir (files w) input_path = Ok entries ->
          file ∈ entries ->
          ID3 (files w) (OsPath.join input_path file) = Ok t ->
          Mutagen.getall "TIT3" t = f :: l ->
          truthy f = true ->
          (k, x) ∈ res -> entry_title x <> Mutagen.str f)
    /\ (forall entries media_data m,
          listdir (files w) input_path = Ok entries ->
          data = Some media_data -> m ∈ media_data ->
          bv_id m <> None -> bv_id m <> Some "" ->
          (forall file t f l,
             file ∈ entries ->
             ID3 (files w) (OsPath.join input_path file) = Ok t ->
             Mutagen.getall "TIT3" t = f :: l ->
             truthy f = true ->
             media_title (default "未知标题" (title m)) <> Mutagen.str f) ->
          default "" (bv_id m) ∈ res.*1).
Proof.
  assert (forall w0 : world,
            NoDup ([] : list (string * entry)).*1
            /\ (forall k x, (k, x) ∈ ([] : list (string * entry)) ->
                  exists media_data m,
                    data = Some media_data /\ m ∈ media_data /\ bv_id m = Some k
                    /\ k <> ""
                    /\ entry_title x = media_title (default "未知标题" (title m)))
            /\ (forall entries file t f l k x,
                  listdir (files w) input_path = Ok entries ->
                  file ∈ entries ->
                  ID3 (files w) (OsPath.join input_path file) = Ok t ->
                  Mutagen.getall "TIT3" t = f :: l ->
                  truthy f = true ->
                  (k, x) ∈ ([] : list (string * entry)) ->
                  entry_title x <> Mutagen.str f)) as Hempty.
  { intros _. split; [apply NoDup_nil_2 |].
    split; [intros k x Hin; inversion Hin |].
    intros entries file t f l k x _ _ _ _ _ Hin. inversion Hin. }
  unfold data_classification. destruct data as [media_data|].
  2:{ unfold bind, logger, modify, ret. eexists _, _. split; [reflexivity |].
      split; [reflexivity |]. destruct (Hempty w) as (H1 & H2 & H3).
      repeat (split; [assumption |]). intros; discriminate. }
  unfold bind at 1, gets at 1.
  destruct (isdir (files w) input_path) eqn:Hdir; cbn [negb].
  2:{ unfold bind, logger, modify, ret. eexists _, _. split; [reflexivity |].
      split; [reflexivity |]. destruct (Hempty w) as (H1 & H2 & H3).
      repeat (split; [assumption |]).
      intros entries media_data' m Hlist. unfold isdir, listdir in *.
      destruct (files w !! input_path) as [[]|]; discriminate. }
  destruct media_data as [|m0 rest].
  { unfold bind, logger, modify, ret. eexists _, _. split; [reflexivity |].
    split; [reflexivity |]. destruct (Hempty w) as (H1 & H2 & H3).
    repeat (split; [assumption |]).
    intros entries media_data' m _ [= <-] Hm. inversion Hm. }
  assert (exists entries, listdir (files w) input_path = Ok entries) as (entries & Hlist).
  { unfold isdir, listdir in *. destruct (files w !! input_path) as [[]|];
      try discriminate Hdir. eauto. }
  unfold bind at 1, reads at 1. rewrite Hlist.
  unfold bind at 1.
  destruct (collect_tags_run input_path entries ∅ w)
    as (file_tag & w1 & -> & Hfiles1 & Htags).
  unfold bind at 1.
  destruct (classify_run file_tag (m0 :: rest) [] w1)
    as (res & w2 & -> & Hfiles2 & Hnodup & _ & Hnew & Hfrom).
  unfold bind, logger, modify, ret. cbn beta iota.
  eexists _, _. split; [reflexivity |]. cbn.
  split; [congruence |]. split; [apply Hnodup, NoDup_nil_2 |]. split; [| split].
  - intros k x Hin. destruct (Hfrom k x Hin) as [Hold | (m & Hm & Hk & Hne & Ht & _)];
      [inversion Hold |].
    exists (m0 :: rest), m. auto.
  - intros entries' file t f l k x [= <-] Hfile Hload Hget Htrue Hin Heq.
    destruct (Hfrom k x Hin) as [Hold | (m & _ & _ & _ & _ & Hfresh)];
      [inversion Hold |].
    apply Hfresh, Htags. right. exists file, t, f, l. rewrite Heq. auto.
  - intros entries' media_data' m [= <-] [= <-] Hm Hsome Hnonempty Hfresh.
    apply Hnew; try assumption.
    intros Hin. apply Htags in Hin as [Hin | (file & t & f & l & Hfile & Hload & Hget & Htrue & Heq)].
    + set_solver.
    + exact (Hfresh file t f l Hfile Hload Hget Htrue Heq).
Qed.

(** X23: on an answer whose entries have the types of the interface,
    the classification returns a result and leaves the files alone; the
    keys of the result are pairwise different, and each is the non-empty
    bvid of an item of the list, stored with that item's title without
    the invalid characters. *)
Theorem classification_keys_are_bvids (data : option (list media)) (input_path : string)
    (w : world) :
  exists res w',
    data_classification truthy fromtimestamp data input_path w = (Ok res, w')
    /\ files w' = files w
    /\ NoDup res.*1
    /\ forall k x, (k, x) ∈ res ->
         exists media_data m,
           data = Some media_data /\ m ∈ media_data /\ bv_id m = Some k /\ k <> ""
           /\ entry_title x = media_title (default "未知标题" (title m)).
Proof.
  destruct (data_classification_run data input_path w)
    as (res & w' & Hrun & Hfiles & Hnodup & Hfrom & _).
  exists res, w'. auto.
Qed.

(** X24: no title of the result holds one of the characters
    backslash, slash, colon, star, question mark, double quote, angle
    bracket or bar. *)
Theorem classified_titles_are_clean (data : option (list media)) (input_path : string)
    (w : world) :
  exists res w',
    data_classification truthy fromtimestamp data input_path w = (Ok res, w')
    /\ forall k x character,
         (k, x) ∈ res ->
         occurs character invalid_characters = true ->
         occurs character (entry_title x) = false.
Proof.
  destruct (data_classification_run data input_path w)
    as (res & w' & Hrun & _ & _ & Hfrom & _).
  exists res, w'. split; [exact Hrun |].
  intros k x character Hin Hinvalid.
  destruct (Hfrom k x Hin) as (media_data & m & _ & _ & _ & _ & ->).
  now apply occurs_media_title.
Qed.

(** X25: an item whose title is the TIT3 text of a file of the audio
    directory is left out: no title of the result is the text of the
    first TIT3 frame of a file there. *)
Theorem downloaded_titles_are_left_out (data : option (list media)) (input_path : string)
    (w : world) (entries : list string) (file : string) (t : Mutagen.tags)
    (f : Mutagen.frame) (l : list Mutagen.frame) :
  listdir (files w) input_path = Ok entries ->
  file ∈ entries ->
  ID3 (files w) (OsPath.join input_path file) = Ok t ->
  Mutagen.getall "TIT3" t = f :: l ->
  truthy f = true ->
  exists res w',
    data_classification truthy fromtimestamp data input_path w = (Ok res, w')
    /\ forall k x, (k, x) ∈ res -> entry_title x <> Mutagen.str f.
Proof.
  intros Hlist Hfile Hload Hget Htrue.
  destruct (data_classification_run data input_path w)
    as (res & w' & Hrun & _ & _ & _ & Hskip & _).
  exists res, w'. split; [exact Hrun |].
  intros k x Hin.
  exact (Hskip entries file t f l k x Hlist Hfile Hload Hget Htrue Hin).
Qed.

(** X26: an item with a bvid whose cleaned title no file of the audio
    directory carries is in the result. *)
Theorem new_items_are_classified (media_data : list media) (input_path : string)
    (w : world) (entries : list string) (m : media) :
  listdir (files w) input_path = Ok entries ->
  m ∈ media_data ->
  bv_id m <> None -> bv_id m <> Some "" ->
  (forall file t f l,
     file ∈ entries ->
     ID3 (files w) (OsPath.join input_path file) = Ok t ->
     Mutagen.getall "TIT3" t = f :: l ->
     truthy f = true ->
     media_title (default "未知标题" (title m)) <> Mutagen.str f) ->
  exists res w',
    data_classification truthy fromtimestamp (Some media_data) input_path w
    = (Ok res, w')
    /\ default "" (bv_id m) ∈ res.*1.
Proof.
  intros Hlist Hm Hsome Hnonempty Hfresh.
  destruct (data_classification_run (Some media_data) input_path w)
    as (res & w' & Hrun & _ & _ & _ & _ & Hnew).
  exists res, w'. split; [exact Hrun |].
  exact (Hnew entries media_data m Hlist eq_refl Hm Hsome Hnonempty Hfresh).
Qed.

End ClassificationResult.

Lemma downloaded_titles_are_left_out_witness :
  exists res w',
    Classification.data_classification Classification.always_true Classification.seconds
      (Some [Classification.known_item; Classification.new_item]) "in" Examples.library
    = (Ok res, w')
    /\ forall k x, (k, x) ∈ res -> Classification.entry_title x <> "song".
Proof.
  apply (downloaded_titles_are_left_out Classification.always_true Classification.seconds
           (Some [Classification.known_item; Classification.new_item]) "in"
           Examples.library ["a.mp3"; "b.mp3"; "c.mp3"] "c.mp3"
           [("TIT3", Mutagen.Text "TIT3" ["song"])] (Mutagen.Text "TIT3" ["song"]) []).
  - reflexivity.
  - apply (bool_decide_unpack _). vm_compute. exact I.
  - vm_compute. reflexivity.
  - reflexivity.
  - reflexivity.
Defined.

Lemma new_items_are_classified_witness :
  exists res w',
    Classification.data_classification Classification.always_true Classification.seconds
      (Some [Classification.known_item; Classification.new_item]) "in" Examples.library
    = (Ok res, w')
    /\ "BV1yy411c7mE" ∈ res.*1.
Proof.
  apply (new_items_are_classified Classification.always_true Classification.seconds
           [Classification.known_item; Classification.new_item] "in" Examples.library
           ["a.mp3"; "b.mp3"; "c.mp3"] Classification.new_item).
  - reflexivity.
  - right. left.
  - discriminate.
  - discriminate.
  - intros file t f l Hfile Hload Hget _.
    repeat (apply elem_of_cons in Hfile as [-> | Hfile]);
      [| | | inversion Hfile]; vm_compute in Hload; try discriminate Hload.
    injection Hload as <-. vm_compute in Hget. injection Hget as <- _.
    vm_compute. discriminate.
Defined.

(** ** The detection of the tools *)

Section ToolDetection.

Import Fs Tools.

Variable which : string -> option string.

Lemma dict_get_setitem (key k : string) (v : string) (d : list (string * string)) :
  dict_get k (Classification.setitem key v d)
  = if String.eqb key k then Some v else dict_get k d.
Proof.
  unfold dict_get. induction d as [|[k' v'] d IH]; cbn.
  - destruct (String.eqb key k); reflexivity.
  - destruct (String.eqb k' key) eqn:Hk; cbn.
    + apply String.eqb_eq in Hk. subst k'. destruct (String.eqb key k); reflexivity.
    + destruct (String.eqb k' k) eqn:Hk'; cbn.
      * apply String.eqb_eq in Hk'. subst k'. rewrite String.eqb_sym in Hk.
        now rewrite Hk.
      * exact IH.
Qed.

Lemma detect_run :
  forall (tools : list string) (st : detection) (w : world),
  (forall tool path, dict_get tool (tool_list st) = Some path ->
                     found which tool = Some path) ->
  exists st' w',
    detect which tools st w = (Ok st', w')
    /\ files w' = files w /\ slept w' = slept w /\ attempts w' = attempts w
    /\ (forall tool,
          dict_get tool (tool_list st')
          = if bool_decide (tool ∈ tools) then found which tool
            else dict_get tool (tool_list st))
    /\ missing_tools st'
       = (missing_tools st
          ++ List.filter (fun tool => match found which tool with
                                      | Some _ => false
                                      | None => true
                                      end) tools)%list
    /\ (failed st' + succeed st' = failed st + succeed st + Z.of_nat (List.length tools))%Z.
Proof.
  induction tools as [|tool rest IH]; intros st w Hsound.
  - exists st, w. cbn. rewrite app_nil_r. unfold ret.
    do 4 (split; [reflexivity |]). split; [| split; [reflexivity | lia]].
    intros tool. rewrite bool_decide_eq_false_2; [reflexivity |]. intros H. inversion H.
  - cbn [detect]. destruct (found which tool) as [tool_result|] eqn:Hfound.
    + unfold bind, logger, modify.
      match goal with |- context [detect which rest ?st0 ?w0] =>
        destruct (IH st0 w0) as (st' & w' & -> & Hf & Hs & Ha & Hget & Hmiss & Hcount) end.
      { cbn [tool_list]. intros k path. rewrite dict_get_setitem.
        destruct (String.eqb tool k) eqn:Hk; [| apply Hsound].
        apply String.eqb_eq in Hk. subst k. congruence. }
      exists st', w'. split; [reflexivity |].
      cbn [tool_list missing_tools failed succeed] in Hget, Hmiss, Hcount.
      cbn in Hf, Hs, Ha.
      do 3 (split; [assumption |]). split; [| split].
      * intros k. rewrite Hget, dict_get_setitem.
        destruct (bool_decide (k ∈ rest)) eqn:Hrest.
        -- apply bool_decide_eq_true in Hrest.
           rewrite bool_decide_eq_true_2 by (now right). reflexivity.
        -- apply bool_decide_eq_false in Hrest.
           destruct (String.eqb tool k) eqn:Hk.
           ++ apply String.eqb_eq in Hk. subst k.
              rewrite bool_decide_eq_true_2 by left. now rewrite Hfound.
           ++ apply String.eqb_neq in Hk.
              rewrite bool_decide_eq_false_2; [reflexivity |].
              intros Hin. apply elem_of_cons in Hin as [-> | Hin]; congruence.
      * rewrite Hmiss. cbn. now rewrite Hfound.
      * cbn [List.length]. lia.
    + match goal with |- context [detect which rest ?st0 w] =>
        destruct (IH st0 w) as (st' & w' & -> & Hf & Hs & Ha & Hget & Hmiss & Hcount) end.
      { exact Hsound. }
      exists st', w'. split; [reflexivity |].
      cbn [tool_list missing_tools failed succeed] in Hget, Hmiss, Hcount.
      do 3 (split; [assumption |]). split; [| split].
      * intros k. rewrite Hget.
        destruct (bool_decide (k ∈ rest)) eqn:Hrest.
        -- apply bool_decide_eq_true in Hrest.
           rewrite bool_decide_eq_true_2 by (now right). reflexivity.
        -- apply bool_decide_eq_false in Hrest.
           destruct (String.eqb tool k) eqn:Hk.
           ++ apply String.eqb_eq in Hk. subst k.
              rewrite bool_decide_eq_true_2 by left. rewrite Hfound.
              destruct (dict_get tool (tool_list st)) as [path|] eqn:Hold;
                [| reflexivity].
              apply Hsound in Hold. congruence.
           ++ apply String.eqb_neq in Hk.
              rewrite bool_decide_eq_false_2; [reflexivity |].
              intros Hin. apply elem_of_cons in Hin as [-> | Hin]; congruence.
      * rewrite Hmiss, <- app_assoc. cbn. now rewrite Hfound.
      * cbn [List.length]. lia.
Qed.

(** X27: the dict returned by [tool_detection] maps exactly the listed
    tools that [shutil.which] finds to their paths: a tool that is not
    listed or not found has no entry.  The function never raises and
    touches no file. *)
Theorem tool_detection_maps_found_tools (tools : list string) (w : world) :
  exists res w',
    tool_detection which tools w = (Ok res, w')
    /\ files w' = files w
    /\ forall tool,
         dict_get tool res
         = if bool_decide (tool ∈ tools) then found which tool else None.
Proof.
  unfold tool_detection. unfold bind at 1.
  destruct (detect_run tools (mkDetection [] [] 0 0) w)
    as (st' & w' & -> & Hf & _ & _ & Hget & _);
    [intros tool path Hnone; discriminate Hnone |].
  destruct (missing_tools st'); unfold bind, ret, logger, modify; cbn;
    eexists _, _; (split; [reflexivity |]); cbn; (split; [exact Hf |]);
    intros tool; rewrite Hget; destruct (bool_decide (tool ∈ tools)); reflexivity.
Qed.

End ToolDetection.

(** ** The guards of the pools *)

Section PoolGuards.

Import Fs ConcurrentTasks.

Variable you_get : string -> string -> string -> Z -> M world Z.
Variable ffmpeg : string -> string -> string -> M world Z.
Variable year : N.
Variable save_v23 : Mutagen.tags -> file -> result file.
Variable site : string -> Z -> list (string * Z) -> FileCompression.session.
Variable mkdtemp : fs -> string.

(** X28: a download task whose configuration lacks one of the five
    required entries logs one error and does nothing else: no scratch
    directory is made and no tool is run. *)
Theorem incomplete_task_is_rejected (config : task_config) (w : world) :
  video_name config = None \/ output_path config = None \/ download_url config = None
  \/ audio_format config = None \/ track_information config = None ->
  exists msg,
    process_video_download you_get ffmpeg year save_v23 mkdtemp config w
    = (Ok tt, emit ERROR msg w).
Proof.
  intros Hmissing. unfold process_video_download.
  destruct (video_name config), (output_path config), (download_url config),
    (audio_format config), (track_information config);
    try (eexists; reflexivity).
  destruct Hmissing as [H | [H | [H | [H | H]]]]; discriminate H.
Qed.

(** X29: no exception leaves the acquisition pool, whatever the tools do
    inside the tasks; and it returns [True] only for a configuration
    with all its entries, an output directory that exists, and as many
    names as URLs, at least one. *)
Theorem acquisition_pool_never_raises (config : pool_config) (w : world) :
  exists (b : bool) w',
    concurrent_process you_get ffmpeg year save_v23 mkdtemp config w = (Ok b, w')
    /\ (b = true ->
        exists urls names out,
          url_list config = Some urls /\ name_list config = Some names
          /\ pool_output_path config = Some out
          /\ pool_audio_format config <> None
          /\ pool_track_information config <> None
          /\ isdir (files w) out = true
          /\ List.length urls = List.length names
          /\ urls <> []).
Proof.
  unfold concurrent_process.
  destruct (url_list config) as [urls|], (name_list config) as [names|],
    (pool_output_path config) as [out|], (pool_audio_format config) as [fmt|],
    (pool_track_information config) as [info|];
    try (unfold bind, logger, modify, ret; cbn; eexists _, _;
         split; [reflexivity | intros; discriminate]).
  unfold bind at 1, gets at 1.
  destruct (isdir (files w) out) eqn:Hout; cbn [negb].
  2:{ unfold bind, logger, modify, ret; cbn; eexists _, _;
      split; [reflexivity | intros; discriminate]. }
  destruct (Nat.eqb (List.length urls) (List.length names)) eqn:Hlen; cbn [negb].
  2:{ unfold bind, logger, modify, ret; cbn; eexists _, _;
      split; [reflexivity | intros; discriminate]. }
  apply Nat.eqb_eq in Hlen.
  destruct (orb (Nat.eqb (List.length urls) 0) (Nat.eqb (List.length names) 0)) eqn:Hempty.
  { unfold bind, logger, modify, ret; cbn; eexists _, _;
    split; [reflexivity | intros; discriminate]. }
  apply orb_false_iff in Hempty as [Hurls _]. apply Nat.eqb_neq in Hurls.
  unfold bind at 1.
  destruct (run_tasks _ w) as [results w1].
  unfold bind at 1.
  destruct (count_failed_run results 0 w1) as (w2 & -> & _).
  unfold ret. eexists _, _. split; [reflexivity |].
  intros _. exists urls, names, out.
  repeat (split; [solve [auto | discriminate] |]).
  intros ->. apply Hurls. reflexivity.
Qed.

(** X30: the compression pool started on an input or an output path
    that is no directory logs one error and returns [False] without
    examining a file. *)
Theorem compression_pool_rejects_invalid_directories (input_path output_path : string)
    (config : FileCompression.config) (w : world) :
  isdir (files w) input_path = false \/ isdir (files w) output_path = false ->
  exists msg,
    concurrent_compression site input_path output_path config w
    = (Ok false, emit ERROR msg w).
Proof.
  intros Hinvalid. unfold concurrent_compression.
  unfold bind at 1, gets at 1.
  destruct (isdir (files w) input_path) eqn:Hin; cbn [negb];
    [| eexists; reflexivity].
  unfold bind at 1, gets at 1.
  destruct (isdir (files w) output_path) eqn:Hout; cbn [negb];
    [| eexists; reflexivity].
  destruct Hinvalid as [H | H]; discriminate H.
Qed.

End PoolGuards.

Lemma incomplete_task_is_rejected_witness :
  exists msg,
    ConcurrentTasks.process_video_download Examples.you_get_fails Examples.ffmpeg_fails
      2025 Examples.save_as_is Examples.scratch_name Guards.no_url Examples.single
    = (Ok tt, emit ERROR msg Examples.single).
Proof.
  apply (incomplete_task_is_rejected Examples.you_get_fails Examples.ffmpeg_fails 2025
           Examples.save_as_is Examples.scratch_name Guards.no_url Examples.single).
  right. right. left. reflexivity.
Defined.

Lemma compression_pool_rejects_invalid_directories_witness :
  exists msg,
    ConcurrentTasks.concurrent_compression Examples.site_down "in" "in/a.mp3"
      Examples.default_config Examples.single
    = (Ok false, emit ERROR msg Examples.single).
Proof.
  apply (compression_pool_rejects_invalid_directories Examples.site_down "in" "in/a.mp3"
           Examples.default_config Examples.single).
  right. reflexivity.
Defined.
